(** * YourCovidRisk: the airborne-transmission exposure engine

    A shallow embedding of [calculators/validators.py],
    [calculators/risk_distribution.py] and
    [calculators/exposure_calculator.py], and the properties of the
    specification that concern them; then of two users of the engine's
    results, the averaging of two results in
    [covid_app/blueprints/exposure.py] and the compounding over weeks in
    [calculators/time_varying_prevalence.py], with further properties of
    all five.

    Modelling conventions.
    - A Python [float] that takes part in arithmetic is a real number
      ([R]): the arithmetic is exact, there is no rounding, overflow or
      NaN.  Where the text-to-float conversion can produce an infinity
      or a NaN the value is a [pyfloat], which keeps the three classes
      apart.
    - Exact arithmetic neither overflows nor rounds.  Where the
      program's binary64 values would overflow to an infinity, and from
      there to a NaN, or where a text denotes a number that binary64
      does not hold, the program and the model part ways; a property
      that depends on it carries bounds on its inputs that keep the
      program's values finite and exact.
    - A Python [int] is a [Z].
    - A [str] is a [string] of ASCII characters.  Python's additional
      Unicode white space and Unicode decimal digits are outside the
      model.
    - The process-wide generator [np.random] is explicit: a realization
      of the values it hands out, and a state that every sampling call
      advances.
    - The [print] calls of the source write to the console only and are
      left out. *)

From Stdlib Require Import Reals Lra Lia ZArith QArith Qreals Qround.
From Stdlib Require Import String Ascii List Bool Arith Psatz.
Import ListNotations.

(* ================================================================== *)
(** * Python built-ins used by the validators *)
(* ================================================================== *)

Module builtins.

Local Open Scope string_scope.
Local Open Scope N_scope.

Definition ord (c : ascii) : N := N_of_ascii c.

(** White space as [str.strip()] sees it (CPython's [Py_UNICODE_ISSPACE],
    ASCII part): TAB..CR, FS..US and SPACE. *)
Definition Py_UNICODE_ISSPACE (c : ascii) : bool :=
  ((9 <=? ord c) && (ord c <=? 13)) || ((28 <=? ord c) && (ord c <=? 32)).

(** White space as [float()] and [int()] skip it around a number
    (CPython's [Py_ISSPACE]): TAB..CR and SPACE. *)
Definition Py_ISSPACE (c : ascii) : bool :=
  ((9 <=? ord c) && (ord c <=? 13)) || (ord c =? 32).

Fixpoint lstrip (sp : ascii -> bool) (s : string) : string :=
  match s with
  | EmptyString => EmptyString
  | String c t => if sp c then lstrip sp t else s
  end.

Fixpoint rstrip (sp : ascii -> bool) (s : string) : string :=
  match s with
  | EmptyString => EmptyString
  | String c t =>
      match rstrip sp t with
      | EmptyString => if sp c then EmptyString else String c EmptyString
      | t' => String c t'
      end
  end.

(** [s.strip()] for the white-space class [sp]. *)
Definition strip (sp : ascii -> bool) (s : string) : string :=
  rstrip sp (lstrip sp s).

Definition is_digit (c : ascii) : bool := (48 <=? ord c) && (ord c <=? 57).

Definition digit_val (c : ascii) : Z := (Z.of_N (ord c) - 48)%Z.

Definition is_underscore (c : ascii) : bool := ord c =? 95.

(** Lower-casing of an ASCII letter, for the case-insensitive spellings
    of infinity and NaN. *)
Definition lower (c : ascii) : ascii :=
  if (65 <=? ord c) && (ord c <=? 90) then ascii_of_N (ord c + 32) else c.

Fixpoint lower_str (s : string) : string :=
  match s with
  | EmptyString => EmptyString
  | String c t => String (lower c) (lower_str t)
  end.

(** Digit-group underscores (PEP 515) as CPython removes them before it
    reads a number: each underscore needs a digit before it and a digit
    after it.  [prev] is the preceding character, if any. *)
Fixpoint strip_underscores (prev : option ascii) (s : string) : option string :=
  match s with
  | EmptyString =>
      match prev with
      | Some p => if is_underscore p then None else Some EmptyString
      | None => Some EmptyString
      end
  | String c t =>
      if is_underscore c then
        match prev with
        | Some p => if is_digit p then strip_underscores (Some c) t else None
        | None => None
        end
      else
        let after_underscore :=
          match prev with Some p => is_underscore p | None => false end in
        if after_underscore && negb (is_digit c) then None
        else option_map (String c) (strip_underscores (Some c) t)
  end.

(** An optional sign: [(negative, rest)]. *)
Definition parse_sign (s : string) : bool * string :=
  match s with
  | String c t =>
      if ord c =? 45 then (true, t)
      else if ord c =? 43 then (false, t)
      else (false, s)
  | EmptyString => (false, s)
  end.

(** The longest prefix of decimal digits (most significant first) and
    what follows it. *)
Fixpoint span_digits (s : string) : list Z * string :=
  match s with
  | String c t =>
      if is_digit c then
        let '(ds, r) := span_digits t in (digit_val c :: ds, r)
      else ([], s)
  | EmptyString => ([], s)
  end.

Definition digits_value (ds : list Z) : Z :=
  fold_left (fun acc d => (10 * acc + d)%Z) ds 0%Z.

(** The exponent part [e[+-]ddd] of a decimal literal, when there is
    one: its value and what follows.  Without digits after the [e] the
    literal ends before the [e]. *)
Definition parse_exponent (s : string) : Z * string :=
  match s with
  | String c t =>
      if (ord c =? 101) || (ord c =? 69) then
        let '(neg, t') := parse_sign t in
        let '(ed, r) := span_digits t' in
        match ed with
        | [] => (0%Z, s)
        | _ => ((if neg then - digits_value ed else digits_value ed)%Z, r)
        end
      else (0%Z, s)
  | EmptyString => (0%Z, s)
  end.

(** An unsigned decimal literal [ddd[.ddd][e[+-]ddd]] or [.ddd[e..]]
    that spans the whole string: mantissa and power of ten. *)
Definition parse_decimal (s : string) : option (Z * Z) :=
  let '(ip, r1) := span_digits s in
  let '(fp, r2) :=
    match r1 with
    | String c t => if ord c =? 46 then span_digits t else ([], r1)
    | EmptyString => ([], r1)
    end in
  match (ip ++ fp)%list with
  | [] => None
  | ds =>
      let '(e, r3) := parse_exponent r2 in
      match r3 with
      | EmptyString => Some (digits_value ds, (e - Z.of_nat (length fp))%Z)
      | _ => None
      end
  end.

End builtins.

(** A Python [float]: a finite number (kept exact), an infinity or NaN. *)
Inductive pyfloat : Type :=
| Fin (q : Q)
| Inf (negative : bool)
| NaN.

Definition is_finite (f : pyfloat) : bool :=
  match f with Fin _ => true | _ => false end.

Module conversions.

Import builtins.
Local Open Scope string_scope.

(** The exact value [m * 10^e]. *)
Definition decimal_value (m e : Z) : Q :=
  if (0 <=? e)%Z then inject_Z (m * 10 ^ e)
  else Qmake m (Z.to_pos (10 ^ (- e))).

(** Decimal values of this magnitude or more round to an infinity in
    binary64 (the midpoint between the largest double and [2^1024]). *)
Definition DBL_ROUNDS_TO_INF : Q := inject_Z (2 ^ 1024 - 2 ^ 970).

(** [float(s)] for a string: [None] stands for [ValueError]. *)
Definition float (s : string) : option pyfloat :=
  match strip_underscores None (strip Py_ISSPACE s) with
  | None => None
  | Some t =>
      let '(neg, body) := parse_sign t in
      let low := lower_str body in
      if (low =? "inf") || (low =? "infinity") then Some (Inf neg)
      else if low =? "nan" then Some NaN
      else
        match parse_decimal body with
        | None => None
        | Some (m, e) =>
            let v := decimal_value m e in
            if Qle_bool DBL_ROUNDS_TO_INF v then Some (Inf neg)
            else Some (Fin (if neg then Qopp v else v))
        end
  end.

(** CPython refuses to convert more than this many digits to an [int]
    ([sys.get_int_max_str_digits()], default value). *)
Definition int_max_str_digits : nat := 4300.

(** [int(s)] for a string, base ten: [None] stands for [ValueError]. *)
Definition int (s : string) : option Z :=
  match strip_underscores None (strip Py_ISSPACE s) with
  | None => None
  | Some t =>
      let '(neg, body) := parse_sign t in
      match span_digits body with
      | ([], _) => None
      | (ds, EmptyString) =>
          if (int_max_str_digits <? length ds)%nat then None
          else Some (if neg then - digits_value ds else digits_value ds)%Z
      | (_, String _ _) => None
      end
  end.

(** [repr(s)] of a [str]: quoted, with the quote, the backslash and the
    characters that do not print escaped. *)
Definition hex_digit (n : N) : ascii :=
  if (n <? 10)%N then ascii_of_N (48 + n) else ascii_of_N (87 + n).

Definition contains (c : N) (s : string) : bool :=
  existsb (fun x => (ord x =? c)%N) (list_ascii_of_string s).

Fixpoint repr_body (quote : N) (s : string) : string :=
  match s with
  | EmptyString => EmptyString
  | String c t =>
      let n := ord c in
      let rest := repr_body quote t in
      if ((n =? 92) || (n =? quote))%N then String "\" (String c rest)
      else if (n =? 9)%N then "\t" ++ rest
      else if (n =? 10)%N then "\n" ++ rest
      else if (n =? 13)%N then "\r" ++ rest
      else if ((n <? 32) || (n =? 127))%N then
        "\x" ++ String (hex_digit (n / 16)) (String (hex_digit (n mod 16)) rest)
      else String c rest
  end.

Definition str_repr (s : string) : string :=
  let quote : N :=
    if contains 39 s && negb (contains 34 s) then 34%N else 39%N in
  String (ascii_of_N quote) (repr_body quote s ++ String (ascii_of_N quote) EmptyString).

End conversions.

(* ================================================================== *)
(** * calculators/validators.py *)
(* ================================================================== *)

(** What the helpers may be handed: a [str], or any other object, of
    which they use nothing but its [repr]. *)
Inductive pyval : Type :=
| PyStr (s : string)
| PyObj (repr : string).

Definition None_ : pyval := PyObj "None".

Module validators.

Import builtins conversions.
Local Open Scope string_scope.

Definition repr (value : pyval) : string :=
  match value with
  | PyStr s => str_repr s
  | PyObj r => r
  end.

Definition _strip (value : pyval) : string :=
  match value with
  | PyStr s => strip Py_UNICODE_ISSPACE s
  | PyObj _ => EmptyString
  end.

Definition safe_float (value : pyval) (default : pyfloat) : pyfloat * string :=
  let txt := _strip value in
  if txt =? EmptyString then (default, EmptyString)
  else
    match float txt with
    | Some x => (x, EmptyString)
    | None => (default, "Invalid float: " ++ repr value)
    end.

Definition safe_int (value : pyval) (default : Z) : Z * string :=
  let txt := _strip value in
  if txt =? EmptyString then (default, EmptyString)
  else
    match int txt with
    | Some n => (n, EmptyString)
    | None => (default, "Invalid int: " ++ repr value)
    end.

End validators.

(* ================================================================== *)
(** * Python objects: the dynamic values of the result dictionaries *)
(* ================================================================== *)

Local Open Scope string_scope.

#[local] Set Warnings "-register-all".

Inductive pyobj : Type :=
| ONone
| OInt (z : Z)
| OFloat (x : R)
| OStr (s : string)
| OList (l : list pyobj)
| ODict (d : list (string * pyobj)).

(** A [dict] keeps its keys in insertion order; [d[k] = v] replaces the
    value of a key that is present and appends a new key otherwise. *)
Definition dict : Type := list (string * pyobj).

Fixpoint dict_get (k : string) (d : dict) : option pyobj :=
  match d with
  | [] => None
  | (k', v) :: rest => if k =? k' then Some v else dict_get k rest
  end.

Fixpoint dict_set (k : string) (v : pyobj) (d : dict) : dict :=
  match d with
  | [] => [(k, v)]
  | (k', v') :: rest =>
      if k =? k' then (k, v) :: rest else (k', v') :: dict_set k v rest
  end.

Definition dict_keys (d : dict) : list string := map fst d.

(* ================================================================== *)
(** * numpy: the array functions the engine uses, on lists of reals *)
(* ================================================================== *)

Module np.

Local Open Scope R_scope.

Definition log10 (x : R) : R := ln x / ln 10.

(** [np.logspace(start, stop, num)]: [10 ** linspace(start, stop, num)]. *)
Definition logspace (start stop : R) (num : nat) : list R :=
  map (fun i => Rpower 10 (start + INR i * ((stop - start) / INR (num - 1))))
      (seq 0 num).

Definition clip (a a_min a_max : R) : R := Rmin a_max (Rmax a a_min).

Definition sum (a : list R) : R := fold_right Rplus 0 a.

Definition mean (a : list R) : R := sum a / INR (length a).

Fixpoint insert (x : R) (l : list R) : list R :=
  match l with
  | [] => [x]
  | y :: t => if Rle_dec x y then x :: l else y :: insert x t
  end.

Fixpoint sort (l : list R) : list R :=
  match l with
  | [] => []
  | x :: t => insert x (sort t)
  end.

(** [np.percentile(a, q)], default (linear) method: the value at the
    virtual index [q/100 * (n - 1)] of the sorted array, interpolated
    between its two neighbours. *)
Definition percentile (a : list R) (q : R) : R :=
  let s := sort a in
  let n := length a in
  let h := q / 100 * INR (n - 1) in
  let lo := Z.to_nat (Zfloor h) in
  let hi := Nat.min (lo + 1) (n - 1) in
  let g := h - IZR (Zfloor h) in
  nth lo s 0 + g * (nth hi s 0 - nth lo s 0).

(** [np.arange(start, stop, step)] for floats: [ceil((stop-start)/step)]
    values [start + i*step]; a zero step has no length and raises. *)
Definition arange (start stop step : R) : option (list R) :=
  if Req_dec_T step 0 then None
  else
    let len := Z.to_nat (Zceil ((stop - start) / step)) in
    Some (map (fun i => start + INR i * step) (seq 0 len)).

Definition count_lt (a : list R) (v : R) : Z :=
  Z.of_nat (length (filter (fun x => if Rlt_dec x v then true else false) a)).

Definition count_le (a : list R) (v : R) : Z :=
  Z.of_nat (length (filter (fun x => if Rle_dec x v then true else false) a)).

(** For every edge but the last the number of samples below it, for the
    last edge the number of samples not above it. *)
Fixpoint cumulative (a : list R) (edges : list R) : list Z :=
  match edges with
  | [] => []
  | [e] => [count_le a e]
  | e :: rest => count_lt a e :: cumulative a rest
  end.

Fixpoint diff (c : list Z) : list Z :=
  match c with
  | x :: ((y :: _) as t) => (y - x)%Z :: diff t
  | _ => []
  end.

Fixpoint increasing (edges : list R) : bool :=
  match edges with
  | x :: ((y :: _) as t) =>
      if Rgt_dec x y then false else increasing t
  | _ => true
  end.

(** [np.histogram(a, bins=edges)] with an explicit array of edges:
    [ValueError] ([None]) when the edges decrease somewhere, otherwise
    the counts, as differences of the cumulative counts, and the edges.
    Every bin is closed on the left and open on the right, but the last
    one, which is closed on both sides. *)
Definition histogram (a : list R) (edges : list R) : option (list Z * list R) :=
  if increasing edges then Some (diff (cumulative a edges), edges) else None.

End np.

(** [round(x)] of a float without a number of digits: the nearest
    integer, a tie going to the even one. *)
Definition round (x : R) : Z :=
  let f := Zfloor x in
  if Rlt_dec (x - IZR f) (1 / 2) then f
  else if Rlt_dec (1 / 2) (x - IZR f) then (f + 1)%Z
  else if Z.even f then f else (f + 1)%Z.

(* ================================================================== *)
(** * calculators/risk_distribution.py *)
(* ================================================================== *)

Module risk_distribution.

Local Open Scope R_scope.

Definition calculate_optimal_axes (risk_array : list R) : R * R * R :=
  let p95 := np.percentile risk_array 95 in
  let p5 := np.percentile risk_array 5 in
  let x_max := p95 * 1.2 in
  let x_min := Rmax 0 (p5 * 0.8) in
  let tick_interval :=
    if Rlt_dec x_max 0.01 then 0.001
    else if Rlt_dec x_max 0.1 then 0.01
    else 0.05 in
  (x_min, x_max, tick_interval).

(** [None]: [np.arange] raised. *)
Definition create_smart_bins (risk_array : list R) (x_min x_max : R)
  : option (list R) :=
  let target_bins := 20 in
  let bin_width := (x_max - x_min) / target_bins in
  let bin_width :=
    if Rlt_dec bin_width 0.001 then IZR (round (bin_width * 10000)) / 10000
    else if Rlt_dec bin_width 0.01 then IZR (round (bin_width * 1000)) / 1000
    else IZR (round (bin_width * 100)) / 100 in
  np.arange x_min (x_max + bin_width) bin_width.

Record Histogram : Type := {
  counts : list Z;
  edges : list R;
  total_simulations : nat;
  max_count : Z
}.

Record AxisConfig : Type := {
  x_min : R;
  x_max : R;
  tick_interval : R;
  x_label : string;
  y_label : string
}.

(** The distribution object.  Its [statistics], [interpretation] and
    [metadata] entries are computed after the histogram from numpy
    reductions and string formatting, which raise nothing; they are not
    part of the model. *)
Record RiskDistribution : Type := {
  histogram : Histogram;
  axis_config : AxisConfig
}.

Definition any_out_of_range (a : list R) : bool :=
  existsb (fun x => if Rlt_dec x 0 then true else false) a
  || existsb (fun x => if Rgt_dec x 1 then true else false) a.

(** The outcome of a call: the returned object, or the exception that
    left the function. *)
Inductive raised : Type :=
| ValueError (message : string)
| ArangeError.

Definition generate_risk_distribution_data (all_risks_array : list R)
  : raised + RiskDistribution :=
  if (length all_risks_array =? 0)%nat then inl (ValueError "Risk array is empty")
  else if any_out_of_range all_risks_array then
    inl (ValueError "Risk values must be between 0 and 1")
  else
    let '(x_min, x_max, tick_interval) := calculate_optimal_axes all_risks_array in
    match create_smart_bins all_risks_array x_min x_max with
    | None => inl ArangeError
    | Some bins =>
        match np.histogram all_risks_array bins with
        | None =>
            inl (ValueError "`bins` must increase monotonically, when an array")
        | Some (counts, edges) =>
            inr {| histogram :=
                     {| counts := counts;
                        edges := edges;
                        total_simulations := length all_risks_array;
                        max_count :=
                          match counts with
                          | [] => 0%Z
                          | c :: t => fold_left Z.max t c
                          end |};
                   axis_config :=
                     {| x_min := x_min;
                        x_max := x_max;
                        tick_interval := tick_interval;
                        x_label := "Infection Risk (%)";
                        y_label := "Number of Scenarios" |} |}
        end
    end.

(** The object as the dictionary the caller receives. *)
Definition to_dict (d : RiskDistribution) : pyobj :=
  ODict
    [("histogram",
      ODict [("counts", OList (map OInt (counts (histogram d))));
             ("edges", OList (map OFloat (edges (histogram d))));
             ("total_simulations",
              OInt (Z.of_nat (total_simulations (histogram d))));
             ("max_count", OInt (max_count (histogram d)))]);
     ("axis_config",
      ODict [("x_min", OFloat (x_min (axis_config d)));
             ("x_max", OFloat (x_max (axis_config d)));
             ("tick_interval", OFloat (tick_interval (axis_config d)));
             ("x_label", OStr (x_label (axis_config d)));
             ("y_label", OStr (y_label (axis_config d)))])].

End risk_distribution.

(* ================================================================== *)
(** * np.random: the process-wide generator *)
(* ================================================================== *)

(** One realization of the generator: the values that its three basic
    samplers (uniform on [[0,1)], standard normal, standard exponential)
    hand out, call after call. *)
Record draws : Type := {
  uniform_draws : nat -> R;
  normal_draws : nat -> R;
  exponential_draws : nat -> R
}.

(** The state of the generator: how many values each basic sampler has
    handed out so far. *)
Record rng_state : Type := {
  uniform_used : nat;
  normal_used : nat;
  exponential_used : nat
}.

(** A computation that samples: it reads the realization and advances
    the state. *)
Definition Sampler (A : Type) : Type := draws -> rng_state -> A * rng_state.

Definition ret {A : Type} (a : A) : Sampler A := fun _ s => (a, s).

Definition bind {A B : Type} (m : Sampler A) (k : A -> Sampler B) : Sampler B :=
  fun w s => k (fst (m w s)) w (snd (m w s)).

Notation "x <- m ;; k" := (bind m (fun x => k))
  (at level 61, m at next level, right associativity).

Module random.

Local Open Scope R_scope.

Definition random : Sampler R := fun w s =>
  (uniform_draws w (uniform_used s),
   {| uniform_used := S (uniform_used s);
      normal_used := normal_used s;
      exponential_used := exponential_used s |}).

Definition standard_normal : Sampler R := fun w s =>
  (normal_draws w (normal_used s),
   {| uniform_used := uniform_used s;
      normal_used := S (normal_used s);
      exponential_used := exponential_used s |}).

Definition standard_exponential : Sampler R := fun w s =>
  (exponential_draws w (exponential_used s),
   {| uniform_used := uniform_used s;
      normal_used := normal_used s;
      exponential_used := S (exponential_used s) |}).

Definition uniform (low high : R) : Sampler R :=
  u <- random ;; ret (low + (high - low) * u).

Definition normal (loc scale : R) : Sampler R :=
  z <- standard_normal ;; ret (loc + scale * z).

Definition lognormal (mean sigma : R) : Sampler R :=
  x <- normal mean sigma ;; ret (exp x).

(** [weibull(a)]: a standard exponential value raised to [1/a]. *)
Definition weibull (a : R) : Sampler R :=
  e <- standard_exponential ;;
  ret (if Req_dec_T e 0 then 0 else Rpower e (1 / a)).

End random.

(** The values the basic samplers can return. *)
Definition draws_ok (w : draws) : Prop :=
  (forall n, 0 <= uniform_draws w n < 1)%R /\
  (forall n, 0 <= exponential_draws w n)%R.

(* ================================================================== *)
(** * calculators/exposure_calculator.py *)
(* ================================================================== *)

Module exposure_calculator.

Import validators.
Local Open Scope R_scope.

Definition oneoverln2 : R := 1 / ln 2.

(** ** The particle-size grid *)

Definition Ds : list R := np.logspace (np.log10 0.1) (np.log10 30) 50.

(** Bin widths: central differences inside, one-sided differences at the
    two ends. *)
Definition bin_widths (D : list R) : list R :=
  let n := length D in
  map (fun i =>
         if (i =? 0)%nat then nth 1 D 0 - nth 0 D 0
         else if (i =? n - 1)%nat then nth (n - 1) D 0 - nth (n - 2) D 0
         else (nth (i + 1) D 0 - nth (i - 1) D 0) / 2)
      (seq 0 n).

Definition dDs : list R := bin_widths Ds.

Definition Dmax_SR : R := 100.
Definition Dmax_LR : R := 20.

Definition D_mouth : R := 0.02.
Definition beta_r_j : R := 0.18.
Definition beta_r_p : R := 0.20.
Definition beta_x_j : R := 2.4.
Definition beta_x_p : R := 2.2.

(** ** Emission spectrum *)

Inductive mode : Type := B | L | O.

Definition cn (m : mode) : R :=
  match m with B => 0.06 | L => 0.2 | O => 0.0010008 end.
Definition mu (m : mode) : R :=
  match m with B => 0.989541 | L => 1.38629 | O => 4.97673 end.
Definition sigma (m : mode) : R :=
  match m with B => 0.262364 | L => 0.506818 | O => 0.585005 end.

Definition famp (activity_choice : string) (m : mode) : R :=
  if (activity_choice =? "1")%string then
    match m with B => 1 | L => 0 | O => 0 end
  else if ((activity_choice =? "2") || (activity_choice =? "3"))%string then
    match m with B => 1 | L => 1 | O => 1 end
  else
    match m with B => 1 | L => 5 | O => 5 end.

Definition emission_spectrum_henriques (D : R) (activity_choice : string) : R :=
  fold_left
    (fun result m =>
       if Rgt_dec (famp activity_choice m) 0 then
         let Np_term :=
           (famp activity_choice m * cn m / (sqrt (2 * PI) * sigma m) / D)
           * exp (- ((ln D - mu m) ^ 2) / (2 * sigma m ^ 2)) in
         let Vp := (4 / 3) * PI * (D / 2) ^ 3 in
         result + Np_term * Vp * 1e-6
       else result)
    [B; L; O] 0.

Definition get_henriques_breathing_rate (physical_activity : string) : R :=
  if (physical_activity =? "sitting")%string then 0.51
  else if (physical_activity =? "standing")%string then 0.57
  else if (physical_activity =? "light")%string then 1.24
  else if (physical_activity =? "moderate")%string then 1.77
  else if (physical_activity =? "heavy")%string then 3.28
  else if (physical_activity =? "seated")%string then 0.51
  else if (physical_activity =? "light_exercise")%string then 1.24
  else if (physical_activity =? "moderate_exercise")%string then 1.77
  else if (physical_activity =? "high_intensity")%string then 3.28
  else 0.57.

Definition get_henriques_vocalization_activity (vocal_activity : string) : string :=
  if (vocal_activity =? "breathing")%string then "1"
  else if (vocal_activity =? "just_breathing")%string then "1"
  else if (vocal_activity =? "speaking")%string then "2"
  else if (vocal_activity =? "loudly_speaking")%string then "5"
  else if (vocal_activity =? "loud_speaking")%string then "5"
  else if (vocal_activity =? "shouting")%string then "5"
  else "2".

(** ** Jet parameters *)

Record JetParameters : Type := {
  x_transition : R;
  x0_j : R;
  x0_p : R;
  t_star : R;
  Q_exh : R;
  u0 : R;
  t0_j : R;
  t0_p : R
}.

Definition calculate_henriques_jet_parameters (BR : R) : JetParameters :=
  let T := 4 in
  let phi_j := 2 in
  let BR_s := BR / 3600 in
  let Q_exh := phi_j * BR_s in
  let V_p := T * BR_s in
  let A_mouth := PI * (D_mouth / 2) ^ 2 in
  let u0 := Q_exh / A_mouth in
  let t_star := T / 2 in
  let t0_j :=
    (sqrt PI * D_mouth ^ 3) / (8 * beta_r_j ^ 2 * beta_x_j ^ 2 * Q_exh) in
  let t0_p :=
    (beta_r_j ^ 4 * beta_x_j ^ 4 / (beta_r_p ^ 4 * beta_x_p ^ 4))
    * (Q_exh / V_p) * (t_star + t0_j) ^ 2 - t_star in
  let x0_j := D_mouth / (2 * beta_r_j) in
  let x_transition :=
    beta_x_j * Rpower (Q_exh * u0) 0.25 * Rpower (t_star + t0_j) 0.5 - x0_j in
  let x0_p := (beta_r_j / beta_r_p) * (x_transition + x0_j) - x_transition in
  {| x_transition := x_transition; x0_j := x0_j; x0_p := x0_p;
     t_star := t_star; Q_exh := Q_exh; u0 := u0; t0_j := t0_j; t0_p := t0_p |}.

Definition emission_spectrum_IRP_henriques
  (D : R) (vocal_activity : string) (viral_load f_inf : R) : R :=
  let henriques_activity := get_henriques_vocalization_activity vocal_activity in
  let Ec_liquid := emission_spectrum_henriques D henriques_activity in
  Ec_liquid * viral_load * f_inf.

(** ** Removal rates *)

(** [evaporation_factor] is the default 0.3 at every call of the engine. *)
Definition deposition_fraction (D evaporation_factor : R) : R :=
  let d := D * evaporation_factor in
  let IFrac := 1 - 0.5 * (1 - (1 / (1 + 0.00076 * Rpower d 2.8))) in
  IFrac * (0.0587
           + 0.911 / (1 + exp (4.77 + 1.485 * ln d))
           + 0.943 / (1 + exp (0.508 - 2.58 * ln d))).

Definition sedimentation_rate (D evaporation_factor : R) : R :=
  let vg := 1.88e-4 * ((D * evaporation_factor) / 2.5) ^ 2 in
  let h := 1.5 in
  (vg * 3600) / h.

(** A zero denominator of the half-life gives numpy an infinite
    half-life, which the cap turns into 6.43 hours. *)
Definition viral_inactivation_rate_long (D T RH : R) : R :=
  let Tc := T - 273.15 in
  let t_norm := (Tc - 20.615) / 10.585 in
  let h_norm := (RH * 100 - 45.235) / 28.665 in
  let denominator :=
    0.16030 + 0.04018 * t_norm + 0.02176 * h_norm - 0.14369 - 0.02636 * t_norm in
  let hl :=
    if Req_dec_T denominator 0 then 6.43
    else
      let hl := ln 2 / denominator in
      if Rle_dec hl 0 then 6.43 else Rmin 6.43 hl in
  ln 2 / hl.

Definition short_range_viability_decay (x u0 RH : R) : R :=
  if Rle_dec RH 0.40 then
    let tx := x / u0 in
    let lambda_SR := 1 - 0.016 * tx in
    Rmax 0 lambda_SR
  else 1.

Definition get_immune_emission_multiplier (immunocompromised_status : string) : R :=
  if (immunocompromised_status =? "normal")%string then 1
  else if (immunocompromised_status =? "moderate")%string then 8
  else if (immunocompromised_status =? "severe")%string then 20
  else 1.

Definition sample_omicron_transmissibility_bayesian : Sampler R :=
  let pooled_mean := 4.20 in
  let ci_lower := 2.05 in
  let ci_upper := 6.35 in
  let log_mean := ln pooled_mean in
  let log_se := (ln ci_upper - ln ci_lower) / (2 * 1.96) in
  log_omicron <- random.normal log_mean log_se ;;
  let omicron_factor := exp log_omicron in
  ret (np.clip omicron_factor 1.5 8.0).

(** ** Legacy helpers and the triphasic survival fraction *)

Definition get_henriques_vocalization (activity_choice : string) : string :=
  if (activity_choice =? "1")%string then "breathing"
  else if (activity_choice =? "2")%string then "speaking"
  else if (activity_choice =? "3")%string then "speaking"
  else if (activity_choice =? "4")%string then "shouting"
  else if (activity_choice =? "5")%string then "shouting"
  else "speaking".

Definition emission_spectrum_IRP_henriques_legacy
  (D : R) (activity_choice : string) (viral_load f_inf : R) : R :=
  let vocalization := get_henriques_vocalization activity_choice in
  emission_spectrum_IRP_henriques D vocalization viral_load f_inf.

(** [None]: the division by a zero mouth area raises
    [ZeroDivisionError]. *)
Definition calculate_jet_velocity (Q0_exhaled D_mouth : R) : option R :=
  let A_mouth := PI * (D_mouth / 2) ^ 2 in
  if Req_dec_T A_mouth 0 then None else Some (Q0_exhaled / A_mouth).

Definition CO2_REF : R := 500.
Definition LAG_HIGHRH : R := 15.
Definition LAG_LOWRH : R := 0.
Definition T1_2_DYN : R := 32.
Definition T1_2_SLOW : R := 4800.

(** [None]: a half-life of zero (an ambient CO2 of zero) makes the
    computation of the decay constants raise [ZeroDivisionError], before
    the time is looked at. *)
Definition omicron_tvad_survival (t RH CO2 : R) : option R :=
  let t_lag := if Rgt_dec RH 0.50 then LAG_HIGHRH else LAG_LOWRH in
  let dyn_h := T1_2_DYN * (CO2 / CO2_REF) in
  let slow_h := T1_2_SLOW * (CO2 / CO2_REF) in
  if Req_dec_T dyn_h 0 then None
  else if Req_dec_T slow_h 0 then None
  else
    let k2 := ln 2 / dyn_h in
    let k3 := ln 2 / slow_h in
    let t_dyn_end := t_lag + 3 * dyn_h in
    if Rle_dec t t_lag then Some 1
    else if Rle_dec t t_dyn_end then Some (exp (- k2 * (t - t_lag)))
    else
      let s2_end := exp (- k2 * (t_dyn_end - t_lag)) in
      Some (s2_end * exp (- k3 * (t - t_dyn_end))).

(** ** The engine *)

(** The arguments of one call. *)
Record Call : Type := {
  a_C0 : pyval;
  a_Q0 : pyval;
  a_p : pyval;
  a_ACH : pyval;
  a_room_volume : pyval;
  a_delta_t : pyval;
  a_x : pyval;
  a_gamma : pyval;
  a_f_e : pyval;
  a_f_i : pyval;
  a_omicron : pyval;
  a_covid_prevalence : pyval;
  a_immune : pyval;
  a_N : pyval;
  a_activity_choice : string;
  a_percentage_masked : pyval;
  a_user_physical_activity : string;
  a_others_physical_activity : string;
  a_others_vocal_activity : string;
  a_RH : R;
  a_CO2 : R;
  a_inside_temp : R;
  a_immunocompromised_status : string
}.

(** The converted fields, over the type [F] of their float values. *)
Record Fields (F : Type) : Type := {
  C0_val : F;
  Q0_val : F;
  p_val : F;
  ACH_val : F;
  room_volume_val : F;
  delta_t_val : F;
  x_val : F;
  gamma_val : F;
  f_e_val : F;
  f_i_val : F;
  omicron_val : F;
  covid_prevalence_val : F;
  immune_val : F;
  N_val : Z;
  percentage_masked_val : F
}.

Arguments C0_val {F}. Arguments Q0_val {F}. Arguments p_val {F}.
Arguments ACH_val {F}. Arguments room_volume_val {F}.
Arguments delta_t_val {F}. Arguments x_val {F}. Arguments gamma_val {F}.
Arguments f_e_val {F}. Arguments f_i_val {F}. Arguments omicron_val {F}.
Arguments covid_prevalence_val {F}. Arguments immune_val {F}.
Arguments N_val {F}. Arguments percentage_masked_val {F}.

(** Division of a float by a positive constant. *)
Definition float_div (f : pyfloat) (d : Q) : pyfloat :=
  match f with
  | Fin q => Fin (q / d)
  | other => other
  end.

(** [any(errors)]: some message is not empty. *)
Definition any (errors : list string) : bool :=
  existsb (fun e => negb (e =? EmptyString)%string) errors.

(** The conversions at the head of the engine: the error messages in the
    order they are collected, and the converted fields. *)
Definition convert_inputs (c : Call) : list string * Fields pyfloat :=
  let '(C0_val, e1) := safe_float (a_C0 c) (Fin 0.1) in
  let '(Q0_val, e2) := safe_float (a_Q0 c) (Fin 0.1) in
  let '(p_val, e3) := safe_float (a_p c) (Fin 0.1) in
  let '(ACH_val, e4) := safe_float (a_ACH c) (Fin 1) in
  let '(room_volume_val, e5) := safe_float (a_room_volume c) (Fin 1000) in
  let '(delta_t_val, e6) := safe_float (a_delta_t c) (Fin 42) in
  let '(x_val, e7) := safe_float (a_x c) (Fin 0.7) in
  let '(gamma_val, e8) := safe_float (a_gamma c) (Fin 0.5) in
  let '(f_e_val, e9) := safe_float (a_f_e c) (Fin 1) in
  let '(f_i_val, e10) := safe_float (a_f_i c) (Fin 1) in
  let '(omicron_val, e11) := safe_float (a_omicron c) (Fin 4.20) in
  let '(covid_prev_pct, e12) := safe_float (a_covid_prevalence c) (Fin 1) in
  let covid_prevalence_val := float_div covid_prev_pct 100 in
  let '(immune_val, e13) := safe_float (a_immune c) (Fin 1) in
  let '(N_val, e14) := safe_int (a_N c) 1 in
  let '(percentage_masked_val, e15) :=
    safe_float (a_percentage_masked c) (Fin 0) in
  ([e1; e2; e3; e4; e5; e6; e7; e8; e9; e10; e11; e12; e13; e14; e15],
   {| C0_val := C0_val; Q0_val := Q0_val; p_val := p_val; ACH_val := ACH_val;
      room_volume_val := room_volume_val; delta_t_val := delta_t_val;
      x_val := x_val; gamma_val := gamma_val; f_e_val := f_e_val;
      f_i_val := f_i_val; omicron_val := omicron_val;
      covid_prevalence_val := covid_prevalence_val; immune_val := immune_val;
      N_val := N_val; percentage_masked_val := percentage_masked_val |}).

Definition real_of (f : pyfloat) : option R :=
  match f with
  | Fin q => Some (Q2R q)
  | _ => None
  end.

(** The fields as reals, when all of them are finite. *)
Definition finite_fields (v : Fields pyfloat) : option (Fields R) :=
  match real_of (C0_val v), real_of (Q0_val v), real_of (p_val v),
        real_of (ACH_val v), real_of (room_volume_val v),
        real_of (delta_t_val v), real_of (x_val v), real_of (gamma_val v) with
  | Some c0, Some q0, Some p, Some ach, Some vol, Some dt, Some x, Some g =>
      match real_of (f_e_val v), real_of (f_i_val v), real_of (omicron_val v),
            real_of (covid_prevalence_val v), real_of (immune_val v),
            real_of (percentage_masked_val v) with
      | Some fe, Some fi, Some om, Some prev, Some imm, Some pm =>
          Some {| C0_val := c0; Q0_val := q0; p_val := p; ACH_val := ach;
                  room_volume_val := vol; delta_t_val := dt; x_val := x;
                  gamma_val := g; f_e_val := fe; f_i_val := fi;
                  omicron_val := om; covid_prevalence_val := prev;
                  immune_val := imm; N_val := N_val v;
                  percentage_masked_val := pm |}
      | _, _, _, _, _, _ => None
      end
  | _, _, _, _, _, _, _, _ => None
  end.

(** The adaptive number of simulations. *)
Definition n_sims (expected_infectious : R) : Z :=
  if Rlt_dec expected_infectious 0.5 then 25000%Z
  else if Rlt_dec expected_infectious 2.0 then 8000%Z
  else if Rlt_dec expected_infectious 5.0 then 2000%Z
  else if Rlt_dec expected_infectious 10.0 then 1000%Z
  else 300%Z.

(** The breathing rate of a person at a level of physical activity; the
    source has this chain once for the user and once for the others. *)
Definition sample_breathing_rate (physical_activity : string) : Sampler R :=
  let BR_base := get_henriques_breathing_rate physical_activity in
  if ((physical_activity =? "sitting") || (physical_activity =? "seated"))%string
  then random.lognormal (ln BR_base) 0.053
  else if (physical_activity =? "standing")%string
  then random.lognormal (ln BR_base) 0.053
  else if ((physical_activity =? "light")
           || (physical_activity =? "light_exercise"))%string
  then random.lognormal (ln BR_base) 0.12
  else if ((physical_activity =? "moderate")
           || (physical_activity =? "moderate_exercise"))%string
  then random.lognormal (ln BR_base) 0.34
  else random.lognormal (ln BR_base) 0.72.

(** The dilution factor at distance [x_eff] from a person whose jet has
    the parameters [jp]: the formula of the jet-like stage, the formula
    of the puff-like stage, and the choice between them. *)
Definition Sx_jet_like (x_eff : R) (jp : JetParameters) : R :=
  let mc_x0_j := x0_j jp in
  2 * beta_r_j * (x_eff + mc_x0_j) / D_mouth.

Definition Sx_puff_like (x_eff : R) (jp : JetParameters) : R :=
  let mc_x_transition := x_transition jp in
  let mc_x0_j := x0_j jp in
  let Sx_star_mc := 2 * beta_r_j * (mc_x_transition + mc_x0_j) / D_mouth in
  Sx_star_mc
  * (1 + beta_r_p * (x_eff - mc_x_transition)
         / (beta_r_j * (mc_x_transition + mc_x0_j))) ^ 3.

Definition dilution (x_eff : R) (jp : JetParameters) : R :=
  if Rlt_dec x_eff (x_transition jp) then Sx_jet_like x_eff jp
  else Sx_puff_like x_eff jp.

(** What one sampled infectious person contributes at one particle size:
    the body of the loop over the grid. *)
Definition dose_increment
  (c : Call) (v : Fields R) (immune_emission_multiplier omicron_val_sim : R)
  (BR eta_in dt_h vlin f_inf others_BR exhalation_filter Sx_sim lambda_SR : R)
  (Dv : R) : R :=
  let C0_SR :=
    emission_spectrum_IRP_henriques Dv (a_others_vocal_activity c) vlin f_inf in
  let C0_SR_omicron := C0_SR * omicron_val_sim in
  let C0_SR_immune_adjusted := C0_SR_omicron * immune_emission_multiplier in
  let C0_SR_filtered := C0_SR_immune_adjusted * exhalation_filter in
  let CLR :=
    if Rle_dec Dv Dmax_LR then
      let emission_rate := C0_SR_filtered * others_BR in
      let lam :=
        ACH_val v + sedimentation_rate Dv 0.3
        + viral_inactivation_rate_long Dv (a_inside_temp c) (a_RH c) in
      emission_rate / (lam * room_volume_val v)
    else 0 in
  let CSR :=
    if Rle_dec Dv Dmax_SR then
      CLR + (1 / Sx_sim) * lambda_SR * (C0_SR_filtered - CLR)
    else CLR in
  CSR * BR * dt_h * deposition_fraction Dv 0.3 * (1 - eta_in).

(** An infectious person: the characteristics are sampled, then the dose
    is integrated over the grid. *)
Definition infectious_person_dose
  (c : Call) (v : Fields R) (immune_emission_multiplier omicron_val_sim : R)
  (BR eta_in x_eff dt_h : R) : Sampler R :=
  let weibull_shape := 3.900 in
  let weibull_scale := 6.850 in
  w <- random.weibull weibull_shape ;;
  let vlin_log10 := np.clip (w * weibull_scale) 2.0 10.0 in
  let vlin := Rpower 10 vlin_log10 in
  f_inf <- random.uniform 0.01 0.60 ;;
  others_BR <- sample_breathing_rate (a_others_physical_activity c) ;;
  u <- random.random ;;
  let exhalation_filter :=
    if Rlt_dec u (percentage_masked_val v) then f_e_val v else 1 in
  let mc_jet_params := calculate_henriques_jet_parameters others_BR in
  let Sx_sim := dilution x_eff mc_jet_params in
  let lambda_SR := short_range_viability_decay x_eff (u0 mc_jet_params) (a_RH c) in
  ret (fold_left
         (fun person_dose '(Dv, width) =>
            person_dose
            + dose_increment c v immune_emission_multiplier omicron_val_sim
                BR eta_in dt_h vlin f_inf others_BR exhalation_filter
                Sx_sim lambda_SR Dv * width)
         (combine Ds dDs) 0).

(** The loop over the other people present. *)
Fixpoint people_dose
  (c : Call) (v : Fields R) (immune_emission_multiplier omicron_val_sim : R)
  (BR eta_in x_eff dt_h : R) (people : nat) (total_dose : R) : Sampler R :=
  match people with
  | 0%nat => ret total_dose
  | S rest =>
      u <- random.random ;;
      if Rlt_dec u (covid_prevalence_val v) then
        person_dose <-
          infectious_person_dose c v immune_emission_multiplier
            omicron_val_sim BR eta_in x_eff dt_h ;;
        people_dose c v immune_emission_multiplier omicron_val_sim
          BR eta_in x_eff dt_h rest (total_dose + person_dose)
      else
        people_dose c v immune_emission_multiplier omicron_val_sim
          BR eta_in x_eff dt_h rest total_dose
  end.

Definition PF_MAX : R := 50.

(** One simulation: the body of the Monte Carlo loop, which yields the
    risk of this simulation. *)
Definition simulation
  (c : Call) (v : Fields R) (immune_emission_multiplier : R) : Sampler R :=
  omicron_val_sim <- sample_omicron_transmissibility_bayesian ;;
  ID50 <- random.uniform 10 100 ;;
  BR <- sample_breathing_rate (a_user_physical_activity c) ;;
  let eta_in := 1 - f_i_val v in
  let x_eff := x_val v in
  let dt_h := delta_t_val v / 3600 in
  total_dose <-
    people_dose c v immune_emission_multiplier omicron_val_sim
      BR eta_in x_eff dt_h (Z.to_nat (N_val v)) 0 ;;
  let ID63 := oneoverln2 * ID50 in
  PF <-
    (if Rle_dec (immune_val v) 0 then ret PF_MAX
     else
       let SIGMA_PF := 0.2 in
       let mu_ln := ln (1 / immune_val v) in
       PF <- random.lognormal mu_ln SIGMA_PF ;;
       ret (if Rgt_dec PF PF_MAX then PF_MAX else PF)) ;;
  let ID63_pf := ID63 * PF in
  let risk_pf := 1 - exp (- total_dose / ID63_pf) in
  ret risk_pf.

(** The Monte Carlo loop: the risks of [n] simulations, in order. *)
Fixpoint simulations
  (c : Call) (v : Fields R) (immune_emission_multiplier : R) (n : nat)
  : Sampler (list R) :=
  match n with
  | 0%nat => ret []
  | S n' =>
      risk_pf <- simulation c v immune_emission_multiplier ;;
      rest <- simulations c v immune_emission_multiplier n' ;;
      ret (risk_pf :: rest)
  end.

(** [Q0_val] and [p_val] are rescaled once the conversions have
    succeeded. *)
Definition rescale (v : Fields R) : Fields R :=
  {| C0_val := C0_val v;
     Q0_val := Q0_val v * f_e_val v * omicron_val v;
     p_val := p_val v * f_i_val v;
     ACH_val := ACH_val v; room_volume_val := room_volume_val v;
     delta_t_val := delta_t_val v; x_val := x_val v;
     gamma_val := gamma_val v; f_e_val := f_e_val v; f_i_val := f_i_val v;
     omicron_val := omicron_val v;
     covid_prevalence_val := covid_prevalence_val v;
     immune_val := immune_val v; N_val := N_val v;
     percentage_masked_val := percentage_masked_val v |}.

(** The display label of the legacy activity code, and the code itself
    once an unknown one has been replaced by ["2"]. *)
Definition activity_map (activity_choice : string) : option string :=
  if (activity_choice =? "1")%string then Some "Sedentary/Passive"%string
  else if (activity_choice =? "2")%string then Some "Standard"%string
  else if (activity_choice =? "3")%string then Some "Light"%string
  else if (activity_choice =? "4")%string then Some "Moderate"%string
  else if (activity_choice =? "5")%string then Some "Intense"%string
  else None.

(** The result dictionary as it stands before the Monte Carlo loop. *)
Definition initial_result (c : Call) (v : Fields R) : dict :=
  let q_total := (ACH_val v * room_volume_val v * 1000) / 3600 in
  let q_e := q_total in
  let activity_choice :=
    match activity_map (a_activity_choice c) with
    | Some _ => a_activity_choice c
    | None => "2"%string
    end in
  let activity_label :=
    match activity_map activity_choice with
    | Some label => label
    | None => EmptyString
    end in
  let N_masked := Zfloor (IZR (N_val v) * percentage_masked_val v) in
  let N_unmasked := (N_val v - N_masked)%Z in
  let result : dict :=
    [("risk", OInt 0);
     ("q_e", OFloat q_e);
     ("ACH", OFloat (ACH_val v));
     ("room_volume", OFloat (room_volume_val v));
     ("activity_label", OStr activity_label);
     ("inputs",
      ODict [("C0", OFloat (C0_val v));
             ("Q0", OFloat (Q0_val v));
             ("p", OFloat (p_val v));
             ("delta_t", OFloat (delta_t_val v));
             ("x", OFloat (x_val v));
             ("gamma", OFloat (gamma_val v));
             ("activity_choice", OStr activity_choice);
             ("f_e", OFloat (f_e_val v));
             ("f_i", OFloat (f_i_val v));
             ("omicron", OFloat (omicron_val v));
             ("covid_prevalence", OFloat (covid_prevalence_val v));
             ("immune", OFloat (immune_val v));
             ("N", OInt (N_val v));
             ("percentage_masked", OFloat (percentage_masked_val v))])]%string in
  let result := dict_set "N_masked" (OInt N_masked) result in
  let result := dict_set "N_unmasked" (OInt N_unmasked) result in
  result.

(** The summary of the risks of all simulations, written into the
    result.  An exception of [generate_risk_distribution_data] is caught
    and leaves [None] in its place. *)
Definition summarize (all_risks_pf : list R) (result : dict) : dict :=
  let mc_mean_pf := np.mean all_risks_pf in
  let mc_pf_ci_5 := np.percentile all_risks_pf 5 in
  let mc_pf_ci_95 := np.percentile all_risks_pf 95 in
  let mc_pf_ci_25 := np.percentile all_risks_pf 25 in
  let mc_pf_ci_75 := np.percentile all_risks_pf 75 in
  let mc_pf_ci_0_5 := np.percentile all_risks_pf 0.5 in
  let mc_pf_ci_99_5 := np.percentile all_risks_pf 99.5 in
  let mc_pf_median := np.percentile all_risks_pf 50 in
  let result := dict_set "mc_mean_pf" (OFloat mc_mean_pf) result in
  let result := dict_set "mc_pf_ci_5" (OFloat mc_pf_ci_5) result in
  let result := dict_set "mc_pf_ci_95" (OFloat mc_pf_ci_95) result in
  let result := dict_set "mc_pf_ci_25" (OFloat mc_pf_ci_25) result in
  let result := dict_set "mc_pf_ci_75" (OFloat mc_pf_ci_75) result in
  let result := dict_set "mc_pf_ci_0_5" (OFloat mc_pf_ci_0_5) result in
  let result := dict_set "mc_pf_ci_99_5" (OFloat mc_pf_ci_99_5) result in
  let result := dict_set "mc_pf_median" (OFloat mc_pf_median) result in
  let result := dict_set "risk" (OFloat mc_mean_pf) result in
  let result := dict_set "mc_mean" (OFloat mc_mean_pf) result in
  let result := dict_set "mc_median" (OFloat mc_pf_median) result in
  let result := dict_set "mc_ci_5" (OFloat mc_pf_ci_5) result in
  let result := dict_set "mc_ci_95" (OFloat mc_pf_ci_95) result in
  let result := dict_set "mc_ci_25" (OFloat mc_pf_ci_25) result in
  let result := dict_set "mc_ci_75" (OFloat mc_pf_ci_75) result in
  let result := dict_set "mc_ci_0_5" (OFloat mc_pf_ci_0_5) result in
  let result := dict_set "mc_ci_99_5" (OFloat mc_pf_ci_99_5) result in
  match risk_distribution.generate_risk_distribution_data all_risks_pf with
  | inr risk_distribution_data =>
      dict_set "risk_distribution_data"
        (risk_distribution.to_dict risk_distribution_data) result
  | inl e => dict_set "risk_distribution_data" ONone result
  end.

(** The number of simulations of a call with the fields [v]. *)
Definition simulation_count (v : Fields R) : Z :=
  let expected_infectious := IZR (N_val v) * covid_prevalence_val v in
  n_sims expected_infectious.

(** The risks of all simulations of a call with the (rescaled) fields
    [v]: the array [all_risks_pf] once the loop has ended. *)
Definition all_risks (c : Call) (v : Fields R) : Sampler (list R) :=
  let immune_emission_multiplier :=
    get_immune_emission_multiplier (a_immunocompromised_status c) in
  simulations c v immune_emission_multiplier (Z.to_nat (simulation_count v)).

(** The engine.  It returns the result dictionary and leaves the
    generator in a new state.  There is no result in the model ([None])
    when a converted field is an infinity or a NaN: the arithmetic of
    the simulation on such values is outside the model. *)
Definition calculate_unified_transmission_exposure
  (c : Call) (w : draws) (s : rng_state) : option (dict * rng_state) :=
  let '(errors, converted) := convert_inputs c in
  if any errors then
    Some ([("error", OStr "Invalid input; please enter numeric values.")]%string, s)
  else
    match finite_fields converted with
    | None => None
    | Some v =>
        let v := rescale v in
        let result := initial_result c v in
        let '(all_risks_pf, s') := all_risks c v w s in
        Some (summarize all_risks_pf result, s')
    end.

End exposure_calculator.

(* ================================================================== *)
(** * covid_app/blueprints/exposure.py *)
(* ================================================================== *)

Module exposure_blueprint.

Local Open Scope string_scope.

(** The exceptions of the dictionary and arithmetic operations. *)
Inductive exception : Type :=
| KeyError (key : string)
| TypeError.

(** [d[key]]. *)
Definition getitem (d : dict) (key : string) : exception + pyobj :=
  match dict_get key d with
  | Some value => inr value
  | None => inl (KeyError key)
  end.

Definition number (o : pyobj) : option R :=
  match o with
  | OFloat x => Some x
  | OInt z => Some (IZR z)
  | _ => None
  end.

(** [(a + b) / 2] on two values of results. *)
Definition half_sum (a b : pyobj) : exception + pyobj :=
  match number a, number b with
  | Some x, Some y => inr (OFloat ((x + y) / 2)%R)
  | _, _ => inl TypeError
  end.

(** [result[key] = (first[key] + second[key]) / 2]. *)
Definition average_entry (key : string) (first second result : dict)
  : exception + dict :=
  match getitem first key with
  | inl e => inl e
  | inr a =>
      match getitem second key with
      | inl e => inl e
      | inr b =>
          match half_sum a b with
          | inl e => inl e
          | inr value => inr (dict_set key value result)
          end
      end
  end.

(** The keys that are averaged, in the order of the assignments. *)
Definition averaged_keys : list string :=
  ["risk"; "old_risk"; "new_risk"; "mc_mean"; "mc_ci_5"; "mc_ci_95";
   "mc_ci_25"; "mc_ci_75"; "mc_ci_0_5"; "mc_ci_99_5"; "mc_median"].

Fixpoint average_entries (keys : list string) (first second result : dict)
  : exception + dict :=
  match keys with
  | [] => inr result
  | key :: rest =>
      match average_entry key first second result with
      | inl e => inl e
      | inr result' => average_entries rest first second result'
      end
  end.

(** The result shown when the immunocompromised status (or its
    severity) is not known: a copy of the first of two results of the
    engine, with the averaged risks written into it. *)
Definition average_results (first second : dict) : exception + dict :=
  average_entries averaged_keys first second first.

End exposure_blueprint.


(* ================================================================== *)
(** * calculators/time_varying_prevalence.py *)
(* ================================================================== *)

Module time_varying_prevalence.

Local Open Scope string_scope.
Local Open Scope R_scope.

(** The table that [load_cdc_prevalence_data] returns: for a week
    number, the prevalence of each region.  The table is read from a
    file; here it is an argument, a [dict] of [dict]s in insertion
    order. *)
Definition prevalence_table : Type := list (Z * list (string * R)).

Fixpoint week_get (week_num : Z) (data : prevalence_table)
  : option (list (string * R)) :=
  match data with
  | [] => None
  | (k, v) :: rest => if (week_num =? k)%Z then Some v else week_get week_num rest
  end.

Fixpoint region_get (region : string) (row : list (string * R)) : option R :=
  match row with
  | [] => None
  | (k, v) :: rest => if region =? k then Some v else region_get region rest
  end.

(** [next(iter(prevalence_data.values()), {})]. *)
Definition first_row (data : prevalence_table) : list (string * R) :=
  match data with
  | [] => []
  | (_, row) :: _ => row
  end.

Definition has_region (region : string) (row : list (string * R)) : bool :=
  match region_get region row with Some _ => true | None => false end.

(** The prevalence of week [i] of the sequence. *)
Definition week_prevalence
  (prevalence_data : prevalence_table) (region : string) (start_week : Z)
  (i : nat) : R :=
  let week_num := ((start_week - 1 + Z.of_nat i) mod 52 + 1)%Z in
  match week_get week_num prevalence_data with
  | Some row =>
      match region_get region row with
      | Some value => value
      | None =>
          match region_get "National" row with
          | Some value => value
          | None => 0.01
          end
      end
  | None => 0.01
  end.

Definition get_weekly_prevalence_sequence
  (prevalence_data : prevalence_table)
  (start_week num_weeks : Z) (region : string) : list R :=
  let empty := match prevalence_data with [] => true | _ => false end in
  let region :=
    if empty || negb (has_region region (first_row prevalence_data))
    then "National" else region in
  if empty || negb (has_region "National" (first_row prevalence_data))
  then repeat 0.01 (Z.to_nat num_weeks)
  else
    map (week_prevalence prevalence_data region start_week)
        (seq 0 (Z.to_nat num_weeks)).

(** The body of the loop over the weeks: the probability of staying
    safe after one more week. *)
Definition safe_after_week
  (base_single_exposure_risk base_prevalence : R)
  (cumulative_safe_prob week_prevalence : R) : R :=
  let weekly_risk :=
    if Rgt_dec base_prevalence 0 then
      let prevalence_ratio := week_prevalence / base_prevalence in
      let weekly_risk := base_single_exposure_risk * prevalence_ratio in
      Rmax 0 (Rmin 1 weekly_risk)
    else 0 in
  cumulative_safe_prob * (1 - weekly_risk).

Definition calculate_time_varying_cumulative_risk
  (prevalence_data : prevalence_table)
  (base_single_exposure_risk base_prevalence : R) (num_exposures : Z)
  (region : string) (start_week : option Z) : R :=
  let start_week := match start_week with Some w => w | None => 22%Z end in
  let prevalence_sequence :=
    get_weekly_prevalence_sequence prevalence_data start_week num_exposures
      region in
  let cumulative_safe_prob :=
    fold_left (safe_after_week base_single_exposure_risk base_prevalence)
      prevalence_sequence 1 in
  1 - cumulative_safe_prob.

End time_varying_prevalence.
(* ================================================================== *)
(** * Vocabulary of the properties *)
(* ================================================================== *)

Import builtins conversions validators exposure_calculator.

Section Vocabulary.

Local Open Scope string_scope.

(** A string of white space only (the empty string included). *)
Definition whitespace_only (s : string) : bool :=
  forallb Py_UNICODE_ISSPACE (list_ascii_of_string s).

(** A value for which the helpers fall back on the default without a
    message: anything that is not a [str], and a [str] of white space. *)
Definition silent (value : pyval) : Prop :=
  (forall s, value <> PyStr s)
  \/ (exists s, value = PyStr s /\ whitespace_only s = true).

(** The fields of a call that go through the helpers, in the order of
    their conversion. *)
Definition required_fields (c : Call) : list pyval :=
  [a_C0 c; a_Q0 c; a_p c; a_ACH c; a_room_volume c; a_delta_t c; a_x c;
   a_gamma c; a_f_e c; a_f_i c; a_omicron c; a_covid_prevalence c;
   a_immune c; a_N c; a_percentage_masked c].

(** The values of the fields when every one of them takes its default. *)
Definition default_fields : Fields pyfloat :=
  {| C0_val := Fin 0.1; Q0_val := Fin 0.1; p_val := Fin 0.1;
     ACH_val := Fin 1; room_volume_val := Fin 1000; delta_t_val := Fin 42;
     x_val := Fin 0.7; gamma_val := Fin 0.5; f_e_val := Fin 1;
     f_i_val := Fin 1; omicron_val := Fin 4.20;
     covid_prevalence_val := float_div (Fin 1) 100; immune_val := Fin 1;
     N_val := 1%Z; percentage_masked_val := Fin 0 |}.

(** The result of the engine on a conversion error. *)
Definition error_result : dict :=
  [("error", OStr "Invalid input; please enter numeric values.")].

(** The realization in which every sampler returns the same value at
    every call: 0 (uniform), 0 (standard normal), 1 (standard
    exponential); and the state of a fresh generator. *)
Definition constant_draws : draws :=
  {| uniform_draws := fun _ => 0%R;
     normal_draws := fun _ => 0%R;
     exponential_draws := fun _ => 1%R |}.

Definition fresh_rng : rng_state :=
  {| uniform_used := 0; normal_used := 0; exponential_used := 0 |}.

(** The call of the regression test: every converted field is the empty
    string, every other parameter has its default. *)
Definition default_call : Call :=
  {| a_C0 := PyStr EmptyString; a_Q0 := PyStr EmptyString;
     a_p := PyStr EmptyString; a_ACH := PyStr EmptyString;
     a_room_volume := PyStr EmptyString; a_delta_t := PyStr EmptyString;
     a_x := PyStr EmptyString; a_gamma := PyStr EmptyString;
     a_f_e := PyStr EmptyString; a_f_i := PyStr EmptyString;
     a_omicron := PyStr EmptyString;
     a_covid_prevalence := PyStr EmptyString;
     a_immune := PyStr EmptyString; a_N := PyStr EmptyString;
     a_activity_choice := EmptyString;
     a_percentage_masked := PyStr "0";
     a_user_physical_activity := "standing";
     a_others_physical_activity := "standing";
     a_others_vocal_activity := "speaking";
     a_RH := 0.40%R; a_CO2 := 800.0%R; a_inside_temp := 293.15%R;
     a_immunocompromised_status := "normal" |}.

(** A call with one of its fields replaced. *)
Definition with_field (field : string) (value : pyval) (c : Call) : Call :=
  let pick name old := if (field =? name) then value else old in
  {| a_C0 := pick "C0" (a_C0 c); a_Q0 := pick "Q0" (a_Q0 c);
     a_p := pick "p" (a_p c); a_ACH := pick "ACH" (a_ACH c);
     a_room_volume := pick "room_volume" (a_room_volume c);
     a_delta_t := pick "delta_t" (a_delta_t c);
     a_x := pick "x" (a_x c); a_gamma := pick "gamma" (a_gamma c);
     a_f_e := pick "f_e" (a_f_e c); a_f_i := pick "f_i" (a_f_i c);
     a_omicron := pick "omicron" (a_omicron c);
     a_covid_prevalence := pick "covid_prevalence" (a_covid_prevalence c);
     a_immune := pick "immune" (a_immune c); a_N := pick "N" (a_N c);
     a_activity_choice := a_activity_choice c;
     a_percentage_masked := pick "percentage_masked" (a_percentage_masked c);
     a_user_physical_activity := a_user_physical_activity c;
     a_others_physical_activity := a_others_physical_activity c;
     a_others_vocal_activity := a_others_vocal_activity c;
     a_RH := a_RH c; a_CO2 := a_CO2 c; a_inside_temp := a_inside_temp c;
     a_immunocompromised_status := a_immunocompromised_status c |}.

(** The default call with a single blank as room volume. *)
Definition blank_volume_call : Call :=
  with_field "room_volume" (PyStr " ") default_call.

(** The call of the second regression test: ["abc"] as the first
    argument. *)
Definition invalid_call : Call := with_field "C0" (PyStr "abc") default_call.

(** The entry the summary leaves under ["risk_distribution_data"]. *)
Definition distribution_entry (all_risks_pf : list R) : pyobj :=
  match risk_distribution.generate_risk_distribution_data all_risks_pf with
  | inr data => risk_distribution.to_dict data
  | inl _ => ONone
  end.

(** The texts that [float] converts to an infinity or a NaN: a spelling
    of one of the two behind an optional sign, or a decimal literal whose
    value rounds to an infinity. *)
Definition nonfinite_literal (txt : string) : Prop :=
  exists t neg body,
    strip_underscores None (strip Py_ISSPACE txt) = Some t
    /\ parse_sign t = (neg, body)
    /\ (lower_str body = "inf" \/ lower_str body = "infinity"
        \/ lower_str body = "nan"
        \/ exists m e, parse_decimal body = Some (m, e)
                       /\ (DBL_ROUNDS_TO_INF <= decimal_value m e)%Q).

(** The default call with ["nan"] as air changes per hour. *)
Definition nan_call : Call := with_field "ACH" (PyStr "nan") default_call.

(** The width of bin [i] of a grid of [n] points [f 0], [f 1], ... *)
Definition width_at (f : nat -> R) (n i : nat) : R :=
  (if (i =? 0)%nat then f 1%nat - f 0%nat
   else if (i =? n - 1)%nat then f (n - 1)%nat - f (n - 2)%nat
   else (f (i + 1)%nat - f (i - 1)%nat) / 2)%R.

(** The diameter of grid point [i]. *)
Definition Ds_at (i : nat) : R :=
  Rpower 10 (np.log10 0.1 + INR i * ((np.log10 30 - np.log10 0.1) / INR 49))%R.

(** The sum of a list of counts. *)
Definition total (counts : list Z) : Z := fold_right Z.add 0%Z counts.

(** How many of the samples lie in the closed interval from [low] to
    [high]. *)
Definition count_within (a : list R) (low high : R) : Z :=
  Z.of_nat
    (length
       (filter (fun x => if Rle_dec low x
                         then if Rle_dec x high then true else false
                         else false) a)).

(** An array of two risks: no risk in one simulation, one half in the
    other. *)
Definition two_risks : list R := [0%R; 0.5%R].

(** The default call with nobody else in the room. *)
Definition nobody_call : Call := with_field "N" (PyStr "0") default_call.

(** The scalar statistics of an array of risks are in a result. *)
Definition has_statistics (all_risks_pf : list R) (d : dict) : Prop :=
  dict_get "risk" d = Some (OFloat (np.mean all_risks_pf))
  /\ dict_get "mc_mean_pf" d = Some (OFloat (np.mean all_risks_pf))
  /\ dict_get "mc_pf_median" d = Some (OFloat (np.percentile all_risks_pf 50))
  /\ dict_get "mc_pf_ci_5" d = Some (OFloat (np.percentile all_risks_pf 5))
  /\ dict_get "mc_pf_ci_95" d = Some (OFloat (np.percentile all_risks_pf 95))
  /\ dict_get "mc_pf_ci_25" d = Some (OFloat (np.percentile all_risks_pf 25))
  /\ dict_get "mc_pf_ci_75" d = Some (OFloat (np.percentile all_risks_pf 75))
  /\ dict_get "mc_pf_ci_0_5" d = Some (OFloat (np.percentile all_risks_pf 0.5))
  /\ dict_get "mc_pf_ci_99_5" d
     = Some (OFloat (np.percentile all_risks_pf 99.5)).

(** The keys under which the engine reports a risk: the mean (twice),
    the median and the percentile bounds. *)
Definition risk_keys : list string :=
  ["risk"; "mc_mean_pf"; "mc_pf_median"; "mc_pf_ci_5"; "mc_pf_ci_95";
   "mc_pf_ci_25"; "mc_pf_ci_75"; "mc_pf_ci_0_5"; "mc_pf_ci_99_5"].

(** The default call with everybody infectious (a prevalence of 100
    percent) and an inhalation multiplier of -1. *)
Definition negative_filter_call : Call :=
  with_field "f_i" (PyStr "-1")
    (with_field "covid_prevalence" (PyStr "100") default_call).


(** A list of reals in ascending order. *)
Fixpoint ascending (l : list R) : Prop :=
  match l with
  | [] => True
  | x :: t => Forall (Rle x) t /\ ascending t
  end.

(** The keys of a result of the engine whose conversions succeeded, in
    the order of their insertion. *)
Definition result_keys : list string :=
  ["risk"; "q_e"; "ACH"; "room_volume"; "activity_label"; "inputs";
   "N_masked"; "N_unmasked";
   "mc_mean_pf"; "mc_pf_ci_5"; "mc_pf_ci_95"; "mc_pf_ci_25"; "mc_pf_ci_75";
   "mc_pf_ci_0_5"; "mc_pf_ci_99_5"; "mc_pf_median";
   "mc_mean"; "mc_median"; "mc_ci_5"; "mc_ci_95"; "mc_ci_25"; "mc_ci_75";
   "mc_ci_0_5"; "mc_ci_99_5"; "risk_distribution_data"].

(** The keys kept for the templates, each with the key whose value it
    repeats. *)
Definition back_compat_keys : list (string * string) :=
  [("risk", "mc_mean_pf"); ("mc_mean", "mc_mean_pf");
   ("mc_median", "mc_pf_median");
   ("mc_ci_5", "mc_pf_ci_5"); ("mc_ci_95", "mc_pf_ci_95");
   ("mc_ci_25", "mc_pf_ci_25"); ("mc_ci_75", "mc_pf_ci_75");
   ("mc_ci_0_5", "mc_pf_ci_0_5"); ("mc_ci_99_5", "mc_pf_ci_99_5")].

(** The value of a float entry of a result. *)
Definition float_entry (key : string) (d : dict) : option R :=
  match dict_get key d with
  | Some (OFloat r) => Some r
  | _ => None
  end.



(** The table used when the file of weekly prevalences cannot be read:
    a national prevalence of 1 percent in each of the weeks 1 to 52. *)
Definition fallback_table : time_varying_prevalence.prevalence_table :=
  map (fun week => (Z.of_nat week, [("National", 0.01%R)])) (seq 1 52).

(** A call without the arguments that only the validation and the echo
    of the inputs look at: [C0], [Q0], [p], [gamma], [omicron] and
    [activity_choice]. *)
Definition effective_call (c : Call) : Call :=
  {| a_C0 := None_; a_Q0 := None_; a_p := None_;
     a_ACH := a_ACH c; a_room_volume := a_room_volume c;
     a_delta_t := a_delta_t c; a_x := a_x c; a_gamma := None_;
     a_f_e := a_f_e c; a_f_i := a_f_i c; a_omicron := None_;
     a_covid_prevalence := a_covid_prevalence c; a_immune := a_immune c;
     a_N := a_N c; a_activity_choice := EmptyString;
     a_percentage_masked := a_percentage_masked c;
     a_user_physical_activity := a_user_physical_activity c;
     a_others_physical_activity := a_others_physical_activity c;
     a_others_vocal_activity := a_others_vocal_activity c;
     a_RH := a_RH c; a_CO2 := a_CO2 c; a_inside_temp := a_inside_temp c;
     a_immunocompromised_status := a_immunocompromised_status c |}.

(** The converted fields without those of the same arguments. *)
Definition effective_fields (v : Fields R) : Fields R :=
  {| C0_val := 0%R; Q0_val := 0%R; p_val := 0%R;
     ACH_val := ACH_val v; room_volume_val := room_volume_val v;
     delta_t_val := delta_t_val v; x_val := x_val v; gamma_val := 0%R;
     f_e_val := f_e_val v; f_i_val := f_i_val v; omicron_val := 0%R;
     covid_prevalence_val := covid_prevalence_val v;
     immune_val := immune_val v; N_val := N_val v;
     percentage_masked_val := percentage_masked_val v |}.

(** The keys of a computed result other than the echo of the inputs and
    the label of the activity. *)
Definition computed_keys : list string :=
  ["risk"; "q_e"; "ACH"; "room_volume"; "N_masked"; "N_unmasked";
   "mc_mean_pf"; "mc_pf_ci_5"; "mc_pf_ci_95"; "mc_pf_ci_25"; "mc_pf_ci_75";
   "mc_pf_ci_0_5"; "mc_pf_ci_99_5"; "mc_pf_median";
   "mc_mean"; "mc_median"; "mc_ci_5"; "mc_ci_95"; "mc_ci_25"; "mc_ci_75";
   "mc_ci_0_5"; "mc_ci_99_5"; "risk_distribution_data"].

(** The default call with other values for the arguments that have no
    effect. *)
Definition other_legacy_call : Call :=
  with_field "C0" (PyStr "5")
    (with_field "gamma" (PyStr "0.9")
       (with_field "omicron" (PyStr "1") default_call)).
End Vocabulary.

(* ================================================================== *)
(** * Properties *)
(* ================================================================== *)

Local Open Scope R_scope.

(** ** The adaptive number of simulations *)

Lemma simulations_length c v m n w s :
  length (fst (simulations c v m n w s)) = n.
Proof.
  revert s; induction n as [|n IH]; intros s; simpl; [reflexivity|].
  unfold bind. simpl. now rewrite IH.
Qed.

(** C3.  The engine runs [n_sims e] simulations, where [e] is the
    number of other people times the prevalence fraction, and [n_sims]
    is 25000 below 0.5, 8000 from 0.5 to below 2, 2000 from 2 to below
    5, 1000 from 5 to below 10, and 300 from 10 on. *)
Theorem adaptive_trial_count :
  (forall c v w s,
      length (fst (all_risks c v w s))
      = Z.to_nat (n_sims (IZR (N_val v) * covid_prevalence_val v)))
  /\ (forall e : R,
         (e < 0.5 -> n_sims e = 25000%Z)
         /\ (0.5 <= e < 2.0 -> n_sims e = 8000%Z)
         /\ (2.0 <= e < 5.0 -> n_sims e = 2000%Z)
         /\ (5.0 <= e < 10.0 -> n_sims e = 1000%Z)
         /\ (10.0 <= e -> n_sims e = 300%Z)).
Proof.
  split.
  - intros c v w s. unfold all_risks. now rewrite simulations_length.
  - intros e. unfold n_sims.
    repeat split; intros H;
      repeat (match goal with
              | |- context [Rlt_dec ?a ?b] => destruct (Rlt_dec a b)
              end; try lra); reflexivity.
Qed.

Lemma adaptive_trial_count_witness :
  n_sims 0.25 = 25000%Z /\ n_sims 0.5 = 8000%Z /\ n_sims 2.0 = 2000%Z
  /\ n_sims 5.0 = 1000%Z /\ n_sims 10.0 = 300%Z.
Proof.
  destruct adaptive_trial_count as [_ H].
  repeat split.
  - apply (H 0.25); lra.
  - apply (H 0.5); lra.
  - apply (H 2.0); lra.
  - apply (H 5.0); lra.
  - apply (H 10.0); lra.
Defined.

(** ** Short-range viability decay *)

(** C5, the claim as stated fails: at a relative humidity of exactly
    0.40 the decay is applied. *)
Lemma viability_decay_at_threshold :
  0 <= 1 /\ 0 < 1 /\ 0.40 <= 0.40
  /\ short_range_viability_decay 1 1 0.40 <> 1.
Proof.
  repeat split; try lra.
  unfold short_range_viability_decay.
  destruct (Rle_dec 0.40 0.40); [|lra].
  unfold Rmax. destruct (Rle_dec 0 (1 - 0.016 * (1 / 1))); lra.
Qed.

(** C5, amended.  For every distance [x >= 0] and jet velocity
    [u0 > 0] the factor is 1 when the relative humidity is above 0.40,
    and the decay [1 - 0.016 * (x / u0)], not below 0, when it is 0.40
    or less. *)
Theorem viability_decay_cases (x u0 RH : R) :
  0 <= x -> 0 < u0 ->
  (0.40 < RH -> short_range_viability_decay x u0 RH = 1)
  /\ (RH <= 0.40 ->
      short_range_viability_decay x u0 RH = Rmax 0 (1 - 0.016 * (x / u0))).
Proof.
  intros _ _. unfold short_range_viability_decay.
  split; intros H; destruct (Rle_dec RH 0.40); try lra; reflexivity.
Qed.

Lemma viability_decay_cases_witness :
  short_range_viability_decay 1 2 0.5 = 1
  /\ short_range_viability_decay 1 2 0.40 = Rmax 0 (1 - 0.016 * (1 / 2)).
Proof.
  split.
  - apply (viability_decay_cases 1 2 0.5); lra.
  - apply (viability_decay_cases 1 2 0.40); lra.
Defined.

(** ** Jet parameters and dilution *)

Lemma Rpower_pos (a b : R) : 0 < Rpower a b.
Proof. unfold Rpower. apply exp_pos. Qed.

Lemma jet_flow_pos (BR : R) :
  0 < BR ->
  0 < Q_exh (calculate_henriques_jet_parameters BR)
  /\ 0 < u0 (calculate_henriques_jet_parameters BR).
Proof.
  intros H. simpl. unfold D_mouth.
  assert (HPI := PI_RGT_0).
  assert (HQ : 0 < 2 * (BR / 3600)) by lra.
  split; [exact HQ|].
  apply Rdiv_lt_0_compat; [exact HQ|].
  apply Rmult_lt_0_compat; [exact HPI|].
  lra.
Qed.

Lemma jet_reach_pos (BR : R) :
  0 < x_transition (calculate_henriques_jet_parameters BR)
      + x0_j (calculate_henriques_jet_parameters BR).
Proof.
  simpl.
  match goal with
  | |- 0 < ?k * Rpower ?a ?b * Rpower ?c ?d - ?z + ?z =>
      replace (k * Rpower a b * Rpower c d - z + z)
        with (k * (Rpower a b * Rpower c d)) by ring;
      apply Rmult_lt_0_compat;
      [unfold beta_x_j; lra
      |apply Rmult_lt_0_compat; apply Rpower_pos]
  end.
Qed.

(** C4.  For every breathing rate [BR > 0], at the transition distance
    of the jet parameters of [BR] the quotient in the puff-like formula
    has a denominator that is not zero, the jet-like and the puff-like
    formula have the same value, and that value is the dilution
    factor. *)
Theorem dilution_continuous_at_transition (BR : R) :
  0 < BR ->
  let jp := calculate_henriques_jet_parameters BR in
  beta_r_j * (x_transition jp + x0_j jp) <> 0
  /\ Sx_jet_like (x_transition jp) jp = Sx_puff_like (x_transition jp) jp
  /\ dilution (x_transition jp) jp = Sx_jet_like (x_transition jp) jp.
Proof.
  intros HBR jp.
  assert (Hreach : 0 < x_transition jp + x0_j jp) by apply jet_reach_pos.
  assert (Heq : Sx_jet_like (x_transition jp) jp
                = Sx_puff_like (x_transition jp) jp).
  { unfold Sx_jet_like, Sx_puff_like.
    replace (x_transition jp - x_transition jp) with 0 by ring.
    unfold Rdiv at 3. rewrite Rmult_0_r, Rmult_0_l. ring. }
  split; [|split].
  - unfold beta_r_j. nra.
  - exact Heq.
  - unfold dilution.
    destruct (Rlt_dec (x_transition jp) (x_transition jp)) as [Hlt|_].
    + exfalso. lra.
    + symmetry. exact Heq.
Qed.

Lemma dilution_continuous_at_transition_witness :
  let jp := calculate_henriques_jet_parameters 0.57 in
  beta_r_j * (x_transition jp + x0_j jp) <> 0
  /\ Sx_jet_like (x_transition jp) jp = Sx_puff_like (x_transition jp) jp
  /\ dilution (x_transition jp) jp = Sx_jet_like (x_transition jp) jp.
Proof.
  apply (dilution_continuous_at_transition 0.57). lra.
Defined.

(** ** The validators *)

Local Open Scope string_scope.

(** The cases of the unit tests of the helpers. *)

Example test_safe_float_1 :
  safe_float (PyStr "3.14") (Fin 0) = (Fin (314 # 100), EmptyString).
Proof. vm_compute. reflexivity. Qed.

Example test_safe_float_4 :
  safe_float (PyStr "not-a-number") (Fin (99 # 10))
  = (Fin (99 # 10), "Invalid float: 'not-a-number'").
Proof. vm_compute. reflexivity. Qed.

Example test_safe_int_1 : safe_int (PyStr "42") 0 = (42%Z, EmptyString).
Proof. vm_compute. reflexivity. Qed.

Example test_safe_int_4 : safe_int (PyStr "abc") 1 = (1%Z, "Invalid int: 'abc'").
Proof. vm_compute. reflexivity. Qed.

Lemma lstrip_whitespace_only sp s :
  forallb sp (list_ascii_of_string s) = true -> lstrip sp s = EmptyString.
Proof.
  induction s as [|c t IH]; simpl; [reflexivity|].
  intros H. apply andb_true_iff in H as [Hc Ht].
  rewrite Hc. now apply IH.
Qed.

Lemma strip_whitespace_only s :
  whitespace_only s = true -> strip Py_UNICODE_ISSPACE s = EmptyString.
Proof.
  intros H. unfold strip. now rewrite lstrip_whitespace_only.
Qed.

Lemma _strip_silent value : silent value -> _strip value = EmptyString.
Proof.
  intros [H | (s & -> & H)].
  - destruct value as [s|r]; [now destruct (H s)|reflexivity].
  - now apply strip_whitespace_only.
Qed.

Lemma safe_float_silent value default :
  silent value -> safe_float value default = (default, EmptyString).
Proof. intros H. unfold safe_float. now rewrite (_strip_silent _ H). Qed.

Lemma safe_int_silent value default :
  silent value -> safe_int value default = (default, EmptyString).
Proof. intros H. unfold safe_int. now rewrite (_strip_silent _ H). Qed.

Lemma strip_nonempty sp s : strip sp s <> EmptyString -> s <> EmptyString.
Proof. intros H ->. now apply H. Qed.

Lemma safe_float_error value default :
  snd (safe_float value default) <> EmptyString ->
  exists s, value = PyStr s /\ s <> EmptyString
            /\ strip Py_UNICODE_ISSPACE s <> EmptyString
            /\ float (strip Py_UNICODE_ISSPACE s) = None.
Proof.
  unfold safe_float. destruct value as [s|r]; simpl.
  - destruct (strip Py_UNICODE_ISSPACE s =? EmptyString) eqn:E; simpl;
      [congruence|].
    apply String.eqb_neq in E.
    destruct (float (strip Py_UNICODE_ISSPACE s)) eqn:F; simpl; [congruence|].
    intros _. exists s. repeat split; auto. now apply strip_nonempty in E.
  - congruence.
Qed.

Lemma safe_int_error value default :
  snd (safe_int value default) <> EmptyString ->
  exists s, value = PyStr s /\ s <> EmptyString
            /\ strip Py_UNICODE_ISSPACE s <> EmptyString
            /\ int (strip Py_UNICODE_ISSPACE s) = None.
Proof.
  unfold safe_int. destruct value as [s|r]; simpl.
  - destruct (strip Py_UNICODE_ISSPACE s =? EmptyString) eqn:E; simpl;
      [congruence|].
    apply String.eqb_neq in E.
    destruct (int (strip Py_UNICODE_ISSPACE s)) eqn:F; simpl; [congruence|].
    intros _. exists s. repeat split; auto. now apply strip_nonempty in E.
  - congruence.
Qed.

(** C10.  For a value that is not a string, and for a string of white
    space only, [safe_float] and [safe_int] return the default and an
    empty message; a message is produced only for a string that is not
    empty and whose stripped text the conversion rejects; and a call
    whose converted fields are all of the first kind runs on the
    defaults, without an error. *)
Theorem silent_defaults :
  (forall value default_f default_i,
      silent value ->
      safe_float value default_f = (default_f, EmptyString)
      /\ safe_int value default_i = (default_i, EmptyString))
  /\ (forall value default_f,
         snd (safe_float value default_f) <> EmptyString ->
         exists s, value = PyStr s /\ s <> EmptyString
                   /\ float (strip Py_UNICODE_ISSPACE s) = None)
  /\ (forall value default_i,
         snd (safe_int value default_i) <> EmptyString ->
         exists s, value = PyStr s /\ s <> EmptyString
                   /\ int (strip Py_UNICODE_ISSPACE s) = None)
  /\ (forall c,
         Forall silent (required_fields c) ->
         convert_inputs c = (repeat EmptyString 15, default_fields)).
Proof.
  split; [|split; [|split]].
  - intros value df di H. split.
    + now apply safe_float_silent.
    + now apply safe_int_silent.
  - intros value df H.
    destruct (safe_float_error _ _ H) as (s & -> & Hs & _ & Hf). eauto.
  - intros value di H.
    destruct (safe_int_error _ _ H) as (s & -> & Hs & _ & Hf). eauto.
  - intros c H. unfold required_fields in H.
    repeat match goal with
           | H : Forall _ (_ :: _) |- _ => inversion_clear H
           end.
    unfold convert_inputs.
    repeat (rewrite safe_float_silent by assumption).
    rewrite safe_int_silent by assumption.
    reflexivity.
Qed.

Lemma silent_defaults_witness :
  safe_float None_ (Fin 5) = (Fin 5, EmptyString)
  /\ safe_int (PyObj "5.0") 7 = (7%Z, EmptyString)
  /\ safe_float (PyStr "   ") (Fin 5) = (Fin 5, EmptyString).
Proof.
  destruct silent_defaults as (H & _).
  split; [|split].
  - apply (H None_ (Fin 5) 0%Z). left. intros s; discriminate.
  - apply (H (PyObj "5.0") NaN 7%Z). left. intros s; discriminate.
  - apply (H (PyStr "   ") (Fin 5) 0%Z). right. exists "   ".
    split; reflexivity.
Defined.

(** Whatever [int] accepts, [float] accepts. *)
Lemma span_digits_all s ds :
  span_digits s = (ds, EmptyString) ->
  parse_decimal s
  = match ds with
    | [] => None
    | _ => Some (digits_value ds, 0%Z)
    end.
Proof.
  intros H. unfold parse_decimal. rewrite H. simpl.
  rewrite app_nil_r. destruct ds; reflexivity.
Qed.

Lemma int_accepted_float_accepted s z : int s = Some z -> float s <> None.
Proof.
  unfold int, float.
  destruct (strip_underscores None (strip Py_ISSPACE s)) as [t|]; [|discriminate].
  destruct (parse_sign t) as [neg body].
  destruct (span_digits body) as [ds r] eqn:E.
  destruct ds as [|d ds]; [discriminate|].
  destruct r; [|discriminate].
  intros _.
  destruct ((lower_str body =? "inf") || (lower_str body =? "infinity"));
    [discriminate|].
  destruct (lower_str body =? "nan"); [discriminate|].
  rewrite (span_digits_all _ _ E).
  destruct (Qle_bool _ _); discriminate.
Qed.

Lemma float_rejected_int_rejected s : float s = None -> int s = None.
Proof.
  intros H. destruct (int s) as [z|] eqn:E; [|reflexivity].
  now destruct (int_accepted_float_accepted _ _ E).
Qed.

Lemma safe_float_rejects t default :
  strip Py_UNICODE_ISSPACE t <> EmptyString ->
  float (strip Py_UNICODE_ISSPACE t) = None ->
  snd (safe_float (PyStr t) default) <> EmptyString.
Proof.
  intros Hne Hf. unfold safe_float. simpl.
  apply String.eqb_neq in Hne. rewrite Hne, Hf. simpl. discriminate.
Qed.

Lemma safe_int_rejects t default :
  strip Py_UNICODE_ISSPACE t <> EmptyString ->
  float (strip Py_UNICODE_ISSPACE t) = None ->
  snd (safe_int (PyStr t) default) <> EmptyString.
Proof.
  intros Hne Hf. unfold safe_int. simpl.
  apply String.eqb_neq in Hne.
  rewrite Hne, (float_rejected_int_rejected _ Hf). simpl. discriminate.
Qed.

(** The messages of the conversions, field by field. *)
Lemma convert_inputs_errors c :
  fst (convert_inputs c)
  = [snd (safe_float (a_C0 c) (Fin 0.1));
     snd (safe_float (a_Q0 c) (Fin 0.1));
     snd (safe_float (a_p c) (Fin 0.1));
     snd (safe_float (a_ACH c) (Fin 1));
     snd (safe_float (a_room_volume c) (Fin 1000));
     snd (safe_float (a_delta_t c) (Fin 42));
     snd (safe_float (a_x c) (Fin 0.7));
     snd (safe_float (a_gamma c) (Fin 0.5));
     snd (safe_float (a_f_e c) (Fin 1));
     snd (safe_float (a_f_i c) (Fin 1));
     snd (safe_float (a_omicron c) (Fin 4.20));
     snd (safe_float (a_covid_prevalence c) (Fin 1));
     snd (safe_float (a_immune c) (Fin 1));
     snd (safe_int (a_N c) 1);
     snd (safe_float (a_percentage_masked c) (Fin 0))].
Proof.
  unfold convert_inputs.
  repeat match goal with
         | |- context [safe_float ?v ?d] => destruct (safe_float v d)
         end.
  destruct (safe_int (a_N c) 1). reflexivity.
Qed.

Lemma any_of_nonempty e errors :
  In e errors -> e <> EmptyString -> any errors = true.
Proof.
  intros Hin Hne. unfold any. apply existsb_exists. exists e. split; [easy|].
  apply negb_true_iff. now apply String.eqb_neq.
Qed.

Lemma engine_on_error c w s :
  any (fst (convert_inputs c)) = true ->
  calculate_unified_transmission_exposure c w s = Some (error_result, s).
Proof.
  intros H. unfold calculate_unified_transmission_exposure.
  destruct (convert_inputs c) as [errors converted]. simpl in H.
  now rewrite H.
Qed.

(** C2, amended.  When some converted field of the call is a string
    that is not empty once its surrounding white space is stripped and
    that [float] rejects, the engine returns the dictionary with the one
    key ["error"], which has no ["risk"], and the generator is left as it
    was: no simulation has sampled anything. *)
Theorem invalid_field_gives_error (c : Call) (w : draws) (s : rng_state) :
  (exists t, In (PyStr t) (required_fields c)
             /\ strip Py_UNICODE_ISSPACE t <> EmptyString
             /\ float (strip Py_UNICODE_ISSPACE t) = None) ->
  calculate_unified_transmission_exposure c w s = Some (error_result, s)
  /\ dict_keys error_result = ["error"]
  /\ dict_get "risk" error_result = None.
Proof.
  intros (t & Hin & Hne & Hf).
  split; [|split; reflexivity].
  apply engine_on_error. rewrite convert_inputs_errors.
  unfold required_fields in Hin. simpl in Hin.
  decompose [or] Hin; clear Hin;
    match goal with
    | H : False |- _ => destruct H
    | H : ?a c = PyStr t |- _ =>
        first
          [ apply (any_of_nonempty (snd (safe_float (a c) (Fin 0.1))));
            [simpl; tauto | rewrite H; now apply safe_float_rejects]
          | apply (any_of_nonempty (snd (safe_float (a c) (Fin 1))));
            [simpl; tauto | rewrite H; now apply safe_float_rejects]
          | apply (any_of_nonempty (snd (safe_float (a c) (Fin 1000))));
            [simpl; tauto | rewrite H; now apply safe_float_rejects]
          | apply (any_of_nonempty (snd (safe_float (a c) (Fin 42))));
            [simpl; tauto | rewrite H; now apply safe_float_rejects]
          | apply (any_of_nonempty (snd (safe_float (a c) (Fin 0.7))));
            [simpl; tauto | rewrite H; now apply safe_float_rejects]
          | apply (any_of_nonempty (snd (safe_float (a c) (Fin 0.5))));
            [simpl; tauto | rewrite H; now apply safe_float_rejects]
          | apply (any_of_nonempty (snd (safe_float (a c) (Fin 4.20))));
            [simpl; tauto | rewrite H; now apply safe_float_rejects]
          | apply (any_of_nonempty (snd (safe_float (a c) (Fin 0))));
            [simpl; tauto | rewrite H; now apply safe_float_rejects]
          | apply (any_of_nonempty (snd (safe_int (a c) 1)));
            [simpl; tauto | rewrite H; now apply safe_int_rejects] ]
    end.
Qed.

Lemma invalid_field_gives_error_witness :
  calculate_unified_transmission_exposure invalid_call constant_draws fresh_rng
  = Some (error_result, fresh_rng)
  /\ dict_keys error_result = ["error"]
  /\ dict_get "risk" error_result = None.
Proof.
  apply (invalid_field_gives_error invalid_call constant_draws fresh_rng).
  exists "abc". split; [|split].
  - vm_compute. tauto.
  - vm_compute. discriminate.
  - vm_compute. reflexivity.
Defined.

(** ** The result dictionary *)

Lemma dict_get_set k k' v d :
  dict_get k (dict_set k' v d) = if k =? k' then Some v else dict_get k d.
Proof.
  induction d as [|[k0 v0] rest IH]; simpl.
  - reflexivity.
  - destruct (k' =? k0) eqn:E0; simpl.
    + apply String.eqb_eq in E0. subst k0.
      destruct (k =? k'); reflexivity.
    + rewrite IH. destruct (k =? k0) eqn:E1; [|reflexivity].
      apply String.eqb_eq in E1. subst k0.
      now rewrite String.eqb_sym, E0.
Qed.

Lemma summarize_entries all_risks_pf result :
  let d := summarize all_risks_pf result in
  has_statistics all_risks_pf d
  /\ dict_get "risk_distribution_data" d = Some (distribution_entry all_risks_pf)
  /\ dict_get "error" d = dict_get "error" result.
Proof.
  unfold summarize, distribution_entry, has_statistics.
  destruct (risk_distribution.generate_risk_distribution_data all_risks_pf);
    cbv zeta; rewrite !dict_get_set; simpl; repeat split; reflexivity.
Qed.

Lemma initial_result_no_error c v : dict_get "error" (initial_result c v) = None.
Proof. unfold initial_result. cbv zeta. rewrite !dict_get_set. reflexivity. Qed.

(** The engine on a call whose conversions succeed with finite values. *)
Lemma engine_on_success c w s v :
  any (fst (convert_inputs c)) = false ->
  finite_fields (snd (convert_inputs c)) = Some v ->
  calculate_unified_transmission_exposure c w s
  = Some (summarize (fst (all_risks c (rescale v) w s))
            (initial_result c (rescale v)),
          snd (all_risks c (rescale v) w s)).
Proof.
  intros Hany Hfin. unfold calculate_unified_transmission_exposure.
  destruct (convert_inputs c) as [errors converted]. simpl in *.
  rewrite Hany, Hfin.
  now destruct (all_risks c (rescale v) w s).
Qed.

(** C2, the claim as stated fails: a single blank is a string that is
    not empty and that [float] rejects, and the engine runs the
    simulations on the default room volume. *)
Lemma blank_field_is_accepted :
  In (PyStr " ") (required_fields blank_volume_call)
  /\ " " <> EmptyString
  /\ float " " = None
  /\ exists d s' mean_risk,
      calculate_unified_transmission_exposure blank_volume_call
        constant_draws fresh_rng
      = Some (d, s')
      /\ d <> error_result
      /\ dict_get "error" d = None
      /\ dict_get "risk" d = Some (OFloat mean_risk).
Proof.
  split; [vm_compute; tauto|].
  split; [discriminate|].
  split; [vm_compute; reflexivity|].
  assert (Hany : any (fst (convert_inputs blank_volume_call)) = false)
    by (vm_compute; reflexivity).
  assert (Hfin : exists v,
             finite_fields (snd (convert_inputs blank_volume_call)) = Some v).
  { assert (E : snd (convert_inputs blank_volume_call) = default_fields)
      by (vm_compute; reflexivity).
    rewrite E. eexists. reflexivity. }
  destruct Hfin as [v Hfin].
  rewrite (engine_on_success _ _ _ _ Hany Hfin).
  set (risks :=
         fst (all_risks blank_volume_call (rescale v) constant_draws fresh_rng)).
  set (result := initial_result blank_volume_call (rescale v)).
  destruct (summarize_entries risks result) as ((Hrisk & _) & _ & Herr).
  eexists; eexists; eexists.
  split; [reflexivity|].
  assert (Hnone : dict_get "error" (summarize risks result) = None).
  { rewrite Herr. apply initial_result_no_error. }
  split; [|split].
  - intros E. rewrite E in Hnone. discriminate.
  - exact Hnone.
  - exact Hrisk.
Qed.

(** ** Finite fields *)

Lemma float_nonfinite txt x :
  float txt = Some x -> is_finite x = false -> nonfinite_literal txt.
Proof.
  unfold float, nonfinite_literal.
  destruct (strip_underscores None (strip Py_ISSPACE txt)) as [t|];
    [|discriminate].
  destruct (parse_sign t) as [neg body] eqn:Es.
  intros H Hx. exists t, neg, body. split; [reflexivity|]. split; [exact Es|].
  destruct (lower_str body =? "inf") eqn:E1.
  { left. now apply String.eqb_eq. }
  destruct (lower_str body =? "infinity") eqn:E2.
  { right; left. now apply String.eqb_eq. }
  destruct (lower_str body =? "nan") eqn:E3.
  { right; right; left. now apply String.eqb_eq. }
  simpl in H. right; right; right.
  destruct (parse_decimal body) as [[m e]|]; [|discriminate].
  exists m, e. split; [reflexivity|].
  destruct (Qle_bool DBL_ROUNDS_TO_INF (decimal_value m e)) eqn:Q.
  - now apply Qle_bool_iff.
  - injection H as <-. discriminate.
Qed.

Lemma safe_float_finite value default x :
  safe_float value default = (x, EmptyString) ->
  is_finite default = true ->
  is_finite x = true
  \/ exists s, value = PyStr s
               /\ nonfinite_literal (strip Py_UNICODE_ISSPACE s).
Proof.
  unfold safe_float. intros H Hd.
  destruct (_strip value =? EmptyString) eqn:E.
  - injection H as <-. now left.
  - destruct (float (_strip value)) as [y|] eqn:F.
    + injection H as <-.
      destruct (is_finite y) eqn:Fy; [now left|right].
      destruct value as [s|r]; simpl in *; [|discriminate].
      exists s. split; [reflexivity|]. eapply float_nonfinite; eauto.
    + discriminate.
Qed.

Lemma float_of_nonfinite_literal txt :
  nonfinite_literal txt -> exists x, float txt = Some x /\ is_finite x = false.
Proof.
  intros (t & neg & body & Ht & Hs & Hb). unfold float. rewrite Ht, Hs.
  destruct (lower_str body =? "inf") eqn:E1; [simpl; eauto|].
  destruct (lower_str body =? "infinity") eqn:E2; [simpl; eauto|].
  destruct (lower_str body =? "nan") eqn:E3; [simpl; eauto|].
  simpl.
  destruct Hb as [Hb | [Hb | [Hb | (m & e & Hd & Hq)]]].
  - apply String.eqb_eq in Hb. congruence.
  - apply String.eqb_eq in Hb. congruence.
  - apply String.eqb_eq in Hb. congruence.
  - rewrite Hd. apply Qle_bool_iff in Hq. rewrite Hq. eauto.
Qed.

Lemma nonfinite_literal_nonempty txt : nonfinite_literal txt -> txt <> EmptyString.
Proof.
  intros (t & neg & body & Ht & Hs & Hb) ->.
  vm_compute in Ht. injection Ht as <-.
  vm_compute in Hs. injection Hs as <- <-.
  destruct Hb as [Hb | [Hb | [Hb | (m & e & Hd & _)]]]; discriminate.
Qed.

Lemma safe_float_nonfinite s default :
  nonfinite_literal (strip Py_UNICODE_ISSPACE s) ->
  exists x, safe_float (PyStr s) default = (x, EmptyString)
            /\ is_finite x = false.
Proof.
  intros H. unfold safe_float. simpl.
  assert (Hne := nonfinite_literal_nonempty _ H).
  apply String.eqb_neq in Hne. rewrite Hne.
  destruct (float_of_nonfinite_literal _ H) as (x & -> & Hx). eauto.
Qed.

Lemma any_false errors :
  any errors = false -> Forall (fun e => e = EmptyString) errors.
Proof.
  unfold any. induction errors as [|e rest IH]; simpl; intros H; constructor.
  - apply orb_false_iff in H as [H _].
    apply negb_false_iff in H. now apply String.eqb_eq.
  - apply IH. now apply orb_false_iff in H as [_ H].
Qed.

(** The converted fields, field by field. *)
Lemma convert_inputs_fields c :
  snd (convert_inputs c)
  = {| C0_val := fst (safe_float (a_C0 c) (Fin 0.1));
       Q0_val := fst (safe_float (a_Q0 c) (Fin 0.1));
       p_val := fst (safe_float (a_p c) (Fin 0.1));
       ACH_val := fst (safe_float (a_ACH c) (Fin 1));
       room_volume_val := fst (safe_float (a_room_volume c) (Fin 1000));
       delta_t_val := fst (safe_float (a_delta_t c) (Fin 42));
       x_val := fst (safe_float (a_x c) (Fin 0.7));
       gamma_val := fst (safe_float (a_gamma c) (Fin 0.5));
       f_e_val := fst (safe_float (a_f_e c) (Fin 1));
       f_i_val := fst (safe_float (a_f_i c) (Fin 1));
       omicron_val := fst (safe_float (a_omicron c) (Fin 4.20));
       covid_prevalence_val :=
         float_div (fst (safe_float (a_covid_prevalence c) (Fin 1))) 100;
       immune_val := fst (safe_float (a_immune c) (Fin 1));
       N_val := fst (safe_int (a_N c) 1);
       percentage_masked_val :=
         fst (safe_float (a_percentage_masked c) (Fin 0)) |}.
Proof.
  unfold convert_inputs.
  repeat match goal with
         | |- context [safe_float ?v ?d] => destruct (safe_float v d)
         end.
  destruct (safe_int (a_N c) 1). reflexivity.
Qed.

Lemma is_finite_real_of f : is_finite f = true -> exists r, real_of f = Some r.
Proof. destruct f; try discriminate. intros _. eexists. reflexivity. Qed.

Lemma field_real c value default :
  In value (required_fields c) ->
  (forall s, In (PyStr s) (required_fields c) ->
             ~ nonfinite_literal (strip Py_UNICODE_ISSPACE s)) ->
  snd (safe_float value default) = EmptyString ->
  is_finite default = true ->
  exists r, real_of (fst (safe_float value default)) = Some r.
Proof.
  intros Hin Hno He Hd. apply is_finite_real_of.
  destruct (safe_float value default) as [x e] eqn:E. simpl in *. subst e.
  destruct (safe_float_finite _ _ _ E Hd) as [H | (s & -> & H)]; [exact H|].
  now destruct (Hno s Hin).
Qed.

Lemma real_of_float_div f d r :
  real_of f = Some r -> exists r', real_of (float_div f d) = Some r'.
Proof. destruct f; try discriminate. intros _. eexists. reflexivity. Qed.

(** C7, amended.  A value that [safe_float] returns without a message
    for a finite default is finite, unless it comes from a text that
    spells an infinity or a NaN or is a decimal literal that rounds to
    an infinity; such a text passes without a message and yields a value
    that is not finite; hence when the conversions of a call succeed and
    no text of this kind was supplied, every converted field is a finite
    number. *)
Theorem converted_fields_finite :
  (forall value default x,
      safe_float value default = (x, EmptyString) ->
      is_finite default = true ->
      is_finite x = true
      \/ exists s, value = PyStr s
                   /\ nonfinite_literal (strip Py_UNICODE_ISSPACE s))
  /\ (forall s default,
         nonfinite_literal (strip Py_UNICODE_ISSPACE s) ->
         exists x, safe_float (PyStr s) default = (x, EmptyString)
                   /\ is_finite x = false)
  /\ (forall c,
         any (fst (convert_inputs c)) = false ->
         (forall s, In (PyStr s) (required_fields c) ->
                    ~ nonfinite_literal (strip Py_UNICODE_ISSPACE s)) ->
         exists v, finite_fields (snd (convert_inputs c)) = Some v).
Proof.
  split; [exact safe_float_finite|].
  split; [exact safe_float_nonfinite|].
  intros c Hany Hno.
  apply any_false in Hany. rewrite convert_inputs_errors in Hany.
  repeat match goal with
         | H : Forall _ (_ :: _) |- _ => inversion_clear H
         end.
  rewrite convert_inputs_fields. unfold finite_fields. simpl.
  repeat match goal with
         | |- context [real_of (fst (safe_float ?value ?d))] =>
             let r := fresh "r" in
             let E := fresh "E" in
             destruct (field_real c value d) as [r E];
             [unfold required_fields; simpl; tauto
             |assumption|assumption|reflexivity|];
             rewrite E; clear E
         end.
  destruct (field_real c (a_covid_prevalence c) (Fin 1)) as [rp Ep];
    [unfold required_fields; simpl; tauto|assumption|assumption|reflexivity|].
  destruct (real_of_float_div _ 100 _ Ep) as [rp' Ep']. rewrite Ep'.
  repeat match goal with
         | |- context [real_of (fst (safe_float ?value ?d))] =>
             let r := fresh "r" in
             let E := fresh "E" in
             destruct (field_real c value d) as [r E];
             [unfold required_fields; simpl; tauto
             |assumption|assumption|reflexivity|];
             rewrite E; clear E
         end.
  eexists. reflexivity.
Qed.

Lemma converted_fields_finite_witness :
  (is_finite (Fin 2.5) = true
   \/ exists s, PyStr "2.5" = PyStr s
                /\ nonfinite_literal (strip Py_UNICODE_ISSPACE s))
  /\ exists v, finite_fields (snd (convert_inputs default_call)) = Some v.
Proof.
  destruct converted_fields_finite as (H1 & _ & H2).
  split.
  - apply (H1 (PyStr "2.5") (Fin 1) (Fin 2.5)); vm_compute; reflexivity.
  - apply (H2 default_call).
    + vm_compute. reflexivity.
    + intros s Hin (t & neg & body & Ht & Hs & Hb).
      assert (Hs0 : s = EmptyString \/ s = "0").
      { vm_compute in Hin. intuition congruence. }
      destruct Hs0 as [-> | ->]; vm_compute in Ht; injection Ht as <-;
        vm_compute in Hs; injection Hs as <- <-;
        destruct Hb as [Hb | [Hb | [Hb | (m & e & Hb & Hq)]]];
        try discriminate.
      vm_compute in Hb. injection Hb as <- <-.
      vm_compute in Hq. now apply Hq.
Defined.

(** C7, the claim as stated fails: the text ["nan"] passes [safe_float]
    without a message and yields a NaN, a large decimal literal yields an
    infinity, and on a call with such a text the conversions succeed
    with a field that is not finite. *)
Lemma nan_passes_validation :
  safe_float (PyStr "nan") (Fin 1) = (NaN, EmptyString)
  /\ safe_float (PyStr "1e999") (Fin 1) = (Inf false, EmptyString)
  /\ any (fst (convert_inputs nan_call)) = false
  /\ ACH_val (snd (convert_inputs nan_call)) = NaN
  /\ (forall w s, calculate_unified_transmission_exposure nan_call w s
                  <> Some (error_result, s)).
Proof.
  split; [vm_compute; reflexivity|].
  split; [vm_compute; reflexivity|].
  split; [vm_compute; reflexivity|].
  split; [vm_compute; reflexivity|].
  intros w s. unfold calculate_unified_transmission_exposure.
  replace (convert_inputs nan_call)
    with (fst (convert_inputs nan_call), snd (convert_inputs nan_call))
    by (now destruct (convert_inputs nan_call)).
  replace (any (fst (convert_inputs nan_call))) with false
    by (vm_compute; reflexivity).
  replace (finite_fields (snd (convert_inputs nan_call))) with (@None (Fields R)).
  - discriminate.
  - rewrite convert_inputs_fields. reflexivity.
Qed.

(** ** The particle-size grid *)

Local Open Scope R_scope.

Section Widths.

(** A grid given by its values [f 0], [f 1], ... *)
Variable f : nat -> R.

Lemma nth_map_seq (n k : nat) :
  (k < n)%nat -> nth k (map f (seq 0 n)) 0 = f k.
Proof.
  intros H.
  rewrite (nth_indep _ 0 (f 0%nat)) by (now rewrite length_map, length_seq).
  rewrite map_nth. now rewrite seq_nth.
Qed.

Lemma bin_widths_map_seq (n : nat) :
  (2 <= n)%nat ->
  bin_widths (map f (seq 0 n)) = map (width_at f n) (seq 0 n).
Proof.
  intros Hn. unfold bin_widths. rewrite length_map, length_seq.
  apply map_ext_in. intros i Hi. apply in_seq in Hi. unfold width_at.
  destruct (i =? 0)%nat eqn:E0.
  - now rewrite !nth_map_seq by lia.
  - apply Nat.eqb_neq in E0.
    destruct (i =? n - 1)%nat eqn:E1.
    + now rewrite !nth_map_seq by lia.
    + apply Nat.eqb_neq in E1. now rewrite !nth_map_seq by lia.
Qed.

Lemma sum_app (a b : list R) : np.sum (a ++ b) = np.sum a + np.sum b.
Proof.
  unfold np.sum. induction a as [|x a IH]; simpl; [ring|].
  rewrite IH. ring.
Qed.

Lemma inner_widths_sum (m : nat) :
  np.sum (map (fun i => (f (i + 1)%nat - f (i - 1)%nat) / 2) (seq 1 m))
  = (f (m + 1)%nat + f m - f 1%nat - f 0%nat) / 2.
Proof.
  induction m as [|m IH].
  - simpl. unfold np.sum. simpl. field.
  - rewrite seq_S, map_app, sum_app, IH. simpl. unfold np.sum. simpl.
    replace (m + 1)%nat with (S m) by lia.
    replace (S m + 1)%nat with (S (S m)) by lia.
    replace (m - 0)%nat with m by lia.
    field.
Qed.

Lemma widths_sum (m : nat) :
  np.sum (map (width_at f (S (S m))) (seq 0 (S (S m))))
  = (f (S m) - f 0%nat)
    + (f 1%nat - f 0%nat) / 2 + (f (S m) - f m) / 2.
Proof.
  change (seq 0 (S (S m))) with (0%nat :: seq 1 (S m)).
  rewrite seq_S, map_cons, map_app.
  change (np.sum (?x :: ?l)) with (x + np.sum l).
  rewrite sum_app.
  rewrite (map_ext_in (width_at f (S (S m)))
             (fun i => (f (i + 1)%nat - f (i - 1)%nat) / 2) (seq 1 m)).
  - rewrite inner_widths_sum. unfold width_at. simpl.
    replace (m - 0)%nat with m by lia.
    rewrite Nat.eqb_refl.
    replace (m + 1)%nat with (S m) by lia.
    unfold np.sum. simpl. field.
  - intros i Hi. apply in_seq in Hi. unfold width_at.
    destruct (i =? 0)%nat eqn:E0; [apply Nat.eqb_eq in E0; lia|].
    destruct (i =? S (S m) - 1)%nat eqn:E1; [apply Nat.eqb_eq in E1; lia|].
    reflexivity.
Qed.

Hypothesis f_increasing : forall i, f i < f (S i).

Lemma widths_positive (n i : nat) :
  (2 <= n)%nat -> (i < n)%nat -> 0 < width_at f n i.
Proof.
  intros Hn Hi. unfold width_at.
  destruct (i =? 0)%nat eqn:E0.
  - specialize (f_increasing 0%nat). lra.
  - apply Nat.eqb_neq in E0.
    destruct (i =? n - 1)%nat eqn:E1.
    + specialize (f_increasing (n - 2)%nat).
      replace (S (n - 2)) with (n - 1)%nat in f_increasing by lia. lra.
    + assert (H1 := f_increasing (i - 1)%nat).
      assert (H2 := f_increasing i).
      replace (S (i - 1)) with i in H1 by lia.
      replace (i + 1)%nat with (S i) by lia. lra.
Qed.

End Widths.

Lemma ln10_pos : 0 < ln 10.
Proof. rewrite <- ln_1. apply ln_increasing; lra. Qed.

Lemma Rpower_10_log10 (x : R) : 0 < x -> Rpower 10 (np.log10 x) = x.
Proof.
  intros H. unfold Rpower, np.log10.
  replace (ln x / ln 10 * ln 10) with (ln x)
    by (field; apply Rgt_not_eq, ln10_pos).
  now apply exp_ln.
Qed.

Lemma grid_step_pos : 0 < (np.log10 30 - np.log10 0.1) / INR 49.
Proof.
  assert (H10 := ln10_pos).
  assert (Hln : ln 0.1 < ln 30) by (apply ln_increasing; lra).
  assert (H49 : 0 < INR 49) by (apply lt_0_INR; lia).
  apply Rdiv_lt_0_compat; [|exact H49].
  unfold np.log10.
  apply Rlt_0_minus. unfold Rdiv.
  apply Rmult_lt_compat_r; [now apply Rinv_0_lt_compat|exact Hln].
Qed.

Lemma Ds_at_increasing i : Ds_at i < Ds_at (S i).
Proof.
  unfold Ds_at. apply Rpower_lt; [lra|].
  rewrite (S_INR i). assert (H := grid_step_pos).
  set (step := (np.log10 30 - np.log10 0.1) / INR 49) in *.
  set (start := np.log10 0.1). set (k := INR i).
  replace ((k + 1) * step) with (k * step + step) by ring. lra.
Qed.

Lemma Ds_at_pos i : 0 < Ds_at i.
Proof. apply Rpower_pos. Qed.

Lemma Ds_map : Ds = map Ds_at (seq 0 50).
Proof. reflexivity. Qed.

Lemma Ds_nth i : (i < 50)%nat -> nth i Ds 0 = Ds_at i.
Proof. intros H. rewrite Ds_map. now apply nth_map_seq. Qed.

Lemma dDs_map : dDs = map (width_at Ds_at 50) (seq 0 50).
Proof.
  unfold dDs. rewrite Ds_map. apply bin_widths_map_seq. lia.
Qed.

Lemma Ds_first : nth 0 Ds 0 = 0.1.
Proof.
  rewrite Ds_nth by lia. unfold Ds_at. simpl INR.
  rewrite Rmult_0_l, Rplus_0_r. apply Rpower_10_log10. lra.
Qed.

Lemma Ds_last : nth 49 Ds 0 = 30.
Proof.
  rewrite Ds_nth by lia. unfold Ds_at.
  assert (H49 : 0 < INR 49) by (apply lt_0_INR; lia).
  replace (np.log10 0.1 + INR 49 * ((np.log10 30 - np.log10 0.1) / INR 49))
    with (np.log10 30) by (field; lra).
  apply Rpower_10_log10. lra.
Qed.

Lemma dDs_sum :
  np.sum dDs
  = (nth 49 Ds 0 - nth 0 Ds 0)
    + (nth 1 Ds 0 - nth 0 Ds 0) / 2 + (nth 49 Ds 0 - nth 48 Ds 0) / 2.
Proof.
  rewrite dDs_map, !Ds_nth by lia.
  exact (widths_sum Ds_at 48).
Qed.

(** C8, the claim as stated fails: the widths add up to more than the
    range of the grid. *)
Lemma widths_exceed_range : np.sum dDs <> nth 49 Ds 0 - nth 0 Ds 0.
Proof.
  rewrite dDs_sum, !Ds_nth by lia.
  assert (H0 := Ds_at_increasing 0). assert (H48 := Ds_at_increasing 48).
  lra.
Qed.

(** C8, amended.  The grid has 50 diameters from 0.1 to 30 and 50 bin
    widths; every width is positive; and the widths add up to the range
    of the grid plus half the first gap plus half the last gap. *)
Theorem particle_grid_widths :
  length Ds = 50%nat /\ length dDs = 50%nat
  /\ nth 0 Ds 0 = 0.1 /\ nth 49 Ds 0 = 30
  /\ Forall (fun width => 0 < width) dDs
  /\ np.sum dDs
     = (nth 49 Ds 0 - nth 0 Ds 0)
       + (nth 1 Ds 0 - nth 0 Ds 0) / 2 + (nth 49 Ds 0 - nth 48 Ds 0) / 2.
Proof.
  split; [reflexivity|].
  split; [rewrite dDs_map; now rewrite length_map, length_seq|].
  split; [exact Ds_first|].
  split; [exact Ds_last|].
  split; [|exact dDs_sum].
  rewrite dDs_map. apply Forall_forall. intros w Hw.
  apply in_map_iff in Hw as (i & <- & Hi). apply in_seq in Hi.
  apply widths_positive; [exact Ds_at_increasing|lia|lia].
Qed.

(** ** The histogram *)

Lemma round_positive x : (0 < round x)%Z -> 0 < x.
Proof.
  unfold round. assert (H := Zfloor_bound x).
  destruct (Rlt_dec (x - IZR (Zfloor x)) (1 / 2)) as [Hlt|Hge].
  - intros Hf. apply IZR_lt in Hf. lra.
  - assert (Hup : (0 < Zfloor x + 1)%Z -> 0 < x).
    { intros Hf. assert (Hf' : (0 <= Zfloor x)%Z) by lia.
      apply IZR_le in Hf'. lra. }
    destruct (Rlt_dec (1 / 2) (x - IZR (Zfloor x))); [exact Hup|].
    destruct (Z.even (Zfloor x)); [|exact Hup].
    intros Hf. apply IZR_lt in Hf. lra.
Qed.

Lemma round_negative x : (round x < 0)%Z -> x < 0.
Proof.
  unfold round. assert (H := Zfloor_bound x).
  assert (Hdown : (Zfloor x < 0)%Z -> x < 0).
  { intros Hf. assert (Hf' : (Zfloor x + 1 <= 0)%Z) by lia.
    apply IZR_le in Hf'. rewrite plus_IZR in Hf'. lra. }
  assert (Hup : (Zfloor x + 1 < 0)%Z -> x < 0).
  { intros Hf. apply Hdown. lia. }
  destruct (Rlt_dec (x - IZR (Zfloor x)) (1 / 2)); [exact Hdown|].
  destruct (Rlt_dec (1 / 2) (x - IZR (Zfloor x))); [exact Hup|].
  destruct (Z.even (Zfloor x)); [exact Hdown|exact Hup].
Qed.

(** A rounded width [round (w * k) / k] that is not zero has the sign
    of [w]. *)
Lemma rounded_width_sign (w k : R) :
  0 < k ->
  IZR (round (w * k)) / k <> 0 ->
  (0 < IZR (round (w * k)) / k /\ 0 < w)
  \/ (IZR (round (w * k)) / k < 0 /\ w < 0).
Proof.
  intros Hk Hne.
  assert (Hik : 0 < / k) by now apply Rinv_0_lt_compat.
  destruct (Z.lt_trichotomy (round (w * k)) 0) as [Hn | [Hz | Hp]].
  - right. split.
    + apply IZR_lt in Hn. unfold Rdiv. nra.
    + apply round_negative in Hn. nra.
  - rewrite Hz in Hne. exfalso. apply Hne. unfold Rdiv. ring.
  - left. split.
    + apply IZR_lt in Hp. unfold Rdiv. nra.
    + apply round_positive in Hp. nra.
Qed.

Lemma diff_length (c : list Z) : length (np.diff c) = (length c - 1)%nat.
Proof.
  induction c as [|x [|y t] IH]; simpl in *; try reflexivity.
  rewrite IH. lia.
Qed.

Lemma cumulative_length a edges : length (np.cumulative a edges) = length edges.
Proof.
  induction edges as [|e [|e' t] IH]; simpl in *; try reflexivity.
  now rewrite IH.
Qed.

Lemma diff_total (x : Z) (c : list Z) :
  total (np.diff (x :: c)) = (last (x :: c) 0 - x)%Z.
Proof.
  revert x. induction c as [|y t IH]; intros x.
  - simpl. lia.
  - change (np.diff (x :: y :: t)) with ((y - x)%Z :: np.diff (y :: t)).
    change (total (?z :: ?l)) with (z + total l)%Z.
    rewrite IH. change (last (x :: y :: t) 0%Z) with (last (y :: t) 0%Z). lia.
Qed.

Lemma cumulative_first a e e' t :
  np.cumulative a (e :: e' :: t)
  = np.count_lt a e :: np.cumulative a (e' :: t).
Proof. reflexivity. Qed.

Lemma last_cons {A : Type} (x y : A) (l : list A) (d : A) :
  last (x :: y :: l) d = last (y :: l) d.
Proof. reflexivity. Qed.

Lemma cumulative_last a e t :
  last (np.cumulative a (e :: t)) 0%Z = np.count_le a (last (e :: t) 0).
Proof.
  revert e. induction t as [|e' t IH]; intros e.
  - reflexivity.
  - rewrite cumulative_first, last_cons.
    specialize (IH e').
    destruct (np.cumulative a (e' :: t)) as [|z zs] eqn:E.
    + assert (L := cumulative_length a (e' :: t)). rewrite E in L. discriminate.
    + rewrite last_cons. exact IH.
Qed.

Lemma count_between (a : list R) (low high : R) :
  low <= high ->
  (np.count_le a high - np.count_lt a low)%Z = count_within a low high.
Proof.
  intros H. unfold np.count_le, np.count_lt, count_within.
  induction a as [|x a IH]; [reflexivity|].
  simpl.
  destruct (Rle_dec x high), (Rlt_dec x low), (Rle_dec low x);
    try lra; simpl length; lia.
Qed.

Lemma count_within_bounds (a : list R) (low high : R) :
  (0 <= count_within a low high <= Z.of_nat (length a))%Z.
Proof.
  unfold count_within. split; [lia|].
  apply inj_le. apply filter_length_le.
Qed.

Lemma create_smart_bins_width a x_min x_max bins :
  risk_distribution.create_smart_bins a x_min x_max = Some bins ->
  exists bin_width,
    np.arange x_min (x_max + bin_width) bin_width = Some bins
    /\ ((0 < bin_width /\ x_min < x_max) \/ (bin_width < 0 /\ x_max < x_min)).
Proof.
  unfold risk_distribution.create_smart_bins.
  set (w := (x_max - x_min) / 20).
  assert (Hw : forall k, 0 < k ->
                 np.arange x_min (x_max + IZR (round (w * k)) / k)
                   (IZR (round (w * k)) / k) = Some bins ->
                 exists bin_width,
                   np.arange x_min (x_max + bin_width) bin_width = Some bins
                   /\ ((0 < bin_width /\ x_min < x_max)
                       \/ (bin_width < 0 /\ x_max < x_min))).
  { intros k Hk H. exists (IZR (round (w * k)) / k). split; [exact H|].
    assert (Hne : IZR (round (w * k)) / k <> 0).
    { intros E. unfold np.arange in H. rewrite E in H.
      destruct (Req_dec_T 0 0); [discriminate|lra]. }
    destruct (rounded_width_sign w k Hk Hne) as [[H1 H2]|[H1 H2]];
      unfold w in H2; [left|right]; split; auto; lra. }
  destruct (Rlt_dec w 0.001); [apply Hw; lra|].
  destruct (Rlt_dec w 0.01); apply Hw; lra.
Qed.

Lemma Zceil_above_one x : 1 < x -> (2 <= Z.to_nat (Zceil x))%nat.
Proof.
  intros H. assert (B := Zceil_bound x).
  assert (Hz : (1 < Zceil x)%Z) by (apply lt_IZR; lra).
  lia.
Qed.

Lemma arange_points start stop step bins :
  np.arange start stop step = Some bins ->
  1 < (stop - start) / step ->
  exists m, bins = map (fun i => start + INR i * step) (seq 0 (S (S m))).
Proof.
  unfold np.arange. destruct (Req_dec_T step 0); [discriminate|].
  intros H Hgt. injection H as <-.
  apply Zceil_above_one in Hgt.
  destruct (Z.to_nat (Zceil ((stop - start) / step))) as [|[|m]]; try lia.
  now exists m.
Qed.

Lemma last_map_seq (g : nat -> R) (n : nat) (d : R) :
  last (map g (seq 0 (S n))) d = g n.
Proof. rewrite seq_S, map_app. simpl. apply last_last. Qed.

(** The shape of every histogram the function returns: at least two
    equidistant edges, one count per pair of neighbours. *)
Lemma histogram_shape (a : list R) (d : risk_distribution.RiskDistribution) :
  risk_distribution.generate_risk_distribution_data a = inr d ->
  let h := risk_distribution.histogram d in
  risk_distribution.total_simulations h = length a
  /\ exists x_min bw m,
      0 < bw
      /\ risk_distribution.edges h
         = map (fun i => x_min + INR i * bw) (seq 0 (S (S m)))
      /\ risk_distribution.counts h
         = np.diff (np.cumulative a (risk_distribution.edges h)).
Proof.
  unfold risk_distribution.generate_risk_distribution_data.
  destruct (length a =? 0)%nat; [discriminate|].
  destruct (risk_distribution.any_out_of_range a); [discriminate|].
  destruct (risk_distribution.calculate_optimal_axes a) as [[x_min x_max] tick].
  destruct (risk_distribution.create_smart_bins a x_min x_max) as [bins|] eqn:Eb;
    [|discriminate].
  destruct (np.histogram a bins) as [[counts edges]|] eqn:Eh; [|discriminate].
  intros H. injection H as <-. simpl.
  unfold np.histogram in Eh.
  destruct (np.increasing bins) eqn:Einc; [|discriminate].
  injection Eh as <- <-.
  destruct (create_smart_bins_width _ _ _ _ Eb) as (bw & Har & Hsign).
  assert (Hgt : 1 < (x_max + bw - x_min) / bw).
  { replace ((x_max + bw - x_min) / bw) with ((x_max - x_min) / bw + 1)
      by (field; lra).
    assert (0 < (x_max - x_min) / bw); [|lra].
    destruct Hsign as [[H1 H2]|[H1 H2]].
    - apply Rdiv_lt_0_compat; lra.
    - replace ((x_max - x_min) / bw) with ((x_min - x_max) / (- bw))
        by (field; lra).
      apply Rdiv_lt_0_compat; lra. }
  destruct (arange_points _ _ _ _ Har Hgt) as [m ->].
  assert (Hpos : 0 < bw).
  { destruct Hsign as [[H1 _]|[H1 _]]; [exact H1|].
    exfalso. simpl in Einc.
    destruct (Rgt_dec (x_min + 0 * bw) (x_min + 1 * bw)); [discriminate|lra]. }
  split; [reflexivity|].
  exists x_min, bw, m. repeat split. exact Hpos.
Qed.

(** The counts of equidistant edges add up to the number of samples
    between the first edge and the last. *)
Lemma equidistant_total (a : list R) (x_min bw : R) (m : nat) :
  0 < bw ->
  let edges := map (fun i => x_min + INR i * bw) (seq 0 (S (S m))) in
  total (np.diff (np.cumulative a edges))
  = count_within a (hd 0 edges) (last edges 0).
Proof.
  intros Hpos edges. unfold edges.
  rewrite last_map_seq.
  change (seq 0 (S (S m))) with (0%nat :: 1%nat :: seq 2 m).
  rewrite !map_cons, cumulative_first, diff_total.
  rewrite <- cumulative_first, cumulative_last.
  change (last _ 0)
    with (last (map (fun i => x_min + INR i * bw) (seq 0 (S (S m)))) 0).
  rewrite last_map_seq. simpl hd.
  apply count_between.
  assert (Hk : 0 <= INR (S m)) by apply pos_INR.
  set (k := INR (S m)) in *. nra.
Qed.

Lemma histogram_total (a : list R) (d : risk_distribution.RiskDistribution) :
  risk_distribution.generate_risk_distribution_data a = inr d ->
  let h := risk_distribution.histogram d in
  total (risk_distribution.counts h)
  = count_within a (hd 0 (risk_distribution.edges h))
      (last (risk_distribution.edges h) 0).
Proof.
  intros H h.
  destruct (histogram_shape a d H) as (_ & x_min & bw & m & Hpos & He & Hc).
  fold h in He, Hc. rewrite Hc, He. now apply equidistant_total.
Qed.

(** The evaluation of the functions on concrete numbers. *)

Lemma round_eval (x : R) (z : Z) :
  IZR z - 1 / 2 < x < IZR z + 1 / 2 -> round x = z.
Proof.
  intros H. unfold round. assert (B := Zfloor_bound x).
  destruct (Rle_dec (IZR z) x) as [Hle|Hlt].
  - rewrite (Zfloor_eq z x) by lra.
    destruct (Rlt_dec (x - IZR z) (1 / 2)); [reflexivity|lra].
  - rewrite (Zfloor_eq (z - 1) x) by (rewrite minus_IZR; lra).
    rewrite minus_IZR.
    destruct (Rlt_dec (x - (IZR z - 1)) (1 / 2)); [lra|].
    destruct (Rlt_dec (1 / 2) (x - (IZR z - 1))); [lia|lra].
Qed.

Lemma Zceil_eq (z : Z) (x : R) : IZR z - 1 < x <= IZR z -> Zceil x = z.
Proof.
  intros H. unfold Zceil.
  rewrite (Zfloor_eq (- z) (- x)); [lia|]. rewrite opp_IZR. lra.
Qed.

Lemma percentile_two (x y q : R) :
  x <= y -> 0 <= q < 100 -> np.percentile [x; y] q = x + q / 100 * (y - x).
Proof.
  intros Hxy Hq. unfold np.percentile.
  assert (Hs : np.sort [x; y] = [x; y]).
  { simpl. destruct (Rle_dec x y); [reflexivity|lra]. }
  rewrite Hs. simpl length. simpl INR.
  rewrite (Zfloor_eq 0 (q / 100 * 1)) by lra.
  simpl. lra.
Qed.

Lemma increasing_arange (start step : R) (k n : nat) :
  0 <= step ->
  np.increasing (map (fun i => start + INR i * step) (seq k n)) = true.
Proof.
  intros Hs. revert k. induction n as [|n IH]; intros k; [reflexivity|].
  destruct n as [|n]; [reflexivity|].
  specialize (IH (S k)).
  change (seq k (S (S n))) with (k :: seq (S k) (S n)).
  rewrite map_cons.
  change (seq (S k) (S n)) with (S k :: seq (S (S k)) n) in *.
  rewrite map_cons in *.
  change (np.increasing (?a :: ?b :: ?t))
    with (if Rgt_dec a b then false else np.increasing (b :: t)).
  destruct (Rgt_dec _ _) as [Hgt|_]; [|exact IH].
  rewrite S_INR in Hgt. nra.
Qed.

Lemma two_risks_axes :
  risk_distribution.calculate_optimal_axes two_risks = (0.02, 0.57, 0.05).
Proof.
  unfold risk_distribution.calculate_optimal_axes, two_risks.
  rewrite !percentile_two by lra.
  replace (0 + 95 / 100 * (0.5 - 0)) with 0.475 by lra.
  replace (0 + 5 / 100 * (0.5 - 0)) with 0.025 by lra.
  replace (0.475 * 1.2) with 0.57 by lra.
  replace (Rmax 0 (0.025 * 0.8)) with 0.02
    by (unfold Rmax; destruct (Rle_dec 0 (0.025 * 0.8)); lra).
  destruct (Rlt_dec 0.57 0.01); [lra|].
  destruct (Rlt_dec 0.57 0.1); [lra|]. reflexivity.
Qed.

Lemma two_risks_bins :
  risk_distribution.create_smart_bins two_risks 0.02 0.57
  = Some (map (fun i => 0.02 + INR i * (IZR 3 / 100)) (seq 0 20)).
Proof.
  unfold risk_distribution.create_smart_bins.
  destruct (Rlt_dec ((0.57 - 0.02) / 20) 0.001); [lra|].
  destruct (Rlt_dec ((0.57 - 0.02) / 20) 0.01); [lra|].
  rewrite (round_eval _ 3) by lra.
  unfold np.arange.
  destruct (Req_dec_T (IZR 3 / 100) 0); [lra|].
  rewrite (Zceil_eq 20) by lra.
  reflexivity.
Qed.

Lemma two_risks_histogram :
  exists d,
    risk_distribution.generate_risk_distribution_data two_risks = inr d
    /\ risk_distribution.edges (risk_distribution.histogram d)
       = map (fun i => 0.02 + INR i * (IZR 3 / 100)) (seq 0 20).
Proof.
  unfold risk_distribution.generate_risk_distribution_data.
  change (length two_risks =? 0)%nat with false. cbv iota.
  assert (Hr : risk_distribution.any_out_of_range two_risks = false).
  { unfold risk_distribution.any_out_of_range, two_risks. simpl.
    destruct (Rlt_dec 0 0); [lra|]. destruct (Rlt_dec 0.5 0); [lra|].
    destruct (Rgt_dec 0 1); [lra|]. destruct (Rgt_dec 0.5 1); [lra|].
    reflexivity. }
  rewrite Hr, two_risks_axes, two_risks_bins.
  unfold np.histogram. rewrite increasing_arange by lra.
  eexists. split; reflexivity.
Qed.

Lemma two_risks_total d :
  risk_distribution.generate_risk_distribution_data two_risks = inr d ->
  total (risk_distribution.counts (risk_distribution.histogram d)) = 1%Z.
Proof.
  intros H.
  destruct two_risks_histogram as (d' & H' & He).
  rewrite H in H'. injection H' as <-.
  rewrite (histogram_total _ _ H), He, last_map_seq. simpl hd.
  replace (INR 19) with 19 by (rewrite INR_IZR_INZ; reflexivity).
  unfold count_within, two_risks. simpl.
  destruct (Rle_dec (0.02 + 0 * (3 / 100)) 0); [lra|].
  destruct (Rle_dec (0.02 + 0 * (3 / 100)) 0.5); [|lra].
  destruct (Rle_dec 0.5 (0.02 + 19 * (3 / 100))); [|lra].
  reflexivity.
Qed.

(** C6, the claim as stated fails: of two simulations with the risks 0
    and 0.5 the histogram counts one, since its first edge is 0.02. *)
Lemma histogram_drops_low_risks :
  Forall (fun r => 0 <= r <= 1) two_risks
  /\ exists d,
      risk_distribution.generate_risk_distribution_data two_risks = inr d
      /\ total (risk_distribution.counts (risk_distribution.histogram d)) = 1%Z
      /\ risk_distribution.total_simulations (risk_distribution.histogram d)
         = 2%nat.
Proof.
  split.
  - unfold two_risks. repeat constructor; lra.
  - destruct two_risks_histogram as (d & H & _).
    exists d. split; [exact H|]. split; [now apply two_risks_total|].
    now destruct (histogram_shape _ _ H) as (-> & _).
Qed.

(** C6, amended.  Whenever [generate_risk_distribution_data] returns a
    histogram, the number of bin edges is one more than the number of
    counts, the recorded number of simulations is the length of the
    array, and the counts add up to the number of array values between
    the first and the last edge, which is at most the number of
    simulations. *)
Theorem histogram_invariants (a : list R) (d : risk_distribution.RiskDistribution) :
  risk_distribution.generate_risk_distribution_data a = inr d ->
  let h := risk_distribution.histogram d in
  length (risk_distribution.edges h) = S (length (risk_distribution.counts h))
  /\ risk_distribution.total_simulations h = length a
  /\ total (risk_distribution.counts h)
     = count_within a (hd 0 (risk_distribution.edges h))
         (last (risk_distribution.edges h) 0)
  /\ (0 <= total (risk_distribution.counts h) <= Z.of_nat (length a))%Z.
Proof.
  intros H h.
  destruct (histogram_shape a d H) as (Hn & x_min & bw & m & Hpos & He & Hc).
  fold h in Hn, He, Hc.
  assert (Ht := histogram_total a d H). fold h in Ht.
  split; [|split; [|split]].
  - rewrite Hc, diff_length, cumulative_length, He.
    rewrite length_map, length_seq. lia.
  - exact Hn.
  - exact Ht.
  - rewrite Ht. apply count_within_bounds.
Qed.

Lemma histogram_invariants_witness :
  exists d,
    risk_distribution.generate_risk_distribution_data two_risks = inr d
    /\ let h := risk_distribution.histogram d in
       length (risk_distribution.edges h)
       = S (length (risk_distribution.counts h))
       /\ risk_distribution.total_simulations h = length two_risks
       /\ total (risk_distribution.counts h)
          = count_within two_risks (hd 0 (risk_distribution.edges h))
              (last (risk_distribution.edges h) 0)
       /\ (0 <= total (risk_distribution.counts h)
           <= Z.of_nat (length two_risks))%Z.
Proof.
  destruct two_risks_histogram as (d & H & _).
  exists d. split; [exact H|].
  exact (histogram_invariants two_risks d H).
Defined.

(** ** Mean and percentiles of an array between two bounds *)

Lemma insert_length x l : length (np.insert x l) = S (length l).
Proof.
  induction l as [|y t IH]; simpl; [reflexivity|].
  destruct (Rle_dec x y); simpl; [reflexivity|now rewrite IH].
Qed.

Lemma sort_length l : length (np.sort l) = length l.
Proof.
  induction l as [|x t IH]; simpl; [reflexivity|].
  now rewrite insert_length, IH.
Qed.

Lemma insert_Forall (P : R -> Prop) x l :
  P x -> Forall P l -> Forall P (np.insert x l).
Proof.
  intros Hx Hl. induction Hl as [|y t Hy Ht IH]; simpl.
  - now constructor.
  - destruct (Rle_dec x y); repeat constructor; auto.
Qed.

Lemma sort_Forall (P : R -> Prop) l : Forall P l -> Forall P (np.sort l).
Proof.
  induction 1 as [|x t Hx Ht IH]; simpl; [constructor|].
  now apply insert_Forall.
Qed.

Lemma nth_Forall (P : R -> Prop) l i :
  Forall P l -> (i < length l)%nat -> P (nth i l 0).
Proof.
  intros H Hi. rewrite Forall_forall in H. apply H. now apply nth_In.
Qed.

Lemma percentile_between (a : list R) (q low high : R) :
  a <> [] -> 0 <= q <= 100 ->
  Forall (fun r => low <= r <= high) a ->
  low <= np.percentile a q <= high.
Proof.
  intros Hne Hq Ha. unfold np.percentile.
  assert (Hn : (0 < length a)%nat) by (destruct a; simpl; [congruence|lia]).
  set (n := length a) in *.
  set (h := q / 100 * INR (n - 1)).
  assert (Hn1 : 0 <= INR (n - 1)) by apply pos_INR.
  assert (Hh : 0 <= h <= INR (n - 1)) by (unfold h; nra).
  assert (B := Zfloor_bound h).
  assert (Hf0 : (0 <= Zfloor h)%Z) by (apply Zfloor_lub; simpl; lra).
  assert (Hlo : (Z.to_nat (Zfloor h) < n)%nat).
  { assert (Hz : (Zfloor h <= Z.of_nat (n - 1))%Z).
    { apply le_IZR. rewrite <- INR_IZR_INZ. lra. }
    lia. }
  set (lo := Z.to_nat (Zfloor h)) in *.
  assert (Hhi : (Nat.min (lo + 1) (n - 1) < n)%nat) by lia.
  assert (Hs := sort_Forall _ _ Ha).
  assert (Hl := sort_length a). fold n in Hl.
  assert (H1 := nth_Forall _ _ lo Hs ltac:(lia)).
  assert (H2 := nth_Forall _ _ (Nat.min (lo + 1) (n - 1)) Hs ltac:(lia)).
  simpl in H1, H2.
  set (s1 := nth lo (np.sort a) 0) in *.
  set (s2 := nth (Nat.min (lo + 1) (n - 1)) (np.sort a) 0) in *.
  set (g := h - IZR (Zfloor h)).
  assert (Hg : 0 <= g < 1) by (unfold g; lra).
  replace (s1 + g * (s2 - s1)) with ((1 - g) * s1 + g * s2) by ring.
  split; nra.
Qed.

Lemma sum_between (a : list R) (low high : R) :
  Forall (fun r => low <= r <= high) a ->
  INR (length a) * low <= np.sum a <= INR (length a) * high.
Proof.
  induction 1 as [|x t Hx Ht IH].
  - unfold np.sum. simpl. lra.
  - change (np.sum (x :: t)) with (x + np.sum t).
    change (length (x :: t)) with (S (length t)). rewrite S_INR. lra.
Qed.

Lemma mean_between (a : list R) (low high : R) :
  a <> [] ->
  Forall (fun r => low <= r <= high) a ->
  low <= np.mean a <= high.
Proof.
  intros Hne Ha. unfold np.mean.
  assert (Hn : 0 < INR (length a)).
  { apply lt_0_INR. destruct a; simpl; [congruence|lia]. }
  assert (Hs := sum_between _ _ _ Ha).
  split; apply Rmult_le_reg_r with (INR (length a)); try exact Hn;
    unfold Rdiv; rewrite Rmult_assoc, Rinv_l by lra; lra.
Qed.

(** ** A failure of the distribution data *)

Lemma in_range_not_out (a : list R) :
  Forall (fun r => 0 <= r <= 1) a ->
  risk_distribution.any_out_of_range a = false.
Proof.
  unfold risk_distribution.any_out_of_range.
  induction 1 as [|x t Hx Ht IH]; [reflexivity|].
  apply orb_false_iff in IH as [IH1 IH2]. simpl. rewrite IH1, IH2.
  destruct (Rlt_dec x 0); [lra|]. destruct (Rgt_dec x 1); [lra|]. reflexivity.
Qed.

Lemma repeat_Forall (P : R -> Prop) x n : P x -> Forall P (repeat x n).
Proof. intros H. induction n; simpl; now constructor. Qed.

(** An array of risks that are all zero has no histogram: the bin width
    is zero and [np.arange] raises. *)
Lemma all_zero_raises (n : nat) :
  (0 < n)%nat ->
  risk_distribution.generate_risk_distribution_data (repeat 0 n)
  = inl risk_distribution.ArangeError.
Proof.
  intros Hn. unfold risk_distribution.generate_risk_distribution_data.
  rewrite repeat_length.
  destruct (n =? 0)%nat eqn:E; [apply Nat.eqb_eq in E; lia|].
  rewrite in_range_not_out by (apply repeat_Forall; lra).
  assert (Hne : repeat 0 n <> []) by (destruct n; simpl; [lia|discriminate]).
  assert (Hp : forall q, 0 <= q <= 100 -> np.percentile (repeat 0 n) q = 0).
  { intros q Hq.
    assert (Hz : Forall (fun r => 0 <= r <= 0) (repeat 0 n))
      by (apply repeat_Forall; lra).
    assert (H := percentile_between (repeat 0 n) q 0 0 Hne Hq Hz).
    lra. }
  unfold risk_distribution.calculate_optimal_axes.
  rewrite !Hp by lra.
  unfold risk_distribution.create_smart_bins.
  replace ((0 * 1.2 - Rmax 0 (0 * 0.8)) / 20) with 0
    by (unfold Rmax; destruct (Rle_dec 0 (0 * 0.8)); lra).
  destruct (Rlt_dec 0 0.001); [|lra].
  rewrite (round_eval _ 0) by lra.
  unfold np.arange.
  destruct (Req_dec_T (IZR 0 / 10000) 0); [reflexivity|lra].
Qed.

(** With nobody else in the room every simulation has the risk 0. *)
Lemma simulation_nobody c v m w s :
  (N_val v <= 0)%Z -> fst (simulation c v m w s) = 0.
Proof.
  intros HN. unfold simulation, bind.
  replace (Z.to_nat (N_val v)) with 0%nat by lia.
  simpl.
  match goal with
  | |- 1 - exp (- 0 / ?x) = 0 => replace (- 0 / x) with 0 by (unfold Rdiv; ring)
  end.
  rewrite exp_0. ring.
Qed.

Lemma simulations_step c v m n w s :
  fst (simulations c v m (S n) w s)
  = fst (simulation c v m w s)
    :: fst (simulations c v m n w (snd (simulation c v m w s))).
Proof. reflexivity. Qed.


Lemma n_sims_positive e : (0 < Z.to_nat (n_sims e))%nat.
Proof.
  unfold n_sims.
  repeat match goal with
         | |- context [Rlt_dec ?a ?b] => destruct (Rlt_dec a b)
         end; lia.
Qed.



(** ** Signs of the physical quantities *)

Lemma famp_B act : famp act B = 1.
Proof.
  unfold famp.
  destruct (act =? "1")%string; [reflexivity|].
  destruct ((act =? "2") || (act =? "3"))%string; reflexivity.
Qed.

Lemma sigma_pos m : 0 < sigma m.
Proof. destruct m; unfold sigma; lra. Qed.

Lemma cn_pos m : 0 < cn m.
Proof. destruct m; unfold cn; lra. Qed.

Lemma mode_term_pos (D a : R) (m : mode) :
  0 < D -> 0 < a ->
  0 < (a * cn m / (sqrt (2 * PI) * sigma m) / D)
      * exp (- ((ln D - mu m) ^ 2) / (2 * sigma m ^ 2))
      * ((4 / 3) * PI * (D / 2) ^ 3) * 1e-6.
Proof.
  intros HD Ha.
  assert (HPI := PI_RGT_0). assert (Hs := sigma_pos m). assert (Hc := cn_pos m).
  assert (Hq : 0 < sqrt (2 * PI)) by (apply sqrt_lt_R0; lra).
  assert (He := exp_pos (- ((ln D - mu m) ^ 2) / (2 * sigma m ^ 2))).
  assert (H1 : 0 < a * cn m / (sqrt (2 * PI) * sigma m) / D).
  { apply Rdiv_lt_0_compat; [|exact HD].
    apply Rdiv_lt_0_compat; apply Rmult_lt_0_compat; assumption. }
  assert (H2 : 0 < (4 / 3) * PI * (D / 2) ^ 3).
  { apply Rmult_lt_0_compat; [lra|]. apply pow_lt. lra. }
  apply Rmult_lt_0_compat; [|lra].
  apply Rmult_lt_0_compat; [|exact H2].
  apply Rmult_lt_0_compat; assumption.
Qed.

Lemma emission_spectrum_henriques_pos (D : R) (act : string) :
  0 < D -> 0 < emission_spectrum_henriques D act.
Proof.
  intros HD. unfold emission_spectrum_henriques, fold_left. cbv beta zeta.
  assert (HB := mode_term_pos D (famp act B) B HD).
  rewrite famp_B in *. specialize (HB ltac:(lra)).
  destruct (Rgt_dec 1 0); [|lra].
  assert (HL := mode_term_pos D (famp act L) L HD).
  assert (HO := mode_term_pos D (famp act O) O HD).
  destruct (Rgt_dec (famp act L) 0) as [HLp|_];
    destruct (Rgt_dec (famp act O) 0) as [HOp|_];
    try specialize (HL HLp); try specialize (HO HOp); lra.
Qed.

Lemma deposition_fraction_pos (D e : R) : 0 < deposition_fraction D e.
Proof.
  unfold deposition_fraction.
  assert (Hp := Rpower_pos (D * e) 2.8).
  assert (H1 := exp_pos (4.77 + 1.485 * ln (D * e))).
  assert (H2 := exp_pos (0.508 - 2.58 * ln (D * e))).
  set (P := Rpower (D * e) 2.8) in *.
  set (E1 := exp (4.77 + 1.485 * ln (D * e))) in *.
  set (E2 := exp (0.508 - 2.58 * ln (D * e))) in *.
  assert (Hi : 0 < 1 / (1 + 0.00076 * P) <= 1).
  { split.
    - apply Rdiv_lt_0_compat; lra.
    - apply Rmult_le_reg_r with (1 + 0.00076 * P); [lra|].
      unfold Rdiv. rewrite Rmult_assoc, Rinv_l by lra. lra. }
  assert (Ha : 0 < 0.911 / (1 + E1)) by (apply Rdiv_lt_0_compat; lra).
  assert (Hb : 0 < 0.943 / (1 + E2)) by (apply Rdiv_lt_0_compat; lra).
  apply Rmult_lt_0_compat; lra.
Qed.

Lemma sedimentation_rate_nonneg (D e : R) : 0 <= sedimentation_rate D e.
Proof.
  unfold sedimentation_rate.
  assert (H := pow2_ge_0 (D * e / 2.5)).
  unfold Rdiv at 1. apply Rmult_le_pos; [|lra].
  apply Rmult_le_pos; [|lra]. apply Rmult_le_pos; [lra|exact H].
Qed.

Lemma ln2_pos : 0 < ln 2.
Proof. rewrite <- ln_1. apply ln_increasing; lra. Qed.

Lemma viral_inactivation_rate_long_pos (D T RH : R) :
  0 < viral_inactivation_rate_long D T RH.
Proof.
  unfold viral_inactivation_rate_long. cbv zeta.
  assert (H2 := ln2_pos).
  match goal with
  | |- 0 < ln 2 / ?hl => assert (Hhl : 0 < hl)
  end.
  { destruct (Req_dec_T _ 0); [lra|].
    destruct (Rle_dec _ 0); [lra|].
    unfold Rmin. destruct (Rle_dec 6.43 _); lra. }
  now apply Rdiv_lt_0_compat.
Qed.

Lemma clip_between (a low high : R) :
  low <= high -> low <= np.clip a low high <= high.
Proof.
  intros H. unfold np.clip, Rmin, Rmax.
  destruct (Rle_dec a low); destruct (Rle_dec high _); lra.
Qed.

Lemma get_immune_emission_multiplier_pos status :
  0 < get_immune_emission_multiplier status.
Proof.
  unfold get_immune_emission_multiplier.
  repeat match goal with
         | |- context [if ?b then _ else _] => destruct b
         end; lra.
Qed.

Lemma short_range_viability_decay_between (x u RH : R) :
  0 <= x -> 0 < u -> 0 <= short_range_viability_decay x u RH <= 1.
Proof.
  intros Hx Hu. unfold short_range_viability_decay.
  destruct (Rle_dec RH 0.40); [|lra].
  assert (Ht : 0 <= x / u).
  { unfold Rdiv. apply Rmult_le_pos; [exact Hx|].
    left. now apply Rinv_0_lt_compat. }
  unfold Rmax. destruct (Rle_dec 0 (1 - 0.016 * (x / u))); lra.
Qed.

Lemma x0_j_value BR :
  x0_j (calculate_henriques_jet_parameters BR) = D_mouth / (2 * beta_r_j).
Proof. reflexivity. Qed.

(** The air a person breathes out is never concentrated on its way:
    the dilution factor is at least 1. *)
Lemma dilution_ge_1 (x BR : R) :
  0 <= x -> 1 <= dilution x (calculate_henriques_jet_parameters BR).
Proof.
  intros Hx.
  assert (Ha := jet_reach_pos BR). assert (H0 := x0_j_value BR).
  set (jp := calculate_henriques_jet_parameters BR) in *.
  unfold dilution, Sx_jet_like, Sx_puff_like. cbv zeta.
  unfold D_mouth, beta_r_j, beta_r_p in *.
  set (xt := x_transition jp) in *. set (x0 := x0_j jp) in *.
  assert (Hx0 : x0 = 1 / 18) by lra.
  destruct (Rlt_dec x xt) as [Hlt|Hge].
  - rewrite Hx0. lra.
  - set (a := xt + x0) in *.
    replace 0.20 with (1 / 5) by lra.
    replace 0.18 with (9 / 50) by lra.
    replace 0.02 with (1 / 50) by lra.
    set (g := 1 + 1 / 5 * (x - xt) / (9 / 50 * a)).
    assert (Hy : 0 <= x - xt) by lra.
    assert (Hq : 1 / 5 * (x - xt) / (9 / 50 * a) = (10 / 9) * ((x - xt) / a))
      by (field; lra).
    assert (Hr : 0 <= (x - xt) / a).
    { unfold Rdiv. apply Rmult_le_pos; [exact Hy|].
      left. now apply Rinv_0_lt_compat. }
    assert (Hg : 1 <= g) by (unfold g; rewrite Hq; lra).
    assert (Hwg : 1 <= 2 * (9 / 50) * a / (1 / 50) * g).
    { replace (2 * (9 / 50) * a / (1 / 50) * g) with (18 * a + 20 * (x - xt)).
      - unfold a. lra.
      - unfold g. field. lra. }
    replace (2 * (9 / 50) * a / (1 / 50) * g ^ 3)
      with ((2 * (9 / 50) * a / (1 / 50) * g) * (g * g)) by ring.
    assert (Hgg : 1 <= g * g) by nra.
    nra.
Qed.

(** The short-range concentration lies between the background and the
    emitted concentration, so it is not negative when they are not. *)
Lemma blend_nonneg (CLR C0 Sx lam : R) :
  0 <= CLR -> 0 <= C0 -> 1 <= Sx -> 0 <= lam <= 1 ->
  0 <= CLR + (1 / Sx) * lam * (C0 - CLR).
Proof.
  intros H1 H2 H3 H4.
  assert (Hi : 0 < 1 / Sx <= 1).
  { split.
    - apply Rdiv_lt_0_compat; lra.
    - apply Rmult_le_reg_r with Sx; [lra|].
      unfold Rdiv. rewrite Rmult_assoc, Rinv_l by lra. lra. }
  set (t := 1 / Sx * lam).
  assert (Ht : 0 <= t <= 1) by (unfold t; nra).
  replace (CLR + t * (C0 - CLR)) with ((1 - t) * CLR + t * C0) by ring.
  nra.
Qed.

Lemma blend_pos (CLR C0 Sx lam : R) :
  0 < CLR -> 0 < C0 -> 1 <= Sx -> 0 <= lam <= 1 ->
  0 < CLR + (1 / Sx) * lam * (C0 - CLR).
Proof.
  intros H1 H2 H3 H4.
  assert (Hi : 0 < 1 / Sx <= 1).
  { split.
    - apply Rdiv_lt_0_compat; lra.
    - apply Rmult_le_reg_r with Sx; [lra|].
      unfold Rdiv. rewrite Rmult_assoc, Rinv_l by lra. lra. }
  set (t := 1 / Sx * lam).
  assert (Ht : 0 <= t <= 1) by (unfold t; nra).
  replace (CLR + t * (C0 - CLR)) with ((1 - t) * CLR + t * C0) by ring.
  destruct (Rle_dec t (1 / 2)); nra.
Qed.

(** The inhalation filter of the user scales the dose of every bin. *)
Lemma dose_increment_scaled c v m o BR eta_in dt vlin finf oBR ef Sx lam Dv :
  dose_increment c v m o BR eta_in dt vlin finf oBR ef Sx lam Dv
  = (1 - eta_in) * dose_increment c v m o BR 0 dt vlin finf oBR ef Sx lam Dv.
Proof. unfold dose_increment. cbv zeta. ring. Qed.

Section Bin.

Variables (c : Call) (v : Fields R).
Variables (m o BR dt vlin finf oBR ef Sx lam Dv : R).

Hypothesis ACH_nonneg : 0 <= ACH_val v.
Hypothesis room_volume_pos : 0 < room_volume_val v.
Hypothesis m_pos : 0 < m.
Hypothesis o_pos : 0 < o.
Hypothesis BR_pos : 0 < BR.
Hypothesis vlin_pos : 0 < vlin.
Hypothesis finf_pos : 0 < finf.
Hypothesis oBR_pos : 0 < oBR.
Hypothesis Sx_ge_1 : 1 <= Sx.
Hypothesis lam_between : 0 <= lam <= 1.
Hypothesis Dv_pos : 0 < Dv.

Let C0 : R :=
  emission_spectrum_IRP_henriques Dv (a_others_vocal_activity c) vlin finf
  * o * m.

Lemma emitted_pos : 0 < C0.
Proof.
  unfold C0, emission_spectrum_IRP_henriques. cbv zeta.
  assert (H := emission_spectrum_henriques_pos Dv
                 (get_henriques_vocalization_activity
                    (a_others_vocal_activity c)) Dv_pos).
  repeat apply Rmult_lt_0_compat; assumption.
Qed.

Lemma removal_pos :
  0 < (ACH_val v + sedimentation_rate Dv 0.3
       + viral_inactivation_rate_long Dv (a_inside_temp c) (a_RH c))
      * room_volume_val v.
Proof.
  assert (H1 := sedimentation_rate_nonneg Dv 0.3).
  assert (H2 := viral_inactivation_rate_long_pos Dv (a_inside_temp c) (a_RH c)).
  apply Rmult_lt_0_compat; lra.
Qed.

Lemma bin_dose_nonneg :
  0 <= dt -> 0 <= ef ->
  0 <= dose_increment c v m o BR 0 dt vlin finf oBR ef Sx lam Dv.
Proof.
  intros Hdt Hef. unfold dose_increment. cbv zeta. fold C0.
  assert (HC := emitted_pos). assert (HR := removal_pos).
  assert (Hd := deposition_fraction_pos Dv 0.3).
  set (Cf := C0 * ef). assert (HCf : 0 <= Cf) by (unfold Cf; nra).
  set (den := (ACH_val v + sedimentation_rate Dv 0.3
               + viral_inactivation_rate_long Dv (a_inside_temp c) (a_RH c))
              * room_volume_val v) in *.
  assert (HCLR : 0 <= Cf * oBR / den).
  { unfold Rdiv. apply Rmult_le_pos; [nra|].
    left. now apply Rinv_0_lt_compat. }
  assert (HCSR :
    0 <= (if Rle_dec Dv Dmax_SR
          then (if Rle_dec Dv Dmax_LR then Cf * oBR / den else 0)
               + 1 / Sx * lam
                 * (Cf - (if Rle_dec Dv Dmax_LR then Cf * oBR / den else 0))
          else (if Rle_dec Dv Dmax_LR then Cf * oBR / den else 0))).
  { destruct (Rle_dec Dv Dmax_LR); destruct (Rle_dec Dv Dmax_SR);
      try apply blend_nonneg; auto; lra. }
  rewrite Rminus_0_r, Rmult_1_r.
  apply Rmult_le_pos; [|lra].
  apply Rmult_le_pos; [|exact Hdt].
  apply Rmult_le_pos; [exact HCSR|lra].
Qed.

Lemma bin_dose_pos :
  0 < dt -> 0 < ef -> Dv <= Dmax_LR ->
  0 < dose_increment c v m o BR 0 dt vlin finf oBR ef Sx lam Dv.
Proof.
  intros Hdt Hef HD. unfold dose_increment. cbv zeta. fold C0.
  assert (HC := emitted_pos). assert (HR := removal_pos).
  assert (Hd := deposition_fraction_pos Dv 0.3).
  set (Cf := C0 * ef). assert (HCf : 0 < Cf) by (unfold Cf; nra).
  set (den := (ACH_val v + sedimentation_rate Dv 0.3
               + viral_inactivation_rate_long Dv (a_inside_temp c) (a_RH c))
              * room_volume_val v) in *.
  assert (HCLR : 0 < Cf * oBR / den).
  { apply Rdiv_lt_0_compat; [nra|exact HR]. }
  destruct (Rle_dec Dv Dmax_LR); [|lra].
  assert (HCSR :
    0 < (if Rle_dec Dv Dmax_SR
         then Cf * oBR / den + 1 / Sx * lam * (Cf - Cf * oBR / den)
         else Cf * oBR / den)).
  { destruct (Rle_dec Dv Dmax_SR); [apply blend_pos; auto|exact HCLR]. }
  rewrite Rminus_0_r, Rmult_1_r.
  apply Rmult_lt_0_compat; [|exact Hd].
  apply Rmult_lt_0_compat; [|exact Hdt].
  apply Rmult_lt_0_compat; [exact HCSR|exact BR_pos].
Qed.

End Bin.

(** ** The values of the samplers *)

Lemma uniform_between low high w s :
  draws_ok w -> low <= high ->
  low <= fst (random.uniform low high w s) <= high.
Proof.
  intros [Hu _] H. unfold random.uniform, bind, ret, random.random. simpl.
  specialize (Hu (uniform_used s)). nra.
Qed.

Lemma lognormal_pos mean sd w s : 0 < fst (random.lognormal mean sd w s).
Proof. unfold random.lognormal, bind, ret. simpl. apply exp_pos. Qed.

Lemma sample_breathing_rate_pos activity w s :
  0 < fst (sample_breathing_rate activity w s).
Proof.
  unfold sample_breathing_rate. cbv zeta.
  repeat match goal with
         | |- context [if ?b then _ else _] => destruct b
         end; apply lognormal_pos.
Qed.

Lemma sample_omicron_between w s :
  1.5 <= fst (sample_omicron_transmissibility_bayesian w s) <= 8.0.
Proof.
  unfold sample_omicron_transmissibility_bayesian, bind, ret. cbv zeta. simpl.
  apply clip_between. lra.
Qed.

(** ** The dose of a simulation *)

Lemma grid_fold (f : R -> R) (l : list (R * R)) (a : R) :
  fold_left (fun acc '(Dv, width) => acc + f Dv * width) l a
  = a + np.sum (map (fun p => f (fst p) * snd p) l).
Proof.
  revert a. induction l as [|[Dv wd] t IH]; intros a.
  - unfold np.sum. simpl. ring.
  - simpl fold_left. rewrite IH. rewrite map_cons.
    change (np.sum (?x :: ?y)) with (x + np.sum y). simpl. ring.
Qed.

Lemma sum_scaled (k : R) (g : R * R -> R) (l : list (R * R)) :
  np.sum (map (fun p => k * g p) l) = k * np.sum (map g l).
Proof.
  induction l as [|p t IH].
  - unfold np.sum. simpl. ring.
  - rewrite !map_cons.
    change (np.sum (?x :: ?y)) with (x + np.sum y). rewrite IH. ring.
Qed.

Lemma sum_map_nonneg (g : R * R -> R) (l : list (R * R)) :
  (forall p, In p l -> 0 <= g p) -> 0 <= np.sum (map g l).
Proof.
  induction l as [|p t IH]; intros H.
  - unfold np.sum. simpl. lra.
  - rewrite map_cons. change (np.sum (?x :: ?y)) with (x + np.sum y).
    assert (H1 := H p (or_introl eq_refl)).
    assert (H2 : 0 <= np.sum (map g t)) by (apply IH; intros q Hq; apply H; now right).
    lra.
Qed.

Lemma sum_map_pos (g : R * R -> R) (p : R * R) (t : list (R * R)) :
  0 < g p -> (forall q, In q t -> 0 <= g q) -> 0 < np.sum (map g (p :: t)).
Proof.
  intros Hp Ht. rewrite map_cons.
  change (np.sum (?x :: ?y)) with (x + np.sum y).
  assert (H := sum_map_nonneg g t Ht). lra.
Qed.

Lemma combine_map_seq (f g : nat -> R) (l : list nat) :
  combine (map f l) (map g l) = map (fun i => (f i, g i)) l.
Proof. induction l as [|i t IH]; simpl; [reflexivity|now rewrite IH]. Qed.

Lemma grid_bins :
  combine Ds dDs = map (fun i => (Ds_at i, width_at Ds_at 50 i)) (seq 0 50).
Proof. rewrite Ds_map, dDs_map. apply combine_map_seq. Qed.

Lemma grid_bin_pos (p : R * R) :
  In p (combine Ds dDs) -> 0 < fst p /\ 0 < snd p.
Proof.
  rewrite grid_bins. intros H. apply in_map_iff in H as (i & <- & Hi).
  apply in_seq in Hi. simpl. split.
  - apply Ds_at_pos.
  - apply widths_positive; [exact Ds_at_increasing|lia|lia].
Qed.

Lemma grid_first_bin :
  exists rest,
    combine Ds dDs = (Ds_at 0, width_at Ds_at 50 0) :: rest
    /\ Ds_at 0 <= Dmax_LR
    /\ (forall p, In p rest -> 0 < fst p /\ 0 < snd p).
Proof.
  exists (map (fun i => (Ds_at i, width_at Ds_at 50 i)) (seq 1 49)).
  split; [rewrite grid_bins; reflexivity|]. split.
  - rewrite <- (Ds_nth 0) by lia. rewrite Ds_first. unfold Dmax_LR. lra.
  - intros p Hp. apply grid_bin_pos. rewrite grid_bins.
    change (seq 0 50) with (0%nat :: seq 1 49). rewrite map_cons. now right.
Qed.

Section Dose.

Variables (c : Call) (v : Fields R) (w : draws).
Variables (m o BR eta_in x_eff dt_h : R).

Hypothesis w_ok : draws_ok w.
Hypothesis ACH_nonneg : 0 <= ACH_val v.
Hypothesis room_volume_pos : 0 < room_volume_val v.
Hypothesis f_e_nonneg : 0 <= f_e_val v.
Hypothesis m_pos : 0 < m.
Hypothesis o_pos : 0 < o.
Hypothesis BR_pos : 0 < BR.
Hypothesis x_nonneg : 0 <= x_eff.
Hypothesis dt_nonneg : 0 <= dt_h.

(** The dose from an infectious person is the share [1 - eta_in] that
    passes the filter of the user, times an amount that is not negative,
    and that is positive when time passes and the person emits. *)
Lemma infectious_person_dose_factor (s : rng_state) :
  exists K,
    fst (infectious_person_dose c v m o BR eta_in x_eff dt_h w s)
    = (1 - eta_in) * K
    /\ 0 <= K
    /\ (0 < dt_h -> 0 < f_e_val v -> 0 < K).
Proof.
  unfold infectious_person_dose, bind, ret. cbv zeta. cbn [fst snd].
  match goal with
  | |- context [dose_increment c v m o BR eta_in dt_h ?vl ?fi ?ob ?ef ?Sx ?lam] =>
      set (vlin := vl); set (finf := fi); set (oBR := ob);
      set (filter := ef); set (Sx_sim := Sx); set (lambda_SR := lam)
  end.
  assert (Hvl : 0 < vlin) by apply Rpower_pos.
  assert (Hfi : 0 < finf).
  { unfold finf.
    match goal with
    | |- 0 < fst (random.uniform ?a ?b w ?s0) =>
        assert (H := uniform_between a b w s0 w_ok ltac:(lra))
    end.
    lra. }
  assert (Hob : 0 < oBR) by apply sample_breathing_rate_pos.
  assert (Hef : 0 <= filter /\ (0 < f_e_val v -> 0 < filter)).
  { unfold filter. destruct (Rlt_dec _ _); split; intros; lra. }
  assert (HSx : 1 <= Sx_sim) by (apply dilution_ge_1; exact x_nonneg).
  assert (Hlam : 0 <= lambda_SR <= 1).
  { apply short_range_viability_decay_between; [exact x_nonneg|].
    apply jet_flow_pos. exact Hob. }
  rewrite grid_fold, Rplus_0_l.
  rewrite (map_ext _
             (fun p => (1 - eta_in)
                       * (dose_increment c v m o BR 0 dt_h vlin finf oBR
                            filter Sx_sim lambda_SR (fst p) * snd p))).
  2:{ intros p. rewrite dose_increment_scaled.
      unfold Sx_sim, lambda_SR, oBR. ring. }
  rewrite sum_scaled.
  eexists. split; [reflexivity|]. split.
  - apply sum_map_nonneg. intros p Hp.
    destruct (grid_bin_pos p Hp) as [HD Hw].
    apply Rmult_le_pos; [|lra].
    apply bin_dose_nonneg; auto; tauto.
  - intros Hdt Hfe.
    destruct grid_first_bin as (rest & -> & HLR & Hrest).
    apply sum_map_pos.
    + simpl fst. simpl snd. apply Rmult_lt_0_compat.
      * apply bin_dose_pos; auto; try tauto. apply Ds_at_pos.
      * apply widths_positive; [exact Ds_at_increasing|lia|lia].
    + intros p Hp. destruct (Hrest p Hp) as [HD Hw].
      apply Rmult_le_pos; [|lra].
      apply bin_dose_nonneg; auto; tauto.
Qed.

(** The dose from all the people: the running total plus the share that
    passes the filter times an amount that is not negative, and that is
    positive when somebody is present, everybody is infectious, time
    passes and the people emit. *)
Lemma people_dose_factor (n : nat) (total : R) (s : rng_state) :
  exists K,
    fst (people_dose c v m o BR eta_in x_eff dt_h n total w s)
    = total + (1 - eta_in) * K
    /\ 0 <= K
    /\ (1 <= covid_prevalence_val v -> 0 < dt_h -> 0 < f_e_val v ->
        (0 < n)%nat -> 0 < K).
Proof.
  revert total s. induction n as [|n IH]; intros total s.
  - exists 0. simpl. split; [ring|]. split; [lra|]. intros _ _ _ H. lia.
  - cbn [people_dose]. unfold bind at 1.
    destruct (Rlt_dec _ _) as [Hinf|Hnot].
    + unfold bind at 1.
      destruct (infectious_person_dose_factor (snd (random.random w s)))
        as (K1 & E1 & H1 & H1').
      rewrite E1.
      match goal with
      | |- context [people_dose c v m o BR eta_in x_eff dt_h n ?t w ?s'] =>
          destruct (IH t s') as (K2 & E2 & H2 & _)
      end.
      rewrite E2. exists (K1 + K2). split; [ring|]. split; [lra|].
      intros _ Hdt Hfe _. specialize (H1' Hdt Hfe). lra.
    + destruct (IH total (snd (random.random w s))) as (K & E & H & _).
      exists K. split; [exact E|]. split; [exact H|].
      intros Hprev _ _ _. exfalso. apply Hnot.
      destruct w_ok as [Hu _].
      unfold random.random. simpl. specialize (Hu (uniform_used s)). lra.
Qed.

End Dose.

(** ** The risk of a simulation *)

Lemma ID63_pf_pos (PF u : R) :
  0 <= u -> 0 < PF -> 0 < oneoverln2 * (10 + (100 - 10) * u) * PF.
Proof.
  intros Hu HPF. unfold oneoverln2. assert (H2 := ln2_pos).
  assert (Hi : 0 < 1 / ln 2) by (apply Rdiv_lt_0_compat; lra).
  apply Rmult_lt_0_compat; [|exact HPF].
  apply Rmult_lt_0_compat; [exact Hi|nra].
Qed.

Lemma protection_factor_pos (immune : R) (w : draws) (s : rng_state) :
  0 < fst ((if Rle_dec immune 0 then ret PF_MAX
            else
              PF <- random.lognormal (ln (1 / immune)) 0.2 ;;
              ret (if Rgt_dec PF PF_MAX then PF_MAX else PF)) w s).
Proof.
  destruct (Rle_dec immune 0).
  - simpl. unfold PF_MAX. lra.
  - unfold bind, ret. cbn [fst snd].
    destruct (Rgt_dec _ PF_MAX); [unfold PF_MAX; lra|apply lognormal_pos].
Qed.

Section Simulation.

Variables (c : Call) (v : Fields R) (w : draws) (m : R).

Hypothesis w_ok : draws_ok w.
Hypothesis ACH_nonneg : 0 <= ACH_val v.
Hypothesis room_volume_pos : 0 < room_volume_val v.
Hypothesis delta_t_nonneg : 0 <= delta_t_val v.
Hypothesis x_nonneg : 0 <= x_val v.
Hypothesis f_e_nonneg : 0 <= f_e_val v.
Hypothesis m_pos : 0 < m.

(** The risk of a simulation is [1 - exp (- dose / threshold)], where
    the dose is the inhalation multiplier times an amount that is not
    negative, and the threshold is positive. *)
Lemma simulation_risk_form (s : rng_state) :
  exists K P,
    fst (simulation c v m w s) = 1 - exp (- (f_i_val v * K) / P)
    /\ 0 <= K /\ 0 < P
    /\ (1 <= covid_prevalence_val v -> 0 < delta_t_val v ->
        0 < f_e_val v -> (1 <= N_val v)%Z -> 0 < K).
Proof.
  unfold simulation. unfold bind at 1 2 3 4.
  set (s1 := snd (sample_omicron_transmissibility_bayesian w s)).
  set (o := fst (sample_omicron_transmissibility_bayesian w s)).
  set (s2 := snd (random.uniform 10 100 w s1)).
  set (BR := fst (sample_breathing_rate (a_user_physical_activity c) w s2)).
  set (s3 := snd (sample_breathing_rate (a_user_physical_activity c) w s2)).
  assert (Ho : 0 < o).
  { assert (H := sample_omicron_between w s). fold o in H. lra. }
  assert (HBR : 0 < BR) by apply sample_breathing_rate_pos.
  assert (Hdt : 0 <= delta_t_val v / 3600) by lra.
  destruct (people_dose_factor c v w m o BR (1 - f_i_val v) (x_val v)
              (delta_t_val v / 3600) w_ok ACH_nonneg room_volume_pos
              f_e_nonneg m_pos Ho HBR x_nonneg Hdt (Z.to_nat (N_val v)) 0 s3)
    as (K & E & HK & HK').
  unfold bind, ret. cbn [fst snd]. rewrite E.
  eexists K, _. split.
  - replace (0 + (1 - (1 - f_i_val v)) * K) with (f_i_val v * K) by ring.
    reflexivity.
  - split; [exact HK|]. split.
    + apply ID63_pf_pos.
      * destruct w_ok as [Hu _]. apply Hu.
      * apply protection_factor_pos.
    + intros Hp Hd Hf HN. apply HK'; auto; [lra|lia].
Qed.

Lemma simulation_risk_between (s : rng_state) :
  0 <= f_i_val v -> 0 <= fst (simulation c v m w s) <= 1.
Proof.
  intros Hfi. destruct (simulation_risk_form s) as (K & P & -> & HK & HP & _).
  assert (Ht : 0 <= f_i_val v * K / P).
  { unfold Rdiv. apply Rmult_le_pos; [nra|].
    left. now apply Rinv_0_lt_compat. }
  replace (- (f_i_val v * K) / P) with (- (f_i_val v * K / P))
    by (unfold Rdiv; ring).
  assert (He := exp_pos (- (f_i_val v * K / P))).
  assert (Hle : exp (- (f_i_val v * K / P)) <= 1).
  { rewrite <- exp_0. destruct Ht as [Ht|Ht].
    - left. apply exp_increasing. lra.
    - rewrite <- Ht. rewrite Ropp_0. lra. }
  lra.
Qed.

Lemma simulation_risk_negative (s : rng_state) :
  f_i_val v < 0 -> 1 <= covid_prevalence_val v -> 0 < delta_t_val v ->
  0 < f_e_val v -> (1 <= N_val v)%Z ->
  fst (simulation c v m w s) < 0.
Proof.
  intros Hfi Hp Hd Hf HN.
  destruct (simulation_risk_form s) as (K & P & -> & _ & HP & HK).
  specialize (HK Hp Hd Hf HN).
  assert (Ht : 0 < - (f_i_val v * K) / P).
  { apply Rdiv_lt_0_compat; [nra|exact HP]. }
  assert (He : 1 < exp (- (f_i_val v * K) / P)).
  { rewrite <- exp_0. now apply exp_increasing. }
  lra.
Qed.

End Simulation.

Lemma simulations_Forall (P : R -> Prop) c v m n w s :
  (forall s', P (fst (simulation c v m w s'))) ->
  Forall P (fst (simulations c v m n w s)).
Proof.
  intros H. revert s. induction n as [|n IH]; intros s.
  - constructor.
  - rewrite simulations_step. constructor; [apply H|apply IH].
Qed.

(** ** The reported risks *)

Lemma nonempty_of_length (a : list R) : (0 < length a)%nat -> a <> [].
Proof. destruct a; simpl; [lia|discriminate]. Qed.

Lemma all_risks_nonempty c v w s : fst (all_risks c v w s) <> [].
Proof.
  apply nonempty_of_length. unfold all_risks.
  rewrite simulations_length. apply n_sims_positive.
Qed.

(** What is under the keys of the reported risks when the risks of all
    simulations lie between two bounds. *)
Lemma reported_between (risks : list R) (d : dict) (low high : R) :
  risks <> [] ->
  Forall (fun r => low <= r <= high) risks ->
  has_statistics risks d ->
  forall key, In key risk_keys ->
    exists r, dict_get key d = Some (OFloat r) /\ low <= r <= high.
Proof.
  intros Hne Hall (H1 & H2 & H3 & H4 & H5 & H6 & H7 & H8 & H9) key Hkey.
  assert (Hm := mean_between _ _ _ Hne Hall).
  assert (Hp : forall q, 0 <= q <= 100 ->
                 low <= np.percentile risks q <= high)
    by (intros q Hq; now apply percentile_between).
  unfold risk_keys in Hkey. simpl in Hkey.
  decompose [or] Hkey; clear Hkey; try contradiction; subst key;
    eexists; (split; [eassumption|]); try exact Hm; apply Hp; lra.
Qed.

(** In the exact arithmetic of the model, the promise of the engine's
    documentation holds on the calls whose conversions succeed with
    finite values, of which the air changes per hour, the exposure time,
    the distance and the two mask multipliers are not negative and the
    room volume is positive: for every realization of the random draws,
    the mean, the median and every percentile bound that the engine
    reports lie between 0 and 1. *)
Theorem reported_risks_in_unit_interval
  (c : Call) (w : draws) (s s' : rng_state) (v : Fields R) (d : dict) :
  draws_ok w ->
  any (fst (convert_inputs c)) = false ->
  finite_fields (snd (convert_inputs c)) = Some v ->
  0 <= ACH_val v -> 0 < room_volume_val v -> 0 <= delta_t_val v ->
  0 <= x_val v -> 0 <= f_e_val v -> 0 <= f_i_val v ->
  calculate_unified_transmission_exposure c w s = Some (d, s') ->
  forall key, In key risk_keys ->
    exists r, dict_get key d = Some (OFloat r) /\ 0 <= r <= 1.
Proof.
  intros Hw Hany Hfin HACH HV Hdt Hx Hfe Hfi Hrun.
  rewrite (engine_on_success _ _ _ _ Hany Hfin) in Hrun.
  injection Hrun as <- _.
  set (risks := fst (all_risks c (rescale v) w s)).
  destruct (summarize_entries risks (initial_result c (rescale v)))
    as (Hstat & _ & _).
  apply (reported_between risks); [apply all_risks_nonempty| |exact Hstat].
  unfold risks, all_risks. apply simulations_Forall. intros s0.
  apply simulation_risk_between; auto.
  apply get_immune_emission_multiplier_pos.
Qed.

Lemma default_fields_real :
  exists v,
    finite_fields (snd (convert_inputs default_call)) = Some v
    /\ ACH_val v = 1 /\ room_volume_val v = 1000 /\ delta_t_val v = 42
    /\ x_val v = 0.7 /\ f_e_val v = 1 /\ f_i_val v = 1.
Proof.
  rewrite convert_inputs_fields. eexists. split; [reflexivity|].
  cbn. unfold Q2R. cbn. repeat split; lra.
Qed.

Lemma constant_draws_ok : draws_ok constant_draws.
Proof. split; intros n; simpl; lra. Qed.

Lemma reported_risks_in_unit_interval_witness :
  exists d s',
    calculate_unified_transmission_exposure default_call constant_draws
      fresh_rng = Some (d, s')
    /\ forall key, In key risk_keys ->
         exists r, dict_get key d = Some (OFloat r) /\ 0 <= r <= 1.
Proof.
  assert (Hany : any (fst (convert_inputs default_call)) = false)
    by (vm_compute; reflexivity).
  destruct default_fields_real as (v & Hfin & H1 & H2 & H3 & H4 & H5 & H6).
  eexists; eexists. split.
  - apply (engine_on_success _ _ _ _ Hany Hfin).
  - eapply (reported_risks_in_unit_interval default_call constant_draws
              fresh_rng _ v _ constant_draws_ok Hany Hfin);
      try lra.
    apply (engine_on_success _ _ _ _ Hany Hfin).
Defined.

Lemma sum_negative (a : list R) :
  a <> [] -> Forall (fun r => r < 0) a -> np.sum a < 0.
Proof.
  intros Hne H. induction H as [|x t Hx Ht IH]; [congruence|].
  change (np.sum (x :: t)) with (x + np.sum t).
  destruct t as [|y t'].
  - unfold np.sum. simpl. lra.
  - assert (np.sum (y :: t') < 0) by (apply IH; discriminate). lra.
Qed.

Lemma mean_negative (a : list R) :
  a <> [] -> Forall (fun r => r < 0) a -> np.mean a < 0.
Proof.
  intros Hne H. unfold np.mean.
  assert (Hs := sum_negative a Hne H).
  assert (Hn : 0 < INR (length a)).
  { apply lt_0_INR. destruct a; simpl; [congruence|lia]. }
  assert (Hi : 0 < / INR (length a)) by now apply Rinv_0_lt_compat.
  unfold Rdiv. nra.
Qed.

Lemma negative_filter_fields :
  exists v,
    finite_fields (snd (convert_inputs negative_filter_call)) = Some v
    /\ ACH_val v = 1 /\ room_volume_val v = 1000 /\ delta_t_val v = 42
    /\ x_val v = 0.7 /\ f_e_val v = 1 /\ f_i_val v = -1
    /\ covid_prevalence_val v = 1 /\ N_val v = 1%Z.
Proof.
  rewrite convert_inputs_fields. eexists. split; [reflexivity|].
  cbn. unfold Q2R. cbn. repeat split; lra.
Qed.

Lemma out_of_range_Exists (a : list R) :
  Exists (fun x => x < 0 \/ 1 < x) a ->
  risk_distribution.any_out_of_range a = true.
Proof.
  unfold risk_distribution.any_out_of_range.
  induction 1 as [x t Hx|x t Ht IH]; simpl.
  - destruct (Rlt_dec x 0) as [|Hn]; [reflexivity|].
    destruct (Rgt_dec x 1) as [|Hn']; [|lra].
    simpl. apply orb_true_r.
  - apply orb_true_iff in IH as [IH|IH]; rewrite IH;
      rewrite ?orb_true_r; reflexivity.
Qed.

Lemma negative_risks_rejected (a : list R) :
  a <> [] -> Forall (fun r => r < 0) a ->
  risk_distribution.generate_risk_distribution_data a
  = inl (risk_distribution.ValueError "Risk values must be between 0 and 1").
Proof.
  intros Hne H. unfold risk_distribution.generate_risk_distribution_data.
  destruct a as [|x t]; [congruence|].
  change (length (x :: t) =? 0)%nat with false. cbv iota.
  rewrite out_of_range_Exists; [reflexivity|].
  constructor. left. now inversion H.
Qed.

(** C1.  The documentation of the engine promises a risk between 0 and
    1, and [generate_risk_distribution_data] checks that the simulated
    risks are; yet nothing checks the sign of a converted field.  With
    an inhalation multiplier of -1 and everybody infectious the call is
    accepted, every simulated risk is negative (for every realization of
    the draws; here the constant one), the check raises its
    [ValueError], the engine catches it, leaves [None] in the place of
    the distribution, and reports the negative mean risk. *)
Lemma negative_multiplier_gives_negative_risk :
  any (fst (convert_inputs negative_filter_call)) = false
  /\ draws_ok constant_draws
  /\ exists v d s' r,
      finite_fields (snd (convert_inputs negative_filter_call)) = Some v
      /\ calculate_unified_transmission_exposure negative_filter_call
           constant_draws fresh_rng = Some (d, s')
      /\ dict_get "error" d = None
      /\ dict_get "risk" d = Some (OFloat r)
      /\ r < 0
      /\ risk_distribution.generate_risk_distribution_data
           (fst (all_risks negative_filter_call (rescale v) constant_draws
                   fresh_rng))
         = inl (risk_distribution.ValueError
                  "Risk values must be between 0 and 1")
      /\ dict_get "risk_distribution_data" d = Some ONone.
Proof.
  assert (Hany : any (fst (convert_inputs negative_filter_call)) = false)
    by (vm_compute; reflexivity).
  split; [exact Hany|]. split; [exact constant_draws_ok|].
  destruct negative_filter_fields
    as (v & Hfin & H1 & H2 & H3 & H4 & H5 & H6 & H7 & H8).
  set (risks := fst (all_risks negative_filter_call (rescale v)
                       constant_draws fresh_rng)).
  destruct (summarize_entries risks
              (initial_result negative_filter_call (rescale v)))
    as ((Hrisk & _) & Hdist & Herr).
  assert (Hneg : Forall (fun r => r < 0) risks).
  { unfold risks, all_risks. apply simulations_Forall. intros s0.
    apply simulation_risk_negative; simpl;
      try apply constant_draws_ok;
      try apply get_immune_emission_multiplier_pos; try lra; lia. }
  assert (Hne : risks <> []) by apply all_risks_nonempty.
  assert (Hraise := negative_risks_rejected risks Hne Hneg).
  exists v. eexists; eexists; exists (np.mean risks).
  split; [exact Hfin|].
  split; [apply (engine_on_success _ _ _ _ Hany Hfin)|].
  split; [etransitivity; [exact Herr|apply initial_result_no_error]|].
  split; [exact Hrisk|].
  split; [now apply mean_negative|].
  split; [exact Hraise|].
  etransitivity; [exact Hdist|].
  unfold distribution_entry. now rewrite Hraise.
Qed.

(* ================================================================== *)
(** * Further properties of the code *)
(* ================================================================== *)

(** ** The jet of a person and the dilution along it *)

Lemma exp_pow4 (a : R) : exp a ^ 4 = exp (4 * a).
Proof.
  simpl. rewrite Rmult_1_r, <- !exp_plus. f_equal. ring.
Qed.

Lemma Rpower_quarter_pow4 (x : R) : 0 < x -> Rpower x 0.25 ^ 4 = x.
Proof.
  intros H. unfold Rpower. rewrite exp_pow4.
  replace (4 * (0.25 * ln x)) with (ln x) by lra. now apply exp_ln.
Qed.

Lemma Rpower_half_pow4 (x : R) : 0 < x -> Rpower x 0.5 ^ 4 = x ^ 2.
Proof.
  intros H. unfold Rpower. rewrite exp_pow4.
  replace (4 * (0.5 * ln x)) with (ln x + ln x) by lra.
  rewrite exp_plus, exp_ln by exact H. ring.
Qed.

Lemma pow4_inj (a b : R) : 0 < a -> 0 < b -> a ^ 4 = b ^ 4 -> a = b.
Proof.
  intros Ha Hb H.
  assert (E : (a - b) * ((a + b) * (a * a + b * b)) = 0).
  { replace ((a - b) * ((a + b) * (a * a + b * b))) with (a ^ 4 - b ^ 4)
      by ring.
    lra. }
  apply Rmult_integral in E as [E|E]; [lra|].
  assert (0 < (a + b) * (a * a + b * b)) by (apply Rmult_lt_0_compat; nra).
  lra.
Qed.

Lemma jet_time_pos (D br bx Q : R) :
  0 < D -> 0 < br -> 0 < bx -> 0 < Q ->
  0 < sqrt PI * D ^ 3 / (8 * br ^ 2 * bx ^ 2 * Q).
Proof.
  intros HD Hbr Hbx HQ.
  assert (HPI := PI_RGT_0).
  assert (Hs : 0 < sqrt PI) by now apply sqrt_lt_R0.
  assert (0 < D ^ 3) by now apply pow_lt.
  assert (0 < br ^ 2) by now apply pow_lt.
  assert (0 < bx ^ 2) by now apply pow_lt.
  apply Rdiv_lt_0_compat.
  - now apply Rmult_lt_0_compat.
  - apply Rmult_lt_0_compat; [|exact HQ].
    apply Rmult_lt_0_compat; [|assumption].
    apply Rmult_lt_0_compat; [lra|assumption].
Qed.

(** Without the time [t_star] the distance of the transition would be
    the virtual origin [D / (2 * br)] of the jet. *)
Lemma transition_identity (D br bx Q : R) :
  0 < D -> 0 < br -> 0 < bx -> 0 < Q ->
  bx * Rpower (Q * (Q / (PI * (D / 2) ^ 2))) 0.25
     * Rpower (sqrt PI * D ^ 3 / (8 * br ^ 2 * bx ^ 2 * Q)) 0.5
  = D / (2 * br).
Proof.
  intros HD Hbr Hbx HQ.
  assert (HPI := PI_RGT_0).
  assert (Hs : 0 < sqrt PI) by now apply sqrt_lt_R0.
  assert (Hss : sqrt PI * sqrt PI = PI) by (apply sqrt_sqrt; lra).
  set (X := Q * (Q / (PI * (D / 2) ^ 2))).
  set (T := sqrt PI * D ^ 3 / (8 * br ^ 2 * bx ^ 2 * Q)).
  assert (HX : 0 < X).
  { unfold X. apply Rmult_lt_0_compat; [exact HQ|].
    apply Rdiv_lt_0_compat; [exact HQ|].
    apply Rmult_lt_0_compat; [exact HPI|]. apply pow_lt. lra. }
  assert (HT : 0 < T) by now apply jet_time_pos.
  assert (HXT : X * T ^ 2 = (D / (2 * br * bx)) ^ 4).
  { unfold X, T.
    replace ((sqrt PI * D ^ 3 / (8 * br ^ 2 * bx ^ 2 * Q)) ^ 2)
      with ((sqrt PI * sqrt PI) * (D ^ 3 / (8 * br ^ 2 * bx ^ 2 * Q)) ^ 2)
      by (field; lra).
    rewrite Hss. field. repeat split; lra. }
  set (P := Rpower X 0.25 * Rpower T 0.5).
  assert (HP : 0 < P) by (apply Rmult_lt_0_compat; apply Rpower_pos).
  assert (Hz : 0 < D / (2 * br * bx)).
  { apply Rdiv_lt_0_compat; [exact HD|].
    repeat apply Rmult_lt_0_compat; lra. }
  assert (HP4 : P ^ 4 = (D / (2 * br * bx)) ^ 4).
  { unfold P. rewrite Rpow_mult_distr, Rpower_quarter_pow4, Rpower_half_pow4
      by assumption. exact HXT. }
  apply pow4_inj in HP4; [|exact HP|exact Hz].
  replace (bx * Rpower X 0.25 * Rpower T 0.5) with (bx * P)
    by (unfold P; ring).
  rewrite HP4. field. lra.
Qed.

Lemma x_transition_pos (BR : R) :
  0 < BR -> 0 < x_transition (calculate_henriques_jet_parameters BR).
Proof.
  intros HBR.
  unfold calculate_henriques_jet_parameters, x_transition; cbv zeta.
  set (Q := 2 * (BR / 3600)).
  assert (HQ : 0 < Q) by (unfold Q; lra).
  assert (HD : 0 < D_mouth) by (unfold D_mouth; lra).
  assert (Hbr : 0 < beta_r_j) by (unfold beta_r_j; lra).
  assert (Hbx : 0 < beta_x_j) by (unfold beta_x_j; lra).
  assert (Hid := transition_identity D_mouth beta_r_j beta_x_j Q HD Hbr Hbx HQ).
  set (X := Q * (Q / (PI * (D_mouth / 2) ^ 2))) in *.
  set (T := sqrt PI * D_mouth ^ 3 / (8 * beta_r_j ^ 2 * beta_x_j ^ 2 * Q)) in *.
  assert (HT : 0 < T) by now apply jet_time_pos.
  assert (Hlt : Rpower T 0.5 < Rpower (4 / 2 + T) 0.5).
  { apply Rlt_Rpower_l; lra. }
  assert (HX : 0 < Rpower X 0.25) by apply Rpower_pos.
  assert (Hk : 0 < beta_x_j * Rpower X 0.25) by now apply Rmult_lt_0_compat.
  assert (beta_x_j * Rpower X 0.25 * Rpower T 0.5
          < beta_x_j * Rpower X 0.25 * Rpower (4 / 2 + T) 0.5)
    by now apply Rmult_lt_compat_l.
  lra.
Qed.

(** X1.  For every positive breathing rate the transition from the jet
    to the puff lies in front of the mouth (its distance is positive),
    so that the mouth itself is in the jet-like stage, where the
    dilution factor is exactly 1. *)
Theorem mouth_is_undiluted (BR : R) :
  0 < BR ->
  let jp := calculate_henriques_jet_parameters BR in
  0 < x_transition jp
  /\ dilution 0 jp = Sx_jet_like 0 jp
  /\ dilution 0 jp = 1.
Proof.
  intros HBR jp.
  assert (Hx : 0 < x_transition jp) by now apply x_transition_pos.
  assert (Hd : dilution 0 jp = Sx_jet_like 0 jp).
  { unfold dilution. destruct (Rlt_dec 0 (x_transition jp)); [reflexivity|lra]. }
  split; [exact Hx|]. split; [exact Hd|].
  rewrite Hd. unfold Sx_jet_like. cbv zeta.
  unfold jp. rewrite x0_j_value. unfold D_mouth, beta_r_j.
  replace 0.18 with (9 / 50) by lra. replace 0.02 with (1 / 50) by lra.
  field.
Qed.

Lemma mouth_is_undiluted_witness :
  let jp := calculate_henriques_jet_parameters 0.57 in
  0 < x_transition jp
  /\ dilution 0 jp = Sx_jet_like 0 jp
  /\ dilution 0 jp = 1.
Proof. apply (mouth_is_undiluted 0.57). lra. Defined.

Lemma pow3_monotone (a b : R) : 0 <= a <= b -> a ^ 3 <= b ^ 3.
Proof.
  intros H. apply pow_incr. exact H.
Qed.

(** X2.  The dilution factor never decreases with the distance, across
    the two stages: farther from an infectious person the exhaled air is
    at least as diluted. *)
Theorem dilution_monotone (BR x y : R) :
  0 < BR -> x <= y ->
  dilution x (calculate_henriques_jet_parameters BR)
  <= dilution y (calculate_henriques_jet_parameters BR).
Proof.
  intros HBR Hxy.
  assert (Ha := jet_reach_pos BR). assert (H0 := x0_j_value BR).
  set (jp := calculate_henriques_jet_parameters BR) in *.
  unfold dilution, Sx_jet_like, Sx_puff_like. cbv zeta.
  unfold D_mouth, beta_r_j, beta_r_p in *.
  set (xt := x_transition jp) in *. set (x0 := x0_j jp) in *.
  set (a := xt + x0) in *.
  replace 0.20 with (1 / 5) by lra.
  replace 0.18 with (9 / 50) by lra.
  replace 0.02 with (1 / 50) by lra.
  assert (Hg : forall z, xt <= z ->
            1 + 1 / 5 * (z - xt) / (9 / 50 * a) = 1 + (10 / 9) * ((z - xt) / a))
    by (intros z _; field; lra).
  assert (Hr : forall z z', z <= z' -> (z - xt) / a <= (z' - xt) / a).
  { intros z z' Hz. unfold Rdiv. apply Rmult_le_compat_r; [|lra].
    left. now apply Rinv_0_lt_compat. }
  assert (Hr0 : (xt - xt) / a = 0) by (unfold Rdiv; ring).
  assert (Hc : 0 < 2 * (9 / 50) * a / (1 / 50)) by lra.
  destruct (Rlt_dec x xt) as [Hx|Hx]; destruct (Rlt_dec y xt) as [Hy|Hy].
  - lra.
  - assert (Hy' : xt <= y) by lra.
    rewrite (Hg y Hy').
    assert (H1 := Hr xt y Hy'). rewrite Hr0 in H1.
    set (g := 1 + 10 / 9 * ((y - xt) / a)) in *.
    assert (Hg1 : 1 <= g) by (unfold g; lra).
    assert (Hg3 : 1 ^ 3 <= g ^ 3) by (apply pow3_monotone; lra).
    rewrite pow1 in Hg3.
    assert (2 * (9 / 50) * (x + x0) / (1 / 50) <= 2 * (9 / 50) * a / (1 / 50))
      by (unfold a; lra).
    assert (2 * (9 / 50) * a / (1 / 50) * 1
            <= 2 * (9 / 50) * a / (1 / 50) * g ^ 3)
      by (apply Rmult_le_compat_l; lra).
    lra.
  - lra.
  - assert (Hx' : xt <= x) by lra. assert (Hy' : xt <= y) by lra.
    rewrite (Hg x Hx'), (Hg y Hy').
    assert (H1 := Hr xt x Hx'). rewrite Hr0 in H1.
    assert (H2 := Hr x y Hxy).
    apply Rmult_le_compat_l; [lra|].
    apply pow3_monotone. lra.
Qed.

Lemma dilution_monotone_witness :
  dilution 0.5 (calculate_henriques_jet_parameters 0.57)
  <= dilution 2 (calculate_henriques_jet_parameters 0.57).
Proof. apply (dilution_monotone 0.57 0.5 2); lra. Defined.

(** X3.  The initial velocity of the jet: [calculate_jet_velocity] fails
    exactly on a mouth of diameter zero, and on the flow of the jet
    parameters and the default mouth diameter it returns the velocity
    [u0] that the jet parameters carry. *)
Theorem jet_velocity_agrees (BR Q D : R) :
  (calculate_jet_velocity Q D = None <-> D = 0)
  /\ calculate_jet_velocity
       (Q_exh (calculate_henriques_jet_parameters BR)) D_mouth
     = Some (u0 (calculate_henriques_jet_parameters BR)).
Proof.
  assert (HPI := PI_RGT_0).
  assert (HA : forall d, PI * (d / 2) ^ 2 = 0 <-> d = 0).
  { intros d. split; intros H.
    - apply Rmult_integral in H as [H|H]; [lra|].
      simpl in H. rewrite Rmult_1_r in H.
      apply Rmult_integral in H. lra.
    - subst d. simpl. unfold Rdiv. ring. }
  split.
  - unfold calculate_jet_velocity. cbv zeta.
    destruct (Req_dec_T (PI * (D / 2) ^ 2) 0) as [E|E].
    + split; [intros _; exact (proj1 (HA D) E)|reflexivity].
    + split; [discriminate|]. intros H. exfalso. apply E. exact (proj2 (HA D) H).
  - unfold calculate_jet_velocity. cbv zeta.
    destruct (Req_dec_T (PI * (D_mouth / 2) ^ 2) 0) as [E|E].
    + apply (proj1 (HA D_mouth)) in E. unfold D_mouth in E. lra.
    + reflexivity.
Qed.

(** ** The emission spectrum *)

(** The spectrum as the sum of its three modes, with the amplitudes of
    the activity. *)
Lemma emission_spectrum_modes (D : R) :
  0 < D ->
  exists b l o,
    0 < b /\ 0 < l /\ 0 < o
    /\ forall code,
         emission_spectrum_henriques D code
         = b + famp code L * l + famp code O * o.
Proof.
  intros HD.
  exists ((1 * cn B / (sqrt (2 * PI) * sigma B) / D)
          * exp (- ((ln D - mu B) ^ 2) / (2 * sigma B ^ 2))
          * ((4 / 3) * PI * (D / 2) ^ 3) * 1e-6),
         ((1 * cn L / (sqrt (2 * PI) * sigma L) / D)
          * exp (- ((ln D - mu L) ^ 2) / (2 * sigma L ^ 2))
          * ((4 / 3) * PI * (D / 2) ^ 3) * 1e-6),
         ((1 * cn O / (sqrt (2 * PI) * sigma O) / D)
          * exp (- ((ln D - mu O) ^ 2) / (2 * sigma O ^ 2))
          * ((4 / 3) * PI * (D / 2) ^ 3) * 1e-6).
  split; [apply mode_term_pos; lra|].
  split; [apply mode_term_pos; lra|].
  split; [apply mode_term_pos; lra|].
  intros code.
  unfold emission_spectrum_henriques, fold_left. cbv beta zeta.
  rewrite famp_B.
  destruct (Rgt_dec 1 0); [|lra].
  assert (HL : famp code L = 0 \/ 0 < famp code L).
  { unfold famp. destruct (code =? "1")%string; [left; reflexivity|].
    destruct ((code =? "2") || (code =? "3"))%string; right; lra. }
  assert (HO : famp code O = 0 \/ 0 < famp code O).
  { unfold famp. destruct (code =? "1")%string; [left; reflexivity|].
    destruct ((code =? "2") || (code =? "3"))%string; right; lra. }
  destruct (Rgt_dec (famp code L) 0) as [HLp|HLn];
    destruct (Rgt_dec (famp code O) 0) as [HOp|HOn];
    destruct HL as [HL|HL]; destruct HO as [HO|HO]; try lra;
    try rewrite HL; try rewrite HO; unfold Rdiv; ring.
Qed.

(** X4.  At every particle size, and for a positive viral load and a
    positive infectious fraction, a person who only breathes emits less
    than one who speaks, who emits less than one who speaks loudly or
    shouts. *)
Theorem emission_ordered_by_vocalization (D viral_load f_inf : R) :
  0 < D -> 0 < viral_load -> 0 < f_inf ->
  0 < emission_spectrum_IRP_henriques D "breathing" viral_load f_inf
  /\ emission_spectrum_IRP_henriques D "breathing" viral_load f_inf
     < emission_spectrum_IRP_henriques D "speaking" viral_load f_inf
  /\ emission_spectrum_IRP_henriques D "speaking" viral_load f_inf
     < emission_spectrum_IRP_henriques D "shouting" viral_load f_inf
  /\ emission_spectrum_IRP_henriques D "loudly_speaking" viral_load f_inf
     = emission_spectrum_IRP_henriques D "shouting" viral_load f_inf.
Proof.
  intros HD Hv Hf.
  destruct (emission_spectrum_modes D HD) as (b & l & o & Hb & Hl & Ho & E).
  unfold emission_spectrum_IRP_henriques. cbv zeta.
  change (get_henriques_vocalization_activity "breathing") with "1".
  change (get_henriques_vocalization_activity "speaking") with "2".
  change (get_henriques_vocalization_activity "shouting") with "5".
  change (get_henriques_vocalization_activity "loudly_speaking") with "5".
  rewrite !E.
  change (famp "1" L) with 0. change (famp "1" O) with 0.
  change (famp "2" L) with 1. change (famp "2" O) with 1.
  change (famp "5" L) with 5. change (famp "5" O) with 5.
  assert (Hk : 0 < viral_load * f_inf) by now apply Rmult_lt_0_compat.
  set (k := viral_load * f_inf) in *.
  replace ((b + 0 * l + 0 * o) * viral_load * f_inf) with (b * k)
    by (unfold k; ring).
  replace ((b + 1 * l + 1 * o) * viral_load * f_inf) with ((b + l + o) * k)
    by (unfold k; ring).
  replace ((b + 5 * l + 5 * o) * viral_load * f_inf)
    with ((b + 5 * l + 5 * o) * k) by (unfold k; ring).
  assert (0 < b * k) by now apply Rmult_lt_0_compat.
  assert (0 < l * k) by now apply Rmult_lt_0_compat.
  assert (0 < o * k) by now apply Rmult_lt_0_compat.
  repeat split; lra.
Qed.

Lemma emission_ordered_by_vocalization_witness :
  0 < emission_spectrum_IRP_henriques 1 "breathing" 1 1
  /\ emission_spectrum_IRP_henriques 1 "breathing" 1 1
     < emission_spectrum_IRP_henriques 1 "speaking" 1 1
  /\ emission_spectrum_IRP_henriques 1 "speaking" 1 1
     < emission_spectrum_IRP_henriques 1 "shouting" 1 1
  /\ emission_spectrum_IRP_henriques 1 "loudly_speaking" 1 1
     = emission_spectrum_IRP_henriques 1 "shouting" 1 1.
Proof. apply (emission_ordered_by_vocalization 1 1 1); lra. Defined.

(** X5.  The legacy entry point, which takes the activity code instead
    of the vocalization: on the five codes of the activity map it gives
    the spectrum of the code itself, and on every other code the
    spectrum of speaking (code 2), the code the engine substitutes for
    an unknown one. *)
Theorem legacy_emission_by_code (D viral_load f_inf : R) (code : string) :
  emission_spectrum_IRP_henriques_legacy D code viral_load f_inf
  = emission_spectrum_henriques D
      (match activity_map code with Some _ => code | None => "2" end)
    * viral_load * f_inf.
Proof.
  unfold emission_spectrum_IRP_henriques_legacy, emission_spectrum_IRP_henriques,
    get_henriques_vocalization, activity_map.
  cbv zeta.
  destruct (code =? "1") eqn:E1; [apply String.eqb_eq in E1; subst; reflexivity|].
  destruct (code =? "2") eqn:E2; [apply String.eqb_eq in E2; subst; reflexivity|].
  destruct (code =? "3") eqn:E3; [apply String.eqb_eq in E3; subst; reflexivity|].
  destruct (code =? "4") eqn:E4; [apply String.eqb_eq in E4; subst; reflexivity|].
  destruct (code =? "5") eqn:E5; [apply String.eqb_eq in E5; subst; reflexivity|].
  reflexivity.
Qed.

(** ** Removal and inactivation *)

Lemma viral_inactivation_rate_long_max (D T RH : R) :
  viral_inactivation_rate_long D T RH
  = Rmax (ln 2 / 6.43)
      (0.16030 + 0.04018 * ((T - 273.15 - 20.615) / 10.585)
       + 0.02176 * ((RH * 100 - 45.235) / 28.665)
       - 0.14369 - 0.02636 * ((T - 273.15 - 20.615) / 10.585)).
Proof.
  unfold viral_inactivation_rate_long. cbv zeta.
  set (den := 0.16030 + 0.04018 * ((T - 273.15 - 20.615) / 10.585)
              + 0.02176 * ((RH * 100 - 45.235) / 28.665)
              - 0.14369 - 0.02636 * ((T - 273.15 - 20.615) / 10.585)).
  assert (H2 := ln2_pos).
  assert (Hcap : 0 < ln 2 / 6.43) by (apply Rdiv_lt_0_compat; lra).
  destruct (Req_dec_T den 0) as [E0|E0].
  - rewrite E0. unfold Rmax. destruct (Rle_dec (ln 2 / 6.43) 0); [lra|reflexivity].
  - destruct (Rle_dec (ln 2 / den) 0) as [Hle|Hgt].
    + assert (Hneg : den < 0).
      { destruct (Rlt_dec den 0) as [|Hn]; [assumption|].
        assert (0 < den) by lra.
        assert (0 < ln 2 / den) by (apply Rdiv_lt_0_compat; lra). lra. }
      unfold Rmax. destruct (Rle_dec (ln 2 / 6.43) den); [lra|reflexivity].
    + assert (Hpos : 0 < den).
      { destruct (Rlt_dec 0 den) as [|Hn]; [assumption|].
        assert (Hd : 0 < - den) by lra.
        assert (0 < ln 2 / - den) by (apply Rdiv_lt_0_compat; lra).
        assert (ln 2 / - den = - (ln 2 / den)) by (field; lra). lra. }
      assert (Hhl : 0 < ln 2 / den) by lra.
      assert (Hinv : den = ln 2 / (ln 2 / den)) by (field; lra).
      unfold Rmin. destruct (Rle_dec 6.43 (ln 2 / den)) as [Hc|Hc].
      * assert (den <= ln 2 / 6.43).
        { rewrite Hinv at 1. unfold Rdiv. apply Rmult_le_compat_l; [lra|].
          apply Rinv_le_contravar; lra. }
        unfold Rmax. destruct (Rle_dec (ln 2 / 6.43) den) as [Hm|Hm];
          [lra|reflexivity].
      * assert (ln 2 / 6.43 < den).
        { rewrite Hinv. unfold Rdiv. apply Rmult_lt_compat_l; [lra|].
          apply Rinv_lt_contravar; [|lra]. apply Rmult_lt_0_compat; lra. }
        rewrite <- Hinv.
        unfold Rmax. destruct (Rle_dec (ln 2 / 6.43) den); [reflexivity|lra].
Qed.

(** X6.  The inactivation rate of the virus in the room does not depend
    on the particle size; it is never below the rate [ln 2 / 6.43] of the
    capped half-life of 6.43 hours, whatever the temperature and the
    humidity; and warmer air, or more humid air, never lowers it. *)
Theorem inactivation_rate_capped (D D' T T' RH RH' : R) :
  viral_inactivation_rate_long D T RH = viral_inactivation_rate_long D' T RH
  /\ ln 2 / 6.43 <= viral_inactivation_rate_long D T RH
  /\ (T <= T' ->
      viral_inactivation_rate_long D T RH
      <= viral_inactivation_rate_long D T' RH)
  /\ (RH <= RH' ->
      viral_inactivation_rate_long D T RH
      <= viral_inactivation_rate_long D T RH').
Proof.
  rewrite !viral_inactivation_rate_long_max.
  split; [reflexivity|]. split; [apply Rmax_l|].
  split; intros H; apply Rle_max_compat_l; lra.
Qed.

Lemma inactivation_rate_capped_witness :
  viral_inactivation_rate_long 1 293.15 0.4
  = viral_inactivation_rate_long 5 293.15 0.4
  /\ ln 2 / 6.43 <= viral_inactivation_rate_long 1 293.15 0.4
  /\ viral_inactivation_rate_long 1 293.15 0.4
     <= viral_inactivation_rate_long 1 303.15 0.4
  /\ viral_inactivation_rate_long 1 293.15 0.4
     <= viral_inactivation_rate_long 1 293.15 0.6.
Proof.
  destruct (inactivation_rate_capped 1 5 293.15 303.15 0.4 0.6)
    as (H1 & H2 & H3 & H4).
  split; [exact H1|]. split; [exact H2|].
  split; [apply H3; lra|apply H4; lra].
Defined.

(** X7.  The viability of the virus on its way from the mouth never
    grows with the distance, and in dry air (a humidity of at most 0.40)
    nothing viable is left from 62.5 seconds of travel on. *)
Theorem viability_decay_monotone (x y u RH : R) :
  0 < u -> x <= y ->
  short_range_viability_decay y u RH <= short_range_viability_decay x u RH
  /\ (RH <= 0.40 -> 62.5 * u <= x -> short_range_viability_decay x u RH = 0).
Proof.
  intros Hu Hxy. unfold short_range_viability_decay. cbv zeta.
  assert (Hi : 0 < / u) by now apply Rinv_0_lt_compat.
  assert (Hq : x / u <= y / u)
    by (unfold Rdiv; apply Rmult_le_compat_r; lra).
  split.
  - destruct (Rle_dec RH 0.40); [|lra].
    apply Rle_max_compat_l. lra.
  - intros HRH Hfar. destruct (Rle_dec RH 0.40); [|lra].
    assert (62.5 <= x / u).
    { apply Rmult_le_reg_r with u; [exact Hu|].
      unfold Rdiv. rewrite Rmult_assoc, Rinv_l by lra. lra. }
    unfold Rmax. destruct (Rle_dec 0 (1 - 0.016 * (x / u))); lra.
Qed.

Lemma viability_decay_monotone_witness :
  short_range_viability_decay 126 2 0.3 <= short_range_viability_decay 125 2 0.3
  /\ short_range_viability_decay 125 2 0.3 = 0.
Proof.
  assert (Hu : 0 < 2) by lra. assert (Hxy : 125 <= 126) by lra.
  destruct (viability_decay_monotone 125 126 2 0.3 Hu Hxy) as [H1 H2].
  split; [exact H1|apply H2; lra].
Defined.

(** ** The triphasic survival fraction *)

Lemma tvad_phases (t RH CO2 : R) :
  0 < CO2 ->
  let t_lag := if Rgt_dec RH 0.50 then LAG_HIGHRH else LAG_LOWRH in
  let dyn_h := T1_2_DYN * (CO2 / CO2_REF) in
  let slow_h := T1_2_SLOW * (CO2 / CO2_REF) in
  0 < dyn_h /\ 0 < slow_h
  /\ omicron_tvad_survival t RH CO2
     = Some (if Rle_dec t t_lag then 1
             else if Rle_dec t (t_lag + 3 * dyn_h)
                  then exp (- (ln 2 / dyn_h) * (t - t_lag))
                  else exp (- (ln 2 / dyn_h) * (t_lag + 3 * dyn_h - t_lag))
                       * exp (- (ln 2 / slow_h) * (t - (t_lag + 3 * dyn_h)))).
Proof.
  intros HC. cbv zeta.
  assert (Hr : 0 < CO2 / CO2_REF)
    by (unfold CO2_REF; apply Rdiv_lt_0_compat; lra).
  assert (Hd : 0 < T1_2_DYN * (CO2 / CO2_REF))
    by (unfold T1_2_DYN; lra).
  assert (Hs : 0 < T1_2_SLOW * (CO2 / CO2_REF))
    by (unfold T1_2_SLOW; lra).
  split; [exact Hd|]. split; [exact Hs|].
  unfold omicron_tvad_survival. cbv zeta.
  destruct (Req_dec_T (T1_2_DYN * (CO2 / CO2_REF)) 0); [lra|].
  destruct (Req_dec_T (T1_2_SLOW * (CO2 / CO2_REF)) 0); [lra|].
  destruct (Rle_dec t _); [reflexivity|].
  destruct (Rle_dec t _); reflexivity.
Qed.

Lemma exp_le_1 (a : R) : a <= 0 -> exp a <= 1.
Proof.
  intros H. rewrite <- exp_0.
  destruct (Req_dec_T a 0) as [->|Hn]; [lra|].
  left. apply exp_increasing. lra.
Qed.

Lemma exp_monotone (a b : R) : a <= b -> exp a <= exp b.
Proof.
  intros H. destruct (Req_dec_T a b) as [->|Hn]; [lra|].
  left. apply exp_increasing. lra.
Qed.

(** X8.  For a positive ambient CO2 the survival fraction is defined at
    every time, lies in (0, 1], is 1 up to the end of the lag, and never
    grows with time: the three phases fit together without a jump
    upwards. *)
Theorem tvad_survival_decreasing (t t' RH CO2 : R) :
  0 < CO2 -> t <= t' ->
  exists s s',
    omicron_tvad_survival t RH CO2 = Some s
    /\ omicron_tvad_survival t' RH CO2 = Some s'
    /\ 0 < s' <= s /\ s <= 1
    /\ (t <= (if Rgt_dec RH 0.50 then LAG_HIGHRH else LAG_LOWRH) -> s = 1).
Proof.
  intros HC Htt.
  destruct (tvad_phases t RH CO2 HC) as (Hd & Hs & E).
  destruct (tvad_phases t' RH CO2 HC) as (_ & _ & E').
  cbv zeta in *.
  set (t_lag := if Rgt_dec RH 0.50 then LAG_HIGHRH else LAG_LOWRH) in *.
  set (dyn_h := T1_2_DYN * (CO2 / CO2_REF)) in *.
  set (slow_h := T1_2_SLOW * (CO2 / CO2_REF)) in *.
  assert (H2 := ln2_pos).
  assert (Hk2 : 0 < ln 2 / dyn_h) by (apply Rdiv_lt_0_compat; lra).
  assert (Hk3 : 0 < ln 2 / slow_h) by (apply Rdiv_lt_0_compat; lra).
  set (k2 := ln 2 / dyn_h) in *. set (k3 := ln 2 / slow_h) in *.
  set (t_end := t_lag + 3 * dyn_h) in *.
  eexists; eexists. split; [exact E|]. split; [exact E'|].
  assert (Hdecay2 : forall a b, t_lag <= a -> a <= b ->
            exp (- k2 * (b - t_lag)) <= exp (- k2 * (a - t_lag))
            /\ exp (- k2 * (a - t_lag)) <= 1).
  { intros a b Ha Hab. split.
    - apply exp_monotone. nra.
    - apply exp_le_1. nra. }
  assert (Hdecay3 : forall a b, t_end <= a -> a <= b ->
            exp (- k3 * (b - t_end)) <= exp (- k3 * (a - t_end))
            /\ exp (- k3 * (a - t_end)) <= 1).
  { intros a b Ha Hab. split.
    - apply exp_monotone. nra.
    - apply exp_le_1. nra. }
  assert (Hend : t_lag <= t_end) by (unfold t_end; lra).
  assert (P2 := exp_pos (- k2 * (t_end - t_lag))).
  destruct (Rle_dec t t_lag) as [H1|H1].
  - destruct (Rle_dec t' t_lag) as [H1'|H1'].
    + repeat split; try lra.
    + destruct (Rle_dec t' t_end) as [H2'|H2'].
      * assert (P := exp_pos (- k2 * (t' - t_lag))).
        destruct (Hdecay2 t' t') as [_ Q]; [lra|lra|].
        repeat split; try lra.
      * assert (P := exp_pos (- k3 * (t' - t_end))).
        destruct (Hdecay2 t_end t_end) as [_ Q2]; [lra|lra|].
        destruct (Hdecay3 t' t') as [_ Q3]; [lra|lra|].
        repeat split; try lra; try nra;
          try (apply Rmult_lt_0_compat; assumption).
  - destruct (Rle_dec t' t_lag) as [H1'|H1']; [lra|].
    destruct (Rle_dec t t_end) as [H3|H3].
    + destruct (Rle_dec t' t_end) as [H2'|H2'].
      * assert (P := exp_pos (- k2 * (t' - t_lag))).
        destruct (Hdecay2 t t') as [Q Q']; [lra|lra|].
        repeat split; try lra.
      * assert (P := exp_pos (- k3 * (t' - t_end))).
        destruct (Hdecay2 t t_end) as [Q Q']; [lra|lra|].
        destruct (Hdecay3 t' t') as [_ Q3]; [lra|lra|].
        repeat split; try lra; try nra;
          try (apply Rmult_lt_0_compat; assumption).
    + destruct (Rle_dec t' t_end) as [H2'|H2']; [lra|].
      assert (P := exp_pos (- k3 * (t' - t_end))).
      assert (P' := exp_pos (- k3 * (t - t_end))).
      destruct (Hdecay2 t_end t_end) as [_ Q2]; [lra|lra|].
      destruct (Hdecay3 t t') as [Q Q']; [lra|lra|].
      repeat split; try lra; try nra;
        try (apply Rmult_lt_0_compat; assumption).
Qed.

Lemma tvad_survival_decreasing_witness :
  exists s s',
    omicron_tvad_survival 10 0.6 800 = Some s
    /\ omicron_tvad_survival 600 0.6 800 = Some s'
    /\ 0 < s' <= s /\ s <= 1 /\ s = 1.
Proof.
  destruct (tvad_survival_decreasing 10 600 0.6 800) as (s & s' & H);
    try lra.
  destruct H as (E & E' & H1 & H2 & H3).
  exists s, s'. repeat split; try assumption; try lra.
  apply H3. destruct (Rgt_dec 0.6 0.50); unfold LAG_HIGHRH; lra.
Defined.

(** X9.  The survival fraction fails, with a division by zero, exactly
    when the ambient CO2 is zero, and then at every time, also within
    the lag, where the decay constants are not needed. *)
Theorem tvad_fails_without_co2 (t RH CO2 : R) :
  omicron_tvad_survival t RH CO2 = None <-> CO2 = 0.
Proof.
  unfold omicron_tvad_survival. cbv zeta.
  unfold T1_2_DYN, T1_2_SLOW, CO2_REF.
  split.
  - intros H.
    destruct (Req_dec_T (32 * (CO2 / 500)) 0) as [E|E]; [lra|].
    destruct (Req_dec_T (4800 * (CO2 / 500)) 0) as [E'|E']; [lra|].
    destruct (Rle_dec t _); [discriminate|].
    destruct (Rle_dec t _); discriminate.
  - intros ->.
    destruct (Req_dec_T (32 * (0 / 500)) 0) as [_|H]; [reflexivity|].
    exfalso. apply H. unfold Rdiv. ring.
Qed.

(** ** Order of the percentiles *)

Lemma insert_ascending (x : R) (l : list R) :
  ascending l -> ascending (np.insert x l).
Proof.
  induction l as [|y t IH]; intros H; simpl.
  - split; [constructor|exact I].
  - destruct H as [Hy Ht]. destruct (Rle_dec x y) as [Hxy|Hxy].
    + simpl. split; [|split; assumption].
      constructor; [exact Hxy|].
      eapply Forall_impl; [|exact Hy]. intros z Hz. simpl in Hz. lra.
    + simpl. split; [|now apply IH].
      apply insert_Forall; [lra|exact Hy].
Qed.

Lemma sort_ascending (l : list R) : ascending (np.sort l).
Proof.
  induction l as [|x t IH]; simpl; [exact I|]. now apply insert_ascending.
Qed.

Lemma ascending_nth (l : list R) (i j : nat) :
  ascending l -> (i <= j < length l)%nat -> nth i l 0 <= nth j l 0.
Proof.
  revert i j. induction l as [|x t IH]; intros i j H Hij; simpl in Hij; [lia|].
  destruct H as [Hx Ht].
  destruct i as [|i]; destruct j as [|j]; simpl; try lra; try lia.
  - apply (nth_Forall (Rle x)); [exact Hx|lia].
  - apply IH; [exact Ht|lia].
Qed.

Lemma percentile_monotone (a : list R) (q q' : R) :
  a <> [] -> 0 <= q -> q <= q' -> q' <= 100 ->
  np.percentile a q <= np.percentile a q'.
Proof.
  intros Hne Hq Hqq Hq'. unfold np.percentile. cbv zeta.
  assert (Hn : (0 < length a)%nat) by (destruct a; simpl; [congruence|lia]).
  assert (Hs := sort_ascending a). assert (Hl := sort_length a).
  set (s := np.sort a) in *. set (n := length a) in *.
  assert (Hn1 : 0 <= INR (n - 1)) by apply pos_INR.
  set (h := q / 100 * INR (n - 1)). set (h' := q' / 100 * INR (n - 1)).
  assert (Hh : 0 <= h) by (unfold h; nra).
  assert (Hhh : h <= h') by (unfold h, h'; nra).
  assert (Hh' : h' <= INR (n - 1)) by (unfold h'; nra).
  assert (B := Zfloor_bound h). assert (B' := Zfloor_bound h').
  assert (F0 : (0 <= Zfloor h)%Z) by (apply Zfloor_lub; simpl; lra).
  assert (Fle : (Zfloor h <= Zfloor h')%Z) by (apply Zfloor_lub; lra).
  assert (Fn : (Zfloor h' <= Z.of_nat (n - 1))%Z).
  { apply Zfloor_le in Hh'. rewrite INR_IZR_INZ, ZfloorZ in Hh'. exact Hh'. }
  set (lo := Z.to_nat (Zfloor h)). set (lo' := Z.to_nat (Zfloor h')).
  assert (Elo : IZR (Zfloor h) = INR lo)
    by (unfold lo; rewrite INR_IZR_INZ, Z2Nat.id by lia; reflexivity).
  assert (Elo' : IZR (Zfloor h') = INR lo')
    by (unfold lo'; rewrite INR_IZR_INZ, Z2Nat.id by lia; reflexivity).
  assert (Hlo : (lo <= lo')%nat) by (unfold lo, lo'; lia).
  assert (Hlo' : (lo' <= n - 1)%nat) by (unfold lo'; lia).
  set (hi := Nat.min (lo + 1) (n - 1)). set (hi' := Nat.min (lo' + 1) (n - 1)).
  assert (Hup : forall k, (k <= n - 1)%nat ->
            nth k s 0 <= nth (Nat.min (k + 1) (n - 1)) s 0).
  { intros k Hk. apply ascending_nth; [exact Hs|]. rewrite Hl. fold n. lia. }
  assert (U := Hup lo ltac:(lia)). assert (U' := Hup lo' Hlo'). fold hi in U.
  fold hi' in U'.
  set (g := h - IZR (Zfloor h)) in *. set (g' := h' - IZR (Zfloor h')) in *.
  assert (Hg : 0 <= g < 1) by (unfold g; lra).
  assert (Hg' : 0 <= g' < 1) by (unfold g'; lra).
  destruct (Nat.eq_dec lo lo') as [E|E].
  - assert (Ehi : hi = hi') by (unfold hi, hi'; now rewrite E).
    rewrite <- E, <- Ehi.
    assert (g <= g').
    { unfold g, g'. rewrite Elo, Elo', E. lra. }
    nra.
  - assert (Hlt : (lo + 1 <= lo')%nat) by lia.
    assert (M : nth hi s 0 <= nth lo' s 0).
    { apply ascending_nth; [exact Hs|]. rewrite Hl. fold n. unfold hi. lia. }
    nra.
Qed.

(** ** The result of the engine *)

Lemma dict_keys_set (k : string) (v : pyobj) (d : dict) :
  dict_keys (dict_set k v d)
  = if existsb (String.eqb k) (dict_keys d) then dict_keys d
    else (dict_keys d ++ [k])%list.
Proof.
  unfold dict_keys. induction d as [|[k' v'] rest IH]; simpl; [reflexivity|].
  destruct (k =? k') eqn:E; simpl.
  - apply String.eqb_eq in E. now subst.
  - rewrite IH. now destruct (existsb (String.eqb k) (map fst rest)).
Qed.

Lemma dict_get_absent (k : string) (d : dict) :
  existsb (String.eqb k) (dict_keys d) = false -> dict_get k d = None.
Proof.
  unfold dict_keys. induction d as [|[k' v'] rest IH]; simpl; [reflexivity|].
  destruct (k =? k'); simpl; [discriminate|exact IH].
Qed.

Lemma dict_keys_set_step (k : string) (v : pyobj) (d : dict)
  (keys keys' : list string) :
  dict_keys d = keys ->
  (if existsb (String.eqb k) keys then keys else (keys ++ [k])%list) = keys' ->
  dict_keys (dict_set k v d) = keys'.
Proof. intros H1 H2. now rewrite dict_keys_set, H1. Qed.

Ltac keys_of base :=
  first [ exact base
        | eapply dict_keys_set_step; [keys_of base|cbv; reflexivity] ].

Lemma initial_result_keys (c : Call) (v : Fields R) :
  dict_keys (initial_result c v)
  = ["risk"; "q_e"; "ACH"; "room_volume"; "activity_label"; "inputs";
     "N_masked"; "N_unmasked"].
Proof.
  unfold initial_result. cbv zeta.
  eapply dict_keys_set_step; [eapply dict_keys_set_step|];
    [unfold dict_keys; cbn [map fst]; reflexivity
    |cbv; reflexivity|cbv; reflexivity].
Qed.

Lemma summarize_keys (risks : list R) (c : Call) (v : Fields R) :
  dict_keys (summarize risks (initial_result c v)) = result_keys.
Proof.
  assert (Hi := initial_result_keys c v).
  unfold summarize. cbv zeta.
  destruct (risk_distribution.generate_risk_distribution_data risks);
    unfold result_keys; keys_of Hi.
Qed.

Lemma engine_results (c : Call) (w : draws) (s s' : rng_state) (d : dict) :
  calculate_unified_transmission_exposure c w s = Some (d, s') ->
  (d = error_result /\ s' = s)
  \/ exists v,
       any (fst (convert_inputs c)) = false
       /\ finite_fields (snd (convert_inputs c)) = Some v
       /\ d = summarize (fst (all_risks c (rescale v) w s))
                (initial_result c (rescale v))
       /\ s' = snd (all_risks c (rescale v) w s).
Proof.
  intros H.
  destruct (any (fst (convert_inputs c))) eqn:Hany.
  - rewrite (engine_on_error _ _ _ Hany) in H. injection H as <- <-.
    left. split; reflexivity.
  - destruct (finite_fields (snd (convert_inputs c))) as [v|] eqn:Hfin.
    + rewrite (engine_on_success _ _ _ _ Hany Hfin) in H.
      injection H as <- <-. right. exists v. repeat split; reflexivity.
    + exfalso. unfold calculate_unified_transmission_exposure in H.
      destruct (convert_inputs c) as [errors converted]. simpl in *.
      rewrite Hany, Hfin in H. discriminate.
Qed.

(** X10.  Every result of the engine has one of two shapes: the single
    key ["error"], or the twenty-five keys of a computed risk, in a
    fixed order.  A computed result therefore has no ["error"], and none
    of the keys ["stage"], ["Sx"], ["x_transition"], ["old_risk"] and
    ["new_risk"]. *)
Theorem result_has_one_of_two_shapes
  (c : Call) (w : draws) (s s' : rng_state) (d : dict) :
  calculate_unified_transmission_exposure c w s = Some (d, s') ->
  (dict_keys d = ["error"] /\ s' = s)
  \/ (dict_keys d = result_keys
      /\ forall key,
           In key ["error"; "stage"; "Sx"; "x_transition"; "old_risk";
                   "new_risk"] ->
           dict_get key d = None).
Proof.
  intros H. apply engine_results in H.
  destruct H as [[-> ->]|(v & _ & _ & -> & _)].
  - left. split; reflexivity.
  - right. split; [apply summarize_keys|].
    intros key Hkey. apply dict_get_absent. rewrite summarize_keys.
    simpl in Hkey. decompose [or] Hkey; try contradiction; subst key;
      reflexivity.
Qed.

Lemma default_call_runs :
  exists v,
    any (fst (convert_inputs default_call)) = false
    /\ finite_fields (snd (convert_inputs default_call)) = Some v
    /\ calculate_unified_transmission_exposure default_call constant_draws
         fresh_rng
       = Some (summarize
                 (fst (all_risks default_call (rescale v) constant_draws
                         fresh_rng))
                 (initial_result default_call (rescale v)),
               snd (all_risks default_call (rescale v) constant_draws
                      fresh_rng)).
Proof.
  assert (Hany : any (fst (convert_inputs default_call)) = false)
    by (vm_compute; reflexivity).
  destruct default_fields_real as (v & Hfin & _).
  exists v. split; [exact Hany|]. split; [exact Hfin|].
  apply (engine_on_success _ _ _ _ Hany Hfin).
Qed.

Lemma result_has_one_of_two_shapes_witness :
  exists d s',
    calculate_unified_transmission_exposure default_call constant_draws
      fresh_rng = Some (d, s')
    /\ ((dict_keys d = ["error"] /\ s' = fresh_rng)
        \/ (dict_keys d = result_keys
            /\ forall key,
                 In key ["error"; "stage"; "Sx"; "x_transition"; "old_risk";
                         "new_risk"] ->
                 dict_get key d = None)).
Proof.
  destruct default_call_runs as (v & _ & _ & Hrun).
  eexists; eexists. split; [exact Hrun|].
  exact (result_has_one_of_two_shapes _ _ _ _ _ Hrun).
Defined.

Lemma error_result_has_error : dict_get "error" error_result <> None.
Proof. discriminate. Qed.

(** A result without the key ["error"] is the summary of the risks of
    the simulations. *)
Lemma computed_result (c : Call) (w : draws) (s s' : rng_state) (d : dict) :
  calculate_unified_transmission_exposure c w s = Some (d, s') ->
  dict_get "error" d = None ->
  exists v,
    any (fst (convert_inputs c)) = false
    /\ finite_fields (snd (convert_inputs c)) = Some v
    /\ d = summarize (fst (all_risks c (rescale v) w s))
             (initial_result c (rescale v)).
Proof.
  intros H Herr. apply engine_results in H.
  destruct H as [[-> _]|(v & Hany & Hfin & Hd & _)].
  - exfalso. now apply error_result_has_error.
  - exists v. repeat split; assumption.
Qed.

Lemma dict_get_set_same (k : string) (v : pyobj) (d : dict) :
  dict_get k (dict_set k v d) = Some v.
Proof. now rewrite dict_get_set, String.eqb_refl. Qed.

Lemma dict_get_set_other (k k' : string) (v : pyobj) (d : dict) :
  (k =? k') = false -> dict_get k (dict_set k' v d) = dict_get k d.
Proof. intros H. now rewrite dict_get_set, H. Qed.

Ltac lookup :=
  repeat first [ rewrite dict_get_set_same
               | rewrite dict_get_set_other by reflexivity ].

Lemma summarize_back_compat (risks : list R) (result : dict) :
  let d := summarize risks result in
  forall legacy key, In (legacy, key) back_compat_keys ->
    dict_get legacy d = dict_get key d.
Proof.
  intros d legacy key Hin. unfold d, summarize. cbv zeta.
  unfold back_compat_keys in Hin. simpl in Hin.
  destruct (risk_distribution.generate_risk_distribution_data risks);
    decompose [or] Hin; try contradiction;
    match goal with H : (_, _) = (_, _) |- _ => injection H as <- <- end;
    lookup; reflexivity.
Qed.

(** X11.  In a computed result every key kept for the templates
    (["risk"], ["mc_mean"], ["mc_median"], ["mc_ci_5"], ...) holds a
    float, the same one as the key of the protection-factor method it
    stands for. *)
Theorem back_compat_keys_repeat
  (c : Call) (w : draws) (s s' : rng_state) (d : dict) :
  calculate_unified_transmission_exposure c w s = Some (d, s') ->
  dict_get "error" d = None ->
  forall legacy key, In (legacy, key) back_compat_keys ->
    exists r, float_entry legacy d = Some r /\ float_entry key d = Some r.
Proof.
  intros H Herr legacy key Hin.
  destruct (computed_result _ _ _ _ _ H Herr) as (v & _ & _ & ->).
  set (risks := fst (all_risks c (rescale v) w s)).
  set (result := initial_result c (rescale v)).
  assert (Heq := summarize_back_compat risks result legacy key Hin).
  destruct (summarize_entries risks result) as (Hstat & _ & _).
  destruct Hstat as (H1 & H2 & H3 & H4 & H5 & H6 & H7 & H8 & H9).
  unfold float_entry. cbv zeta in Heq. rewrite Heq.
  unfold back_compat_keys in Hin. simpl in Hin.
  decompose [or] Hin; try contradiction;
    match goal with E : (_, _) = (_, _) |- _ => injection E as <- <- end;
    eexists;
    first [rewrite H2|rewrite H3|rewrite H4|rewrite H5|rewrite H6
          |rewrite H7|rewrite H8|rewrite H9];
    split; reflexivity.
Qed.

Lemma default_call_computed :
  exists d s',
    calculate_unified_transmission_exposure default_call constant_draws
      fresh_rng = Some (d, s')
    /\ dict_get "error" d = None.
Proof.
  destruct default_call_runs as (v & _ & _ & Hrun).
  eexists; eexists. split; [exact Hrun|].
  destruct (summarize_entries
              (fst (all_risks default_call (rescale v) constant_draws
                      fresh_rng))
              (initial_result default_call (rescale v))) as (_ & _ & Herr).
  rewrite Herr. apply initial_result_no_error.
Qed.

Lemma back_compat_keys_repeat_witness :
  exists d s',
    calculate_unified_transmission_exposure default_call constant_draws
      fresh_rng = Some (d, s')
    /\ forall legacy key, In (legacy, key) back_compat_keys ->
         exists r, float_entry legacy d = Some r /\ float_entry key d = Some r.
Proof.
  destruct default_call_computed as (d & s' & Hrun & Herr).
  exists d, s'. split; [exact Hrun|].
  exact (back_compat_keys_repeat _ _ _ _ _ Hrun Herr).
Defined.

(** X12.  The percentile bounds that the summary writes into a result
    are ordered, for every array of simulated risks that is not empty
    (and holds numbers, as every array of reals does): the 0.5th
    percentile is at most the 5th, which is at most the 25th, the
    median, the 75th, the 95th and the 99.5th, in this order; so every
    reported interval contains the median, and the wider intervals
    contain the narrower ones. *)
Theorem reported_percentiles_ordered (risks : list R) (result : dict) :
  risks <> [] ->
  let d := summarize risks result in
  exists p0_5 p5 p25 p50 p75 p95 p99_5,
    float_entry "mc_pf_ci_0_5" d = Some p0_5
    /\ float_entry "mc_pf_ci_5" d = Some p5
    /\ float_entry "mc_pf_ci_25" d = Some p25
    /\ float_entry "mc_pf_median" d = Some p50
    /\ float_entry "mc_pf_ci_75" d = Some p75
    /\ float_entry "mc_pf_ci_95" d = Some p95
    /\ float_entry "mc_pf_ci_99_5" d = Some p99_5
    /\ p0_5 <= p5 /\ p5 <= p25 /\ p25 <= p50 /\ p50 <= p75 /\ p75 <= p95
    /\ p95 <= p99_5.
Proof.
  intros Hne d.
  destruct (summarize_entries risks result) as (Hstat & _ & _).
  destruct Hstat as (_ & _ & H3 & H4 & H5 & H6 & H7 & H8 & H9).
  unfold float_entry, d. rewrite H3, H4, H5, H6, H7, H8, H9.
  do 7 eexists. repeat (split; [reflexivity|]).
  repeat split; apply percentile_monotone; try exact Hne; lra.
Qed.

Lemma reported_percentiles_ordered_witness :
  let d := summarize two_risks [] in
  exists p0_5 p5 p25 p50 p75 p95 p99_5,
    float_entry "mc_pf_ci_0_5" d = Some p0_5
    /\ float_entry "mc_pf_ci_5" d = Some p5
    /\ float_entry "mc_pf_ci_25" d = Some p25
    /\ float_entry "mc_pf_median" d = Some p50
    /\ float_entry "mc_pf_ci_75" d = Some p75
    /\ float_entry "mc_pf_ci_95" d = Some p95
    /\ float_entry "mc_pf_ci_99_5" d = Some p99_5
    /\ p0_5 <= p5 /\ p5 <= p25 /\ p25 <= p50 /\ p50 <= p75 /\ p75 <= p95
    /\ p95 <= p99_5.
Proof.
  apply (reported_percentiles_ordered two_risks []). discriminate.
Defined.

Lemma summarize_keeps (risks : list R) (result : dict) (key : string) :
  existsb (String.eqb key)
    ["N_masked"; "N_unmasked"; "q_e"; "ACH"; "room_volume"; "activity_label";
     "inputs"] = true ->
  dict_get key (summarize risks result) = dict_get key result.
Proof.
  intros H. simpl in H.
  repeat match type of H with
         | (?a =? ?b) || _ = true =>
             destruct (a =? b) eqn:E;
             [apply String.eqb_eq in E; clear H|simpl in H; clear E]
         end;
    try discriminate; subst key; unfold summarize; cbv zeta;
    destruct (risk_distribution.generate_risk_distribution_data risks);
    lookup; reflexivity.
Qed.





(** ** Calls without any risk *)

Lemma all_zero_repeat (a : list R) :
  Forall (fun r => r = 0) a -> a = repeat 0 (length a).
Proof.
  induction 1 as [|x t Hx Ht IH]; simpl; [reflexivity|].
  now rewrite Hx, <- IH.
Qed.

(** The summary of risks that are all zero. *)
Lemma summarize_zero (risks : list R) (result : dict) :
  risks <> [] -> Forall (fun r => r = 0) risks ->
  (forall key, In key risk_keys ->
     float_entry key (summarize risks result) = Some 0)
  /\ dict_get "risk_distribution_data" (summarize risks result) = Some ONone.
Proof.
  intros Hne Hz.
  destruct (summarize_entries risks result) as (Hstat & Hdist & _).
  split.
  - intros key Hkey.
    assert (Hb : Forall (fun r => 0 <= r <= 0) risks).
    { eapply Forall_impl; [|exact Hz]. intros r Hr. simpl in Hr. lra. }
    destruct (reported_between risks _ 0 0 Hne Hb Hstat key Hkey)
      as (r & Hr & Hr0).
    unfold float_entry. rewrite Hr. f_equal. lra.
  - rewrite Hdist. unfold distribution_entry.
    rewrite (all_zero_repeat risks Hz).
    rewrite all_zero_raises; [reflexivity|].
    destruct risks; simpl; [congruence|lia].
Qed.

Lemma people_dose_none c v m o BR eta_in x_eff dt_h n total w s :
  draws_ok w -> covid_prevalence_val v <= 0 ->
  fst (people_dose c v m o BR eta_in x_eff dt_h n total w s) = total.
Proof.
  intros [Hu _] Hp. revert s. induction n as [|n IH]; intros s.
  - reflexivity.
  - cbn [people_dose]. unfold bind at 1.
    destruct (Rlt_dec _ _) as [Hinf|_]; [|apply IH].
    exfalso. unfold random.random in Hinf. simpl in Hinf.
    specialize (Hu (uniform_used s)). lra.
Qed.

Lemma simulation_none c v m w s :
  draws_ok w -> covid_prevalence_val v <= 0 ->
  fst (simulation c v m w s) = 0.
Proof.
  intros Hw Hp. unfold simulation. unfold bind at 1 2 3 4.
  rewrite (people_dose_none _ _ _ _ _ _ _ _ _ _ _ _ Hw Hp).
  unfold bind, ret. cbn [fst snd].
  match goal with
  | |- 1 - exp (- 0 / ?x) = 0 => replace (- 0 / x) with 0 by (unfold Rdiv; ring)
  end.
  rewrite exp_0. ring.
Qed.

(** X14.  On a call whose converted fields are all finite, whose share
    of masked people is a fraction between 0 and 1 and whose number of
    people has a magnitude of at most 2^53 (so that the engine's
    products with it are exact): when nobody else is present, or the
    prevalence is zero (or below), no simulation has an infectious
    person; every risk that the engine reports (mean, median,
    percentile bounds) is exactly 0, and there is no distribution to
    show, [None] being left under ["risk_distribution_data"]. *)
Theorem no_infectious_no_risk
  (c : Call) (w : draws) (s s' : rng_state) (d : dict) (v : Fields R) :
  draws_ok w ->
  calculate_unified_transmission_exposure c w s = Some (d, s') ->
  dict_get "error" d = None ->
  finite_fields (snd (convert_inputs c)) = Some v ->
  0 <= percentage_masked_val v <= 1 ->
  (Z.abs (N_val v) <= 2 ^ 53)%Z ->
  (N_val v <= 0)%Z \/ covid_prevalence_val v <= 0 ->
  (forall key, In key risk_keys -> float_entry key d = Some 0)
  /\ dict_get "risk_distribution_data" d = Some ONone.
Proof.
  intros Hw H Herr Hfin _ _ Hnone.
  destruct (computed_result _ _ _ _ _ H Herr) as (v' & _ & Hfin' & ->).
  rewrite Hfin in Hfin'. injection Hfin' as <-.
  apply summarize_zero; [apply all_risks_nonempty|].
  unfold all_risks. apply simulations_Forall. intros s0.
  destruct Hnone as [HN|Hp].
  - now apply simulation_nobody.
  - now apply simulation_none.
Qed.

Lemma no_infectious_no_risk_witness :
  exists d s',
    calculate_unified_transmission_exposure nobody_call constant_draws
      fresh_rng = Some (d, s')
    /\ (forall key, In key risk_keys -> float_entry key d = Some 0)
    /\ dict_get "risk_distribution_data" d = Some ONone.
Proof.
  assert (Hany : any (fst (convert_inputs nobody_call)) = false)
    by (vm_compute; reflexivity).
  assert (Hfin : exists v,
             finite_fields (snd (convert_inputs nobody_call)) = Some v
             /\ N_val v = 0%Z /\ percentage_masked_val v = 0).
  { rewrite convert_inputs_fields. eexists. split; [reflexivity|].
    cbn. unfold Q2R. cbn. split; [reflexivity|lra]. }
  destruct Hfin as (v & Hfin & HN & Hpm).
  assert (Hrun := engine_on_success _ constant_draws fresh_rng _ Hany Hfin).
  eexists; eexists. split; [exact Hrun|].
  apply (no_infectious_no_risk _ _ _ _ _ v constant_draws_ok Hrun).
  - destruct (summarize_entries
                (fst (all_risks nobody_call (rescale v) constant_draws
                        fresh_rng))
                (initial_result nobody_call (rescale v))) as (_ & _ & Herr).
    rewrite Herr. apply initial_result_no_error.
  - exact Hfin.
  - rewrite Hpm. lra.
  - rewrite HN. simpl Z.abs. apply Z.pow_nonneg. lia.
  - left. rewrite HN. lia.
Defined.



(* ================================================================== *)
(** * Further properties of calculators/risk_distribution.py *)
(* ================================================================== *)

(** The axes of an array of risks between 0 and 1. *)
Lemma axes_ordered (a : list R) :
  a <> [] -> Forall (fun r => 0 <= r <= 1) a ->
  0 <= np.percentile a 5 <= np.percentile a 95
  /\ np.percentile a 95 <= 1
  /\ fst (fst (risk_distribution.calculate_optimal_axes a))
     <= snd (fst (risk_distribution.calculate_optimal_axes a)).
Proof.
  intros Hne Ha.
  assert (H5 := percentile_between a 5 0 1 Hne ltac:(lra) Ha).
  assert (H95 := percentile_between a 95 0 1 Hne ltac:(lra) Ha).
  assert (Hm := percentile_monotone a 5 95 Hne ltac:(lra) ltac:(lra) ltac:(lra)).
  split; [lra|]. split; [lra|].
  unfold risk_distribution.calculate_optimal_axes. cbv zeta. cbn [fst snd].
  unfold Rmax. destruct (Rle_dec 0 (np.percentile a 5 * 0.8)); lra.
Qed.

(** X16.  The outcomes of [generate_risk_distribution_data]: an empty
    array and an array with a value outside [0, 1] raise [ValueError],
    each with its message; on every other array the function returns a
    distribution unless the step of [np.arange] is zero, and the
    histogram never rejects the bin edges. *)
Theorem distribution_outcomes (a : list R) :
  (a = [] ->
   risk_distribution.generate_risk_distribution_data a
   = inl (risk_distribution.ValueError "Risk array is empty"))
  /\ (a <> [] -> Exists (fun x => x < 0 \/ 1 < x) a ->
      risk_distribution.generate_risk_distribution_data a
      = inl (risk_distribution.ValueError
               "Risk values must be between 0 and 1"))
  /\ (a <> [] -> Forall (fun r => 0 <= r <= 1) a ->
      risk_distribution.generate_risk_distribution_data a
      = inl risk_distribution.ArangeError
      \/ exists d, risk_distribution.generate_risk_distribution_data a = inr d).
Proof.
  assert (Hlen : a <> [] -> (length a =? 0)%nat = false).
  { intros Hne. destruct a; [congruence|reflexivity]. }
  split; [|split].
  - intros ->. reflexivity.
  - intros Hne Hex. unfold risk_distribution.generate_risk_distribution_data.
    now rewrite (Hlen Hne), (out_of_range_Exists a Hex).
  - intros Hne Ha.
    destruct (axes_ordered a Hne Ha) as (_ & _ & Hax).
    unfold risk_distribution.generate_risk_distribution_data.
    rewrite (Hlen Hne), (in_range_not_out a Ha).
    destruct (risk_distribution.calculate_optimal_axes a)
      as [[x_min x_max] tick].
    cbn [fst snd] in Hax.
    destruct (risk_distribution.create_smart_bins a x_min x_max)
      as [bins|] eqn:Eb; [|left; reflexivity].
    right.
    destruct (create_smart_bins_width _ _ _ _ Eb) as (bw & Har & Hsign).
    assert (Hbw : 0 < bw) by (destruct Hsign as [[H _]|[_ H]]; lra).
    unfold np.arange in Har.
    destruct (Req_dec_T bw 0); [lra|]. injection Har as <-.
    unfold np.histogram. rewrite increasing_arange by lra.
    eexists. reflexivity.
Qed.

Lemma distribution_outcomes_witness :
  risk_distribution.generate_risk_distribution_data []
  = inl (risk_distribution.ValueError "Risk array is empty")
  /\ risk_distribution.generate_risk_distribution_data [2]
     = inl (risk_distribution.ValueError "Risk values must be between 0 and 1")
  /\ (risk_distribution.generate_risk_distribution_data two_risks
      = inl risk_distribution.ArangeError
      \/ exists d,
           risk_distribution.generate_risk_distribution_data two_risks = inr d).
Proof.
  split; [|split].
  - apply (distribution_outcomes []). reflexivity.
  - apply (distribution_outcomes [2]); [discriminate|].
    constructor. right. lra.
  - apply (distribution_outcomes two_risks); [discriminate|].
    unfold two_risks. repeat constructor; lra.
Defined.

(** The edges of a returned histogram, in terms of its axes. *)
Lemma histogram_edges (a : list R) (d : risk_distribution.RiskDistribution) :
  risk_distribution.generate_risk_distribution_data a = inr d ->
  let h := risk_distribution.histogram d in
  let ax := risk_distribution.axis_config d in
  (risk_distribution.x_min ax, risk_distribution.x_max ax,
   risk_distribution.tick_interval ax)
  = risk_distribution.calculate_optimal_axes a
  /\ a <> []
  /\ risk_distribution.any_out_of_range a = false
  /\ exists bw,
       0 < bw
       /\ risk_distribution.x_min ax < risk_distribution.x_max ax
       /\ risk_distribution.edges h
          = map (fun i => risk_distribution.x_min ax + INR i * bw)
              (seq 0 (Z.to_nat
                        (Zceil ((risk_distribution.x_max ax + bw
                                 - risk_distribution.x_min ax) / bw)))).
Proof.
  unfold risk_distribution.generate_risk_distribution_data.
  destruct (length a =? 0)%nat eqn:El; [discriminate|].
  destruct (risk_distribution.any_out_of_range a) eqn:Er; [discriminate|].
  destruct (risk_distribution.calculate_optimal_axes a) as [[x_min x_max] tick].
  destruct (risk_distribution.create_smart_bins a x_min x_max) as [bins|] eqn:Eb;
    [|discriminate].
  destruct (np.histogram a bins) as [[counts edges]|] eqn:Eh; [|discriminate].
  intros H. injection H as <-. cbn.
  split; [reflexivity|].
  split; [intros ->; discriminate|]. split; [reflexivity|].
  unfold np.histogram in Eh.
  destruct (np.increasing bins) eqn:Einc; [|discriminate].
  injection Eh as <- <-.
  destruct (create_smart_bins_width _ _ _ _ Eb) as (bw & Har & Hsign).
  assert (Hgt : 1 < (x_max + bw - x_min) / bw).
  { replace ((x_max + bw - x_min) / bw) with ((x_max - x_min) / bw + 1)
      by (field; lra).
    assert (0 < (x_max - x_min) / bw); [|lra].
    destruct Hsign as [[H1 H2]|[H1 H2]].
    - apply Rdiv_lt_0_compat; lra.
    - replace ((x_max - x_min) / bw) with ((x_min - x_max) / (- bw))
        by (field; lra).
      apply Rdiv_lt_0_compat; lra. }
  destruct (arange_points _ _ _ _ Har Hgt) as [m Hm].
  assert (Hpos : 0 < bw).
  { destruct Hsign as [[H1 _]|[H1 _]]; [exact H1|].
    exfalso. rewrite Hm in Einc. simpl in Einc.
    destruct (Rgt_dec (x_min + 0 * bw) (x_min + 1 * bw)); [discriminate|lra]. }
  exists bw. split; [exact Hpos|]. split.
  - destruct Hsign as [[_ H]|[H _]]; lra.
  - unfold np.arange in Har. destruct (Req_dec_T bw 0); [lra|].
    now injection Har as <-.
Qed.

Lemma count_within_wider (a : list R) (low high high' : R) :
  high <= high' ->
  (count_within a low high <= count_within a low high')%Z.
Proof.
  intros H. unfold count_within. apply inj_le.
  induction a as [|x t IH]; simpl; [lia|].
  destruct (Rle_dec low x); [|exact IH].
  destruct (Rle_dec x high); destruct (Rle_dec x high'); simpl; try lia; lra.
Qed.

(** X17.  A returned histogram covers the range of its axis up to the
    last bin width: its first edge is [x_min], its edges are a positive
    bin width apart, its last edge lies above [x_max] minus one bin
    width, and so every simulation whose risk lies between [x_min] and
    [x_max] minus one bin width is in one of the bins.  (In exact
    arithmetic the last edge is not below [x_max]; the margin of one
    bin width leaves room for the rounding of the edges.) *)
Theorem histogram_covers_axis
  (a : list R) (d : risk_distribution.RiskDistribution) :
  risk_distribution.generate_risk_distribution_data a = inr d ->
  let h := risk_distribution.histogram d in
  let ax := risk_distribution.axis_config d in
  let bin_width :=
    nth 1 (risk_distribution.edges h) 0 - nth 0 (risk_distribution.edges h) 0 in
  0 < bin_width
  /\ hd 0 (risk_distribution.edges h) = risk_distribution.x_min ax
  /\ risk_distribution.x_max ax - bin_width
     < last (risk_distribution.edges h) 0
  /\ (count_within a (risk_distribution.x_min ax)
        (risk_distribution.x_max ax - bin_width)
      <= total (risk_distribution.counts h))%Z.
Proof.
  intros H h ax.
  destruct (histogram_edges a d H) as (_ & _ & _ & bw & Hbw & Hlt & He).
  fold h ax in Hlt, He.
  assert (Ht := histogram_total a d H). fold h in Ht.
  set (x0 := risk_distribution.x_min ax) in *.
  set (x1 := risk_distribution.x_max ax) in *.
  set (y := (x1 + bw - x0) / bw) in *.
  assert (Hy : y = (x1 - x0) / bw + 1) by (unfold y; field; lra).
  assert (Hy1 : 1 < y).
  { assert (0 < (x1 - x0) / bw) by (apply Rdiv_lt_0_compat; lra). lra. }
  assert (Hn := Zceil_above_one y Hy1).
  assert (B := Zceil_bound y).
  destruct (Z.to_nat (Zceil y)) as [|[|m]] eqn:En; [lia|lia|].
  assert (Hlast : last (risk_distribution.edges h) 0 = x0 + INR (S m) * bw)
    by (rewrite He; apply last_map_seq).
  assert (Hhd : hd 0 (risk_distribution.edges h) = x0).
  { rewrite He. simpl. lra. }
  assert (Hwidth : nth 1 (risk_distribution.edges h) 0
                   - nth 0 (risk_distribution.edges h) 0 = bw).
  { rewrite He. simpl. lra. }
  assert (Hcover : x1 <= x0 + INR (S m) * bw).
  { assert (HS : INR (S (S m)) = IZR (Zceil y)).
    { rewrite <- En, INR_IZR_INZ, Z2Nat.id by lia. reflexivity. }
    rewrite (S_INR (S m)) in HS.
    assert (Hq : (x1 - x0) / bw <= INR (S m)) by lra.
    apply Rmult_le_compat_r with (r := bw) in Hq; [|lra].
    unfold Rdiv in Hq. rewrite Rmult_assoc, Rinv_l, Rmult_1_r in Hq by lra.
    lra. }
  cbv zeta. rewrite Hwidth.
  split; [exact Hbw|]. split; [exact Hhd|].
  split; [rewrite Hlast; lra|].
  rewrite Ht, Hhd, Hlast. apply count_within_wider. lra.
Qed.

Lemma histogram_covers_axis_witness :
  exists d,
    risk_distribution.generate_risk_distribution_data two_risks = inr d
    /\ let h := risk_distribution.histogram d in
       let ax := risk_distribution.axis_config d in
       let bin_width :=
         nth 1 (risk_distribution.edges h) 0
         - nth 0 (risk_distribution.edges h) 0 in
       0 < bin_width
       /\ hd 0 (risk_distribution.edges h) = risk_distribution.x_min ax
       /\ risk_distribution.x_max ax - bin_width
          < last (risk_distribution.edges h) 0
       /\ (count_within two_risks (risk_distribution.x_min ax)
             (risk_distribution.x_max ax - bin_width)
           <= total (risk_distribution.counts h))%Z.
Proof.
  destruct two_risks_histogram as (d & H & _).
  exists d. split; [exact H|].
  exact (histogram_covers_axis two_risks d H).
Defined.

(** X18.  The axes chosen for an array of risks between 0 and 1: the
    range from [x_min] to [x_max] starts at 0 or above, ends at 1.2 or
    below, and contains the 5th and the 95th percentile, hence the
    central 90 percent of the simulations; the tick interval is
    positive and at most 24 of them fit below [x_max]. *)
Theorem axes_contain_bulk (a : list R) (x_min x_max tick : R) :
  a <> [] -> Forall (fun r => 0 <= r <= 1) a ->
  risk_distribution.calculate_optimal_axes a = (x_min, x_max, tick) ->
  0 <= x_min /\ x_min <= np.percentile a 5
  /\ np.percentile a 95 <= x_max /\ x_max <= 1.2
  /\ 0 < tick /\ x_max <= 24 * tick.
Proof.
  intros Hne Ha H.
  destruct (axes_ordered a Hne Ha) as (H5 & H95 & _).
  unfold risk_distribution.calculate_optimal_axes in H. cbv zeta in H.
  injection H as <- <- <-.
  set (p5 := np.percentile a 5) in *. set (p95 := np.percentile a 95) in *.
  assert (Hmin : 0 <= Rmax 0 (p5 * 0.8) <= p5).
  { unfold Rmax. destruct (Rle_dec 0 (p5 * 0.8)); lra. }
  repeat split; try lra;
    destruct (Rlt_dec (p95 * 1.2) 0.01);
    try destruct (Rlt_dec (p95 * 1.2) 0.1); lra.
Qed.

Lemma axes_contain_bulk_witness :
  0 <= 0.02 /\ 0.02 <= np.percentile two_risks 5
  /\ np.percentile two_risks 95 <= 0.57 /\ 0.57 <= 1.2
  /\ 0 < 0.05 /\ 0.57 <= 24 * 0.05.
Proof.
  apply (axes_contain_bulk two_risks 0.02 0.57 0.05).
  - discriminate.
  - unfold two_risks. repeat constructor; lra.
  - exact two_risks_axes.
Defined.

Lemma count_lt_le (a : list R) (x y : R) :
  x <= y ->
  (np.count_lt a x <= np.count_lt a y)%Z /\ (np.count_lt a x <= np.count_le a y)%Z.
Proof.
  intros H. unfold np.count_lt, np.count_le.
  induction a as [|z t [IH1 IH2]]; simpl; [lia|].
  destruct (Rlt_dec z x); destruct (Rlt_dec z y); destruct (Rle_dec z y);
    simpl length; try lra; lia.
Qed.

Lemma cumulative_head_ge (a : list R) (x y : R) (t : list R) :
  x <= y ->
  (np.count_lt a x <= hd 0 (np.cumulative a (y :: t)))%Z.
Proof.
  intros H. destruct (count_lt_le a x y H) as [H1 H2].
  destruct t; simpl; assumption.
Qed.

Lemma counts_nonneg (a : list R) (edges : list R) :
  np.increasing edges = true ->
  Forall (fun c => 0 <= c)%Z (np.diff (np.cumulative a edges)).
Proof.
  induction edges as [|x t IH]; intros Hinc; [constructor|].
  destruct t as [|y t]; [constructor|].
  change (np.increasing (x :: y :: t))
    with (if Rgt_dec x y then false else np.increasing (y :: t)) in Hinc.
  destruct (Rgt_dec x y) as [|Hxy]; [discriminate|].
  specialize (IH Hinc).
  assert (Hh := cumulative_head_ge a x y t ltac:(lra)).
  change (np.cumulative a (x :: y :: t))
    with (np.count_lt a x :: np.cumulative a (y :: t)).
  destruct (np.cumulative a (y :: t)) as [|c rest] eqn:E.
  - destruct t; discriminate.
  - simpl in Hh. change (np.diff (np.count_lt a x :: c :: rest))
      with ((c - np.count_lt a x)%Z :: np.diff (c :: rest)).
    constructor; [lia|exact IH].
Qed.

Lemma fold_max_spec (t : list Z) (c : Z) :
  (c <= fold_left Z.max t c)%Z
  /\ Forall (fun z => z <= fold_left Z.max t c)%Z t
  /\ In (fold_left Z.max t c) (c :: t).
Proof.
  revert c. induction t as [|z t IH]; intros c; simpl.
  - split; [lia|]. split; [constructor|]. now left.
  - destruct (IH (Z.max c z)) as (H1 & H2 & H3).
    split; [lia|]. split; [constructor; [lia|exact H2]|].
    destruct H3 as [H3|H3]; [|right; right; exact H3].
    destruct (Z.max_spec c z) as [[_ E]|[_ E]].
    + right; left. rewrite <- H3. exact (eq_sym E).
    + left. rewrite <- H3. exact (eq_sym E).
Qed.

(** X19.  In a returned histogram no count is negative, and
    [max_count] is the largest of the counts: no bin has more, and some
    bin has exactly as many. *)
Theorem max_count_is_maximum
  (a : list R) (d : risk_distribution.RiskDistribution) :
  risk_distribution.generate_risk_distribution_data a = inr d ->
  let h := risk_distribution.histogram d in
  Forall (fun c => 0 <= c <= risk_distribution.max_count h)%Z
    (risk_distribution.counts h)
  /\ In (risk_distribution.max_count h) (risk_distribution.counts h).
Proof.
  unfold risk_distribution.generate_risk_distribution_data.
  destruct (length a =? 0)%nat; [discriminate|].
  destruct (risk_distribution.any_out_of_range a); [discriminate|].
  destruct (risk_distribution.calculate_optimal_axes a) as [[x_min x_max] tick].
  destruct (risk_distribution.create_smart_bins a x_min x_max) as [bins|] eqn:Eb;
    [|discriminate].
  destruct (np.histogram a bins) as [[counts edges]|] eqn:Eh; [|discriminate].
  intros H. injection H as <-. cbn.
  unfold np.histogram in Eh.
  destruct (np.increasing bins) eqn:Einc; [|discriminate].
  injection Eh as <- <-.
  assert (Hnn := counts_nonneg a bins Einc).
  destruct (create_smart_bins_width _ _ _ _ Eb) as (bw & Har & Hsign).
  assert (Hgt : 1 < (x_max + bw - x_min) / bw).
  { replace ((x_max + bw - x_min) / bw) with ((x_max - x_min) / bw + 1)
      by (field; lra).
    assert (0 < (x_max - x_min) / bw); [|lra].
    destruct Hsign as [[H1 H2]|[H1 H2]].
    - apply Rdiv_lt_0_compat; lra.
    - replace ((x_max - x_min) / bw) with ((x_min - x_max) / (- bw))
        by (field; lra).
      apply Rdiv_lt_0_compat; lra. }
  destruct (arange_points _ _ _ _ Har Hgt) as [m Hm].
  destruct (np.diff (np.cumulative a bins)) as [|c t] eqn:Ec.
  - exfalso. assert (Hl := diff_length (np.cumulative a bins)).
    rewrite Ec, cumulative_length, Hm, length_map, length_seq in Hl.
    simpl in Hl. lia.
  - destruct (fold_max_spec t c) as (H1 & H2 & H3).
    split; [|exact H3].
    inversion Hnn as [|c' t' Hc Ht]; subst.
    constructor; [lia|].
    rewrite Forall_forall in *. intros z Hz.
    specialize (H2 z Hz). specialize (Ht z Hz). simpl in *. lia.
Qed.

Lemma max_count_is_maximum_witness :
  exists d,
    risk_distribution.generate_risk_distribution_data two_risks = inr d
    /\ let h := risk_distribution.histogram d in
       Forall (fun c => 0 <= c <= risk_distribution.max_count h)%Z
         (risk_distribution.counts h)
       /\ In (risk_distribution.max_count h) (risk_distribution.counts h).
Proof.
  destruct two_risks_histogram as (d & H & _).
  exists d. split; [exact H|].
  exact (max_count_is_maximum two_risks d H).
Defined.

(* ================================================================== *)
(** * Further properties of calculators/validators.py *)
(* ================================================================== *)

Lemma span_digits_head body d ds r :
  span_digits body = (d :: ds, r) ->
  exists c t, body = String c t /\ is_digit c = true.
Proof.
  destruct body as [|c t]; simpl; [discriminate|].
  destruct (is_digit c) eqn:E; [|discriminate].
  intros _. now exists c, t.
Qed.

Lemma digit_is_no_letter (c : ascii) :
  is_digit c = true ->
  Ascii.eqb (lower c) "i" = false /\ Ascii.eqb (lower c) "n" = false.
Proof.
  destruct c as [[] [] [] [] [] [] [] []]; vm_compute; intros H;
    try discriminate; split; reflexivity.
Qed.

Lemma digits_are_no_word body d ds r :
  span_digits body = (d :: ds, r) ->
  (lower_str body =? "inf") = false
  /\ (lower_str body =? "infinity") = false
  /\ (lower_str body =? "nan") = false.
Proof.
  intros H. destruct (span_digits_head _ _ _ _ H) as (c & t & -> & Hc).
  destruct (digit_is_no_letter c Hc) as [Hi Hn].
  simpl. rewrite Hi, Hn. repeat split; reflexivity.
Qed.

(** The text [int] accepts, as [float] reads it. *)
Lemma int_text_float (s : string) (z : Z) :
  int s = Some z ->
  float s = Some (Fin (inject_Z z))
  \/ ((exists neg, float s = Some (Inf neg))
      /\ (2 ^ 1024 - 2 ^ 970 <= Z.abs z)%Z).
Proof.
  unfold int, float.
  destruct (strip_underscores None (strip Py_ISSPACE s)) as [t|]; [|discriminate].
  destruct (parse_sign t) as [neg body].
  destruct (span_digits body) as [ds r] eqn:E.
  destruct ds as [|d ds]; [discriminate|].
  destruct r; [|discriminate].
  destruct (int_max_str_digits <? length (d :: ds))%nat; [discriminate|].
  intros H. injection H as <-.
  destruct (digits_are_no_word _ _ _ _ E) as (-> & -> & ->). simpl orb. cbv iota.
  rewrite (span_digits_all _ _ E).
  set (m := digits_value (d :: ds)).
  assert (Hv : decimal_value m 0 = inject_Z m).
  { unfold decimal_value. simpl Z.leb. cbv iota.
    now rewrite Z.pow_0_r, Z.mul_1_r. }
  rewrite Hv.
  destruct (Qle_bool DBL_ROUNDS_TO_INF (inject_Z m)) eqn:Q.
  - right. split; [now exists neg|].
    apply Qle_bool_iff in Q. unfold DBL_ROUNDS_TO_INF in Q.
    rewrite <- Zle_Qle in Q. destruct neg; lia.
  - left. destruct neg; reflexivity.
Qed.

(** X20.  A text that [safe_int] converts is also accepted by
    [safe_float], without a message; and when the integer has a
    magnitude of at most 2^53, so that a float holds it exactly,
    [safe_float] converts the text to the same number. *)
Theorem integer_text_as_float
  (s : string) (n default_n : Z) (default_x : pyfloat) :
  _strip (PyStr s) <> EmptyString ->
  safe_int (PyStr s) default_n = (n, EmptyString) ->
  exists x,
    safe_float (PyStr s) default_x = (x, EmptyString)
    /\ ((Z.abs n <= 2 ^ 53)%Z -> x = Fin (inject_Z n)).
Proof.
  intros Hne H. unfold safe_int in H. unfold safe_float.
  apply String.eqb_neq in Hne. rewrite Hne in *.
  destruct (int (_strip (PyStr s))) as [z|] eqn:E.
  - injection H as <-.
    destruct (int_text_float _ _ E) as [F|[[neg F] Hbig]]; rewrite F.
    + eexists. split; [reflexivity|]. intros _. reflexivity.
    + eexists. split; [reflexivity|]. intros Hsmall. exfalso.
      assert (Hlt : (2 ^ 53 < 2 ^ 1024 - 2 ^ 970)%Z) by reflexivity.
      lia.
  - injection H as _ H. discriminate.
Qed.

Lemma integer_text_as_float_witness :
  exists x,
    safe_float (PyStr " 12 ") (Fin 0) = (x, EmptyString)
    /\ x = Fin (inject_Z 12).
Proof.
  destruct (integer_text_as_float " 12 " 12 1 (Fin 0)) as (x & Hx & Hv).
  - vm_compute. discriminate.
  - vm_compute. reflexivity.
  - exists x. split; [exact Hx|]. apply Hv.
    simpl Z.abs. change 12%Z with (12 * 2 ^ 0)%Z.
    assert (H : (2 ^ 4 <= 2 ^ 53)%Z) by (apply Z.pow_le_mono_r; lia).
    change (2 ^ 4)%Z with 16%Z in H. lia.
Defined.

Lemma lstrip_app_whitespace sp (ws s : string) :
  forallb sp (list_ascii_of_string ws) = true ->
  lstrip sp (ws ++ s) = lstrip sp s.
Proof.
  induction ws as [|c t IH]; simpl; [reflexivity|].
  intros H. apply andb_true_iff in H as [Hc Ht].
  rewrite Hc. now apply IH.
Qed.

Lemma rstrip_whitespace_only sp (ws : string) :
  forallb sp (list_ascii_of_string ws) = true -> rstrip sp ws = EmptyString.
Proof.
  induction ws as [|c t IH]; simpl; [reflexivity|].
  intros H. apply andb_true_iff in H as [Hc Ht].
  now rewrite (IH Ht), Hc.
Qed.

Lemma rstrip_app_whitespace sp (s ws : string) :
  forallb sp (list_ascii_of_string ws) = true ->
  rstrip sp (s ++ ws) = rstrip sp s.
Proof.
  intros H. induction s as [|c t IH]; simpl.
  - now apply rstrip_whitespace_only.
  - now rewrite IH.
Qed.

Lemma lstrip_app sp (s u : string) :
  lstrip sp (s ++ u)
  = match lstrip sp s with
    | EmptyString => lstrip sp u
    | rest => rest ++ u
    end.
Proof.
  induction s as [|c t IH]; simpl; [reflexivity|].
  destruct (sp c); [exact IH|reflexivity].
Qed.

Lemma strip_surrounded sp (ws s ws' : string) :
  forallb sp (list_ascii_of_string ws) = true ->
  forallb sp (list_ascii_of_string ws') = true ->
  strip sp (ws ++ s ++ ws') = strip sp s.
Proof.
  intros H H'. unfold strip.
  rewrite (lstrip_app_whitespace sp ws _ H), lstrip_app.
  destruct (lstrip sp s) as [|c t] eqn:E.
  - now rewrite (lstrip_whitespace_only sp ws' H').
  - now apply rstrip_app_whitespace.
Qed.

(** X21.  White space around a text changes nothing but the wording of
    the message: surrounded by white space, a text is converted by
    [safe_float] and by [safe_int] to the same value, and it is rejected
    exactly when the bare text is. *)
Theorem surrounding_whitespace_ignored
  (ws s ws' : string) (default_x : pyfloat) (default_n : Z) :
  whitespace_only ws = true -> whitespace_only ws' = true ->
  let padded := PyStr (ws ++ s ++ ws') in
  fst (safe_float padded default_x) = fst (safe_float (PyStr s) default_x)
  /\ (snd (safe_float padded default_x) = EmptyString
      <-> snd (safe_float (PyStr s) default_x) = EmptyString)
  /\ fst (safe_int padded default_n) = fst (safe_int (PyStr s) default_n)
  /\ (snd (safe_int padded default_n) = EmptyString
      <-> snd (safe_int (PyStr s) default_n) = EmptyString).
Proof.
  intros H H' padded.
  assert (E : _strip padded = _strip (PyStr s)).
  { unfold padded, _strip. now apply strip_surrounded. }
  unfold safe_float, safe_int. rewrite E.
  destruct (_strip (PyStr s) =? EmptyString).
  - simpl. repeat split; reflexivity.
  - destruct (float (_strip (PyStr s))); destruct (int (_strip (PyStr s)));
      simpl; repeat split; try reflexivity; intros; discriminate.
Qed.

Lemma surrounding_whitespace_ignored_witness :
  let padded := PyStr ("  " ++ "3.5" ++ " ") in
  fst (safe_float padded (Fin 0)) = fst (safe_float (PyStr "3.5") (Fin 0))
  /\ (snd (safe_float padded (Fin 0)) = EmptyString
      <-> snd (safe_float (PyStr "3.5") (Fin 0)) = EmptyString)
  /\ fst (safe_int padded 1) = fst (safe_int (PyStr "3.5") 1)
  /\ (snd (safe_int padded 1) = EmptyString
      <-> snd (safe_int (PyStr "3.5") 1) = EmptyString).
Proof.
  apply (surrounding_whitespace_ignored "  " "3.5" " " (Fin 0) 1);
    reflexivity.
Defined.

(* ================================================================== *)
(** * covid_app/blueprints/exposure.py: the averaged result *)
(* ================================================================== *)

Lemma computed_result_risk (risks : list R) (c : Call) (v : Fields R) :
  let d := summarize risks (initial_result c v) in
  dict_get "risk" d = Some (OFloat (np.mean risks))
  /\ dict_get "old_risk" d = None.
Proof.
  intros d. unfold d. split.
  - now destruct (summarize_entries risks (initial_result c v)) as ((H & _) & _).
  - apply dict_get_absent. rewrite summarize_keys. reflexivity.
Qed.

(** X22.  The average of two results of the engine, which the view
    builds when the immunocompromised status or its severity is not
    known, is never produced: whatever the two calls and the random
    draws, the averaging raises [KeyError].  When both results were
    computed the key is ["old_risk"], which the engine never sets;
    otherwise it is ["risk"], which an error result does not have. *)
Theorem averaging_raises_key_error
  (c c' : Call) (w w' : draws) (s s' t t' : rng_state) (d d' : dict) :
  calculate_unified_transmission_exposure c w s = Some (d, t) ->
  calculate_unified_transmission_exposure c' w' s' = Some (d', t') ->
  exists key,
    exposure_blueprint.average_results d d'
    = inl (exposure_blueprint.KeyError key)
    /\ (key = "risk" \/ key = "old_risk")
    /\ (dict_get "error" d = None -> dict_get "error" d' = None ->
        key = "old_risk").
Proof.
  intros H H'. apply engine_results in H. apply engine_results in H'.
  unfold exposure_blueprint.average_results, exposure_blueprint.averaged_keys.
  destruct H as [[-> _]|(v & _ & _ & -> & _)].
  - exists "risk". split; [reflexivity|]. split; [now left|].
    intros E. exfalso. now apply error_result_has_error.
  - destruct (computed_result_risk (fst (all_risks c (rescale v) w s)) c
                (rescale v)) as [Hr Ho].
    destruct H' as [[-> _]|(v' & _ & _ & -> & _)].
    + exists "risk". split.
      * cbn [exposure_blueprint.average_entries].
        unfold exposure_blueprint.average_entry at 1.
        unfold exposure_blueprint.getitem at 1. rewrite Hr. reflexivity.
      * split; [now left|]. intros _ E. exfalso.
        now apply error_result_has_error.
    + destruct (computed_result_risk (fst (all_risks c' (rescale v') w' s'))
                  c' (rescale v')) as [Hr' _].
      exists "old_risk". split.
      * cbn [exposure_blueprint.average_entries].
        unfold exposure_blueprint.average_entry at 1.
        unfold exposure_blueprint.getitem at 1 2. rewrite Hr, Hr'.
        cbn [exposure_blueprint.half_sum exposure_blueprint.number].
        unfold exposure_blueprint.average_entry at 1.
        unfold exposure_blueprint.getitem at 1. rewrite Ho. reflexivity.
      * split; [now right|]. intros _ _. reflexivity.
Qed.

Lemma averaging_raises_key_error_witness :
  exists d s',
    calculate_unified_transmission_exposure default_call constant_draws
      fresh_rng = Some (d, s')
    /\ exists key,
         exposure_blueprint.average_results d d
         = inl (exposure_blueprint.KeyError key)
         /\ (key = "risk" \/ key = "old_risk")
         /\ (dict_get "error" d = None -> dict_get "error" d = None ->
             key = "old_risk").
Proof.
  destruct default_call_computed as (d & s' & Hrun & _).
  exists d, s'. split; [exact Hrun|].
  exact (averaging_raises_key_error _ _ _ _ _ _ _ _ _ _ Hrun Hrun).
Defined.

(* ================================================================== *)
(** * calculators/time_varying_prevalence.py *)
(* ================================================================== *)

Import time_varying_prevalence.

Lemma safe_after_week_between (r p acc wp : R) :
  0 <= acc -> 0 <= safe_after_week r p acc wp <= acc.
Proof.
  intros Hacc. unfold safe_after_week. cbv zeta.
  assert (Hw : 0 <= (if Rgt_dec p 0 then Rmax 0 (Rmin 1 (r * (wp / p))) else 0)
               <= 1).
  { destruct (Rgt_dec p 0); [|lra].
    unfold Rmax, Rmin.
    destruct (Rle_dec 1 (r * (wp / p))); destruct (Rle_dec 0 _); lra. }
  set (k := if Rgt_dec p 0 then _ else _) in *. nra.
Qed.

Lemma fold_safe_between (r p : R) (weeks : list R) (acc : R) :
  0 <= acc ->
  0 <= fold_left (safe_after_week r p) weeks acc <= acc.
Proof.
  revert acc. induction weeks as [|wp t IH]; intros acc Hacc; simpl; [lra|].
  destruct (safe_after_week_between r p acc wp Hacc) as [H1 H2].
  specialize (IH _ H1). lra.
Qed.

Lemma sequence_extends (data : prevalence_table) (w n n' : Z)
  (region : string) :
  (n <= n')%Z ->
  exists more,
    get_weekly_prevalence_sequence data w n' region
    = (get_weekly_prevalence_sequence data w n region ++ more)%list.
Proof.
  intros H. unfold get_weekly_prevalence_sequence. cbv zeta.
  assert (E : Z.to_nat n' = (Z.to_nat n + (Z.to_nat n' - Z.to_nat n))%nat)
    by lia.
  rewrite E.
  destruct (_ || negb (has_region "National" _)).
  - rewrite repeat_app. eexists. reflexivity.
  - rewrite seq_app, map_app. eexists. reflexivity.
Qed.

(** X23.  The cumulative risk over repeated exposures is a probability
    for every input (whatever the table of prevalences, the base risk
    and the base prevalence), it is 0 when the base prevalence is not
    positive, and it never decreases when exposures are added. *)
Theorem cumulative_risk_is_probability
  (data : prevalence_table) (base_risk base_prevalence : R)
  (n n' : Z) (region : string) (start_week : option Z) :
  (n <= n')%Z ->
  0 <= calculate_time_varying_cumulative_risk data base_risk
         base_prevalence n region start_week
  /\ calculate_time_varying_cumulative_risk data base_risk
       base_prevalence n region start_week
     <= calculate_time_varying_cumulative_risk data base_risk
          base_prevalence n' region start_week
  /\ calculate_time_varying_cumulative_risk data base_risk
       base_prevalence n' region start_week <= 1
  /\ (base_prevalence <= 0 ->
      calculate_time_varying_cumulative_risk data base_risk
        base_prevalence n region start_week = 0).
Proof.
  intros H. unfold calculate_time_varying_cumulative_risk. cbv zeta.
  set (w := match start_week with Some w => w | None => 22%Z end).
  destruct (sequence_extends data w n n' region H) as [more ->].
  rewrite fold_left_app.
  set (weeks := get_weekly_prevalence_sequence data w n region).
  destruct (fold_safe_between base_risk base_prevalence weeks 1) as [H1 H2];
    [lra|].
  destruct (fold_safe_between base_risk base_prevalence more _ H1) as [H3 H4].
  repeat split; try lra.
  intros Hp.
  assert (Hz : forall l acc,
             fold_left (safe_after_week base_risk base_prevalence) l acc
             = acc).
  { induction l as [|x t IH]; intros acc; simpl; [reflexivity|].
    rewrite IH. unfold safe_after_week.
    destruct (Rgt_dec base_prevalence 0); [lra|ring]. }
  rewrite Hz. ring.
Qed.

Lemma cumulative_risk_is_probability_witness :
  0 <= calculate_time_varying_cumulative_risk fallback_table 0.02 0.01 3
         "National" None
  /\ calculate_time_varying_cumulative_risk fallback_table 0.02 0.01 3
       "National" None
     <= calculate_time_varying_cumulative_risk fallback_table 0.02 0.01 10
          "National" None
  /\ calculate_time_varying_cumulative_risk fallback_table 0.02 0.01 10
       "National" None <= 1.
Proof.
  destruct (cumulative_risk_is_probability fallback_table 0.02 0.01 3 10
              "National" None) as (H1 & H2 & H3 & _); [lia|].
  repeat split; assumption.
Defined.

Lemma weekly_sequence_length
  (data : prevalence_table) (w n : Z) (region : string) :
  length (get_weekly_prevalence_sequence data w n region) = Z.to_nat n.
Proof.
  unfold get_weekly_prevalence_sequence. cbv zeta.
  destruct (_ || negb (has_region "National" _)).
  - apply repeat_length.
  - now rewrite length_map, length_seq.
Qed.

Lemma week_number_period (w : Z) (i : nat) :
  ((w + 52 - 1 + Z.of_nat i) mod 52 = (w - 1 + Z.of_nat i) mod 52)%Z.
Proof.
  replace (w + 52 - 1 + Z.of_nat i)%Z with (w - 1 + Z.of_nat i + 1 * 52)%Z
    by lia.
  apply Z_mod_plus_full.
Qed.

(** X24.  The sequence of weekly prevalences has one value per week
    asked for (none for a number of weeks that is not positive), and it
    has a period of one year: starting 52 weeks later gives the same
    sequence, hence the same cumulative risk. *)
Theorem weekly_sequence_periodic
  (data : prevalence_table) (w n : Z) (region : string)
  (base_risk base_prevalence : R) :
  length (get_weekly_prevalence_sequence data w n region) = Z.to_nat n
  /\ get_weekly_prevalence_sequence data (w + 52) n region
     = get_weekly_prevalence_sequence data w n region
  /\ calculate_time_varying_cumulative_risk data base_risk
       base_prevalence n region (Some (w + 52)%Z)
     = calculate_time_varying_cumulative_risk data base_risk
         base_prevalence n region (Some w).
Proof.
  assert (E : get_weekly_prevalence_sequence data (w + 52) n region
              = get_weekly_prevalence_sequence data w n region).
  { unfold get_weekly_prevalence_sequence. cbv zeta.
    destruct (_ || negb (has_region "National" _)); [reflexivity|].
    apply map_ext. intros i. unfold week_prevalence. cbv zeta.
    now rewrite week_number_period. }
  split; [apply weekly_sequence_length|]. split; [exact E|].
  unfold calculate_time_varying_cumulative_risk. cbv zeta.
  now rewrite E.
Qed.

Lemma fold_constant_weeks (r p : R) (n : nat) (acc : R) :
  0 < p -> 0 <= r <= 1 ->
  fold_left (safe_after_week r p) (repeat p n) acc = acc * (1 - r) ^ n.
Proof.
  intros Hp Hr. revert acc. induction n as [|n IH]; intros acc; simpl.
  - ring.
  - rewrite IH. unfold safe_after_week. cbv zeta.
    destruct (Rgt_dec p 0); [|lra].
    replace (r * (p / p)) with r by (field; lra).
    unfold Rmax, Rmin.
    destruct (Rle_dec 1 r); destruct (Rle_dec 0 _); try lra;
      try (replace r with 1 by lra); ring.
Qed.

(** X25.  When the prevalence of every week equals the base prevalence,
    the cumulative risk of [n] exposures to a single-exposure risk [r]
    is the classical [1 - (1 - r)^n]. *)
Theorem constant_prevalence_compounds
  (data : prevalence_table) (r p : R) (n : Z) (region : string)
  (start_week : option Z) :
  0 < p -> 0 <= r <= 1 ->
  Forall (fun week_prevalence => week_prevalence = p)
    (get_weekly_prevalence_sequence data
       (match start_week with Some w => w | None => 22%Z end) n region) ->
  calculate_time_varying_cumulative_risk data r p n region start_week
  = 1 - (1 - r) ^ Z.to_nat n.
Proof.
  intros Hp Hr Hall.
  unfold calculate_time_varying_cumulative_risk. cbv zeta.
  set (weeks := get_weekly_prevalence_sequence data _ n region) in *.
  assert (Hlen : length weeks = Z.to_nat n)
    by apply (weekly_sequence_length data _ n region).
  assert (E : weeks = repeat p (Z.to_nat n)).
  { rewrite <- Hlen. clear Hlen.
    induction Hall as [|x t Hx Ht IH]; simpl; [reflexivity|].
    now rewrite Hx, <- IH. }
  rewrite E, fold_constant_weeks by assumption. ring.
Qed.

Lemma constant_prevalence_compounds_witness :
  calculate_time_varying_cumulative_risk
    fallback_table 0.02 0.01 3 "National" None
  = 1 - (1 - 0.02) ^ 3.
Proof.
  apply (constant_prevalence_compounds fallback_table 0.02 0.01 3 "National"
           None); [lra|lra|].
  unfold get_weekly_prevalence_sequence. cbn.
  repeat constructor.
Defined.

(* ================================================================== *)
(** * Arguments of the engine without effect on the risk *)
(* ================================================================== *)

Lemma people_dose_effective c v m o BR eta_in x_eff dt_h n total w s :
  people_dose c v m o BR eta_in x_eff dt_h n total w s
  = people_dose (effective_call c) (effective_fields v) m o BR eta_in x_eff
      dt_h n total w s.
Proof.
  revert total s. induction n as [|n IH]; intros total s; [reflexivity|].
  cbn [people_dose]. unfold bind at 1 3.
  change (covid_prevalence_val (effective_fields v))
    with (covid_prevalence_val v).
  destruct (Rlt_dec _ _).
  - unfold bind at 1 2.
    change (infectious_person_dose (effective_call c) (effective_fields v))
      with (infectious_person_dose c v).
    apply IH.
  - apply IH.
Qed.

Lemma simulation_effective c v m w s :
  simulation c v m w s
  = simulation (effective_call c) (effective_fields v) m w s.
Proof.
  unfold simulation. unfold bind at 1 2 3 4 6 7 8 9.
  cbn [effective_call effective_fields a_user_physical_activity f_i_val x_val
       delta_t_val N_val immune_val].
  now rewrite people_dose_effective.
Qed.

Lemma simulations_effective c v m n w s :
  simulations c v m n w s
  = simulations (effective_call c) (effective_fields v) m n w s.
Proof.
  revert s. induction n as [|n IH]; intros s; [reflexivity|].
  cbn [simulations]. unfold bind at 1 3.
  rewrite <- simulation_effective. unfold bind at 1 2.
  now rewrite <- IH.
Qed.

Lemma all_risks_effective c v w s :
  all_risks c v w s = all_risks (effective_call c) (effective_fields v) w s.
Proof. unfold all_risks. apply simulations_effective. Qed.

Lemma finite_fields_values (F : Fields pyfloat) (v : Fields R) :
  finite_fields F = Some v ->
  real_of (ACH_val F) = Some (ACH_val v)
  /\ real_of (room_volume_val F) = Some (room_volume_val v)
  /\ real_of (delta_t_val F) = Some (delta_t_val v)
  /\ real_of (x_val F) = Some (x_val v)
  /\ real_of (f_e_val F) = Some (f_e_val v)
  /\ real_of (f_i_val F) = Some (f_i_val v)
  /\ real_of (covid_prevalence_val F) = Some (covid_prevalence_val v)
  /\ real_of (immune_val F) = Some (immune_val v)
  /\ real_of (percentage_masked_val F) = Some (percentage_masked_val v)
  /\ N_val F = N_val v.
Proof.
  unfold finite_fields.
  repeat match goal with
         | |- context [match real_of ?x with _ => _ end] =>
             destruct (real_of x); try discriminate
         end.
  intros H. injection H as <-. cbn. repeat split; reflexivity.
Qed.

Lemma effective_fields_agree (c c' : Call) (v v' : Fields R) :
  effective_call c = effective_call c' ->
  finite_fields (snd (convert_inputs c)) = Some v ->
  finite_fields (snd (convert_inputs c')) = Some v' ->
  effective_fields (rescale v) = effective_fields (rescale v').
Proof.
  intros Hc H H'.
  apply finite_fields_values in H. apply finite_fields_values in H'.
  rewrite convert_inputs_fields in H, H'. cbn in H, H'.
  assert (E1 := f_equal a_ACH Hc). assert (E2 := f_equal a_room_volume Hc).
  assert (E3 := f_equal a_delta_t Hc). assert (E4 := f_equal a_x Hc).
  assert (E5 := f_equal a_f_e Hc). assert (E6 := f_equal a_f_i Hc).
  assert (E7 := f_equal a_covid_prevalence Hc).
  assert (E8 := f_equal a_immune Hc).
  assert (E9 := f_equal a_percentage_masked Hc).
  assert (E10 := f_equal a_N Hc).
  cbn in E1, E2, E3, E4, E5, E6, E7, E8, E9, E10.
  rewrite <- E1, <- E2, <- E3, <- E4, <- E5, <- E6, <- E7, <- E8, <- E9,
    <- E10 in H'.
  destruct H as (A1 & A2 & A3 & A4 & A5 & A6 & A7 & A8 & A9 & A10).
  destruct H' as (B1 & B2 & B3 & B4 & B5 & B6 & B7 & B8 & B9 & B10).
  rewrite A1 in B1. rewrite A2 in B2. rewrite A3 in B3. rewrite A4 in B4.
  rewrite A5 in B5. rewrite A6 in B6. rewrite A7 in B7. rewrite A8 in B8.
  rewrite A9 in B9. rewrite A10 in B10.
  injection B1 as B1. injection B2 as B2. injection B3 as B3.
  injection B4 as B4. injection B5 as B5. injection B6 as B6.
  injection B7 as B7. injection B8 as B8. injection B9 as B9.
  unfold effective_fields, rescale. cbn.
  now rewrite B1, B2, B3, B4, B5, B6, B7, B8, B9, B10.
Qed.

Lemma summarize_own_entries (risks : list R) (result result' : dict)
  (key : string) :
  In key ["risk"; "mc_mean_pf"; "mc_pf_ci_5"; "mc_pf_ci_95"; "mc_pf_ci_25";
          "mc_pf_ci_75"; "mc_pf_ci_0_5"; "mc_pf_ci_99_5"; "mc_pf_median";
          "mc_mean"; "mc_median"; "mc_ci_5"; "mc_ci_95"; "mc_ci_25";
          "mc_ci_75"; "mc_ci_0_5"; "mc_ci_99_5"; "risk_distribution_data"] ->
  dict_get key (summarize risks result)
  = dict_get key (summarize risks result').
Proof.
  intros Hkey. simpl in Hkey. unfold summarize. cbv zeta.
  destruct (risk_distribution.generate_risk_distribution_data risks);
    decompose [or] Hkey; try contradiction; subst key; lookup; reflexivity.
Qed.

Lemma initial_result_effective (c c' : Call) (v v' : Fields R) (key : string) :
  effective_fields v = effective_fields v' ->
  In key ["q_e"; "ACH"; "room_volume"; "N_masked"; "N_unmasked"] ->
  dict_get key (initial_result c v) = dict_get key (initial_result c' v').
Proof.
  intros Hv Hkey.
  assert (E1 := f_equal ACH_val Hv). assert (E2 := f_equal room_volume_val Hv).
  assert (E3 := f_equal (@N_val R) Hv).
  assert (E4 := f_equal percentage_masked_val Hv).
  cbn in E1, E2, E3, E4.
  unfold initial_result. cbv zeta. rewrite E1, E2, E3, E4.
  simpl in Hkey.
  decompose [or] Hkey; try contradiction; subst key; lookup; reflexivity.
Qed.

(** X26.  Six arguments of the engine have no effect on what it
    computes: two calls that differ only in [C0], [Q0], [p], [gamma],
    [omicron] and [activity_choice], and whose conversions both succeed,
    consume the same random draws and report the same value under every
    key but the echo of the inputs and the label of the activity. *)
Theorem unused_arguments_have_no_effect
  (c c' : Call) (w : draws) (s t t' : rng_state) (d d' : dict) :
  effective_call c = effective_call c' ->
  calculate_unified_transmission_exposure c w s = Some (d, t) ->
  calculate_unified_transmission_exposure c' w s = Some (d', t') ->
  dict_get "error" d = None -> dict_get "error" d' = None ->
  t = t'
  /\ forall key, In key computed_keys -> dict_get key d = dict_get key d'.
Proof.
  intros Hc H H' Herr Herr'.
  apply engine_results in H. apply engine_results in H'.
  destruct H as [[-> _]|(v & _ & Hfin & -> & ->)];
    [exfalso; now apply error_result_has_error|].
  destruct H' as [[-> _]|(v' & _ & Hfin' & -> & ->)];
    [exfalso; now apply error_result_has_error|].
  assert (Hv := effective_fields_agree c c' v v' Hc Hfin Hfin').
  assert (Hr : all_risks c (rescale v) w s = all_risks c' (rescale v') w s).
  { rewrite (all_risks_effective c), (all_risks_effective c').
    now rewrite Hc, Hv. }
  rewrite Hr. split; [reflexivity|].
  intros key Hkey.
  set (risks := fst (all_risks c' (rescale v') w s)).
  unfold computed_keys in Hkey. simpl in Hkey.
  assert (Hkept : forall k,
             In k ["q_e"; "ACH"; "room_volume"; "N_masked"; "N_unmasked"] ->
             existsb (String.eqb k)
               ["N_masked"; "N_unmasked"; "q_e"; "ACH"; "room_volume";
                "activity_label"; "inputs"] = true).
  { intros k Hk. simpl in Hk.
    decompose [or] Hk; try contradiction; subst k; reflexivity. }
  decompose [or] Hkey; clear Hkey; try contradiction; subst key;
    first [ rewrite !summarize_keeps by (apply Hkept; simpl; tauto);
            apply initial_result_effective; [exact Hv|simpl; tauto]
          | apply summarize_own_entries; simpl; tauto ].
Qed.

Lemma unused_arguments_have_no_effect_witness :
  exists d d' t,
    calculate_unified_transmission_exposure default_call constant_draws
      fresh_rng = Some (d, t)
    /\ calculate_unified_transmission_exposure other_legacy_call
         constant_draws fresh_rng = Some (d', t)
    /\ forall key, In key computed_keys -> dict_get key d = dict_get key d'.
Proof.
  destruct default_call_computed as (d & t & Hrun & Herr).
  assert (Hany : any (fst (convert_inputs other_legacy_call)) = false)
    by (vm_compute; reflexivity).
  assert (Hfin : exists v,
             finite_fields (snd (convert_inputs other_legacy_call)) = Some v).
  { rewrite convert_inputs_fields. eexists. reflexivity. }
  destruct Hfin as (v & Hfin).
  assert (Hrun' := engine_on_success _ constant_draws fresh_rng _ Hany Hfin).
  assert (Herr' :
            dict_get "error"
              (summarize
                 (fst (all_risks other_legacy_call (rescale v) constant_draws
                         fresh_rng))
                 (initial_result other_legacy_call (rescale v))) = None).
  { destruct (summarize_entries
                (fst (all_risks other_legacy_call (rescale v) constant_draws
                        fresh_rng))
                (initial_result other_legacy_call (rescale v)))
      as (_ & _ & E).
    rewrite E. apply initial_result_no_error. }
  destruct (unused_arguments_have_no_effect default_call other_legacy_call
              constant_draws fresh_rng _ _ _ _ eq_refl Hrun Hrun' Herr Herr')
    as [Ht Hkeys].
  exists d. eexists. exists t. split; [exact Hrun|].
  split; [rewrite Ht; exact Hrun'|exact Hkeys].
Defined.
